(** * LinkedIn followers scraper: the page-to-row reduction pipeline

    A shallow embedding of the two scripts of the repository,

      - [linkedin_followers_complete.py]  (download, then process), and
      - [process_existing_followers.py]   (process only),

    and the properties of their reducer: entity extraction, relationship
    extraction, row construction and the page-set orchestrator; then those
    of the downloader, of [write_csv] and of the two entry points.

    Conventions of the embedding.

    - A parsed snapshot is a value of [json], the image of [json.load]:
      [None], [bool], [int], [str], [list] and [dict] with string keys, the
      dict as an association list in insertion order (a parsed object has
      distinct keys).  JSON numbers with a fraction or an exponent (Python
      floats) are outside the model.
    - A string is a Rocq [string], the UTF-8 bytes of the Python [str]:
      equality, substring tests and order are those of Python.  The length
      of a [str] and the iteration over its characters, which the scripts
      reach on malformed snapshots only, count bytes; they are Python's on
      ASCII text.  [str] of a list or a dict, which the scripts reach when
      a field that should be a string is one, is Python's when the strings
      inside have no unprintable character outside ASCII; the properties
      state the text of primitive values only.
    - Python exceptions are values of [exn]; a computation that may raise
      has type [result A].  A [try ... except Exception] block is a match on
      the result of its body.
    - Standard output is a list of [line] values, one per [print] call.
    - The network and the disk are what the scripts are given: what a
      request for a URL returns, and what opening a file and writing to it
      does.  A CSV file is its header and its records, a record being the
      texts of its cells. *)

From Stdlib Require Import ZArith String Ascii List Bool Lia Sorting.Sorted.
From stdpp Require Import gmap strings list fin_maps.

Local Open Scope string_scope.
Local Open Scope list_scope.
Local Open Scope Z_scope.

(** ** Exceptions and the error monad *)

Inductive exn : Type :=
| TypeError
| KeyError
| AttributeError
| OSError
| JSONDecodeError
| ValueError.

Inductive result (A : Type) : Type :=
| Ok (a : A)
| Raise (e : exn).

Arguments Ok {A} a.
Arguments Raise {A} e.

Definition bind {A B : Type} (c : result A) (k : A -> result B) : result B :=
  match c with
  | Ok a => k a
  | Raise e => Raise e
  end.

Declare Scope py_scope.
Delimit Scope py_scope with py.
Notation "'let*' x ':=' c 'in' k" := (bind c (fun x => k))
  (at level 10, x name, c at level 100, k at level 200) : py_scope.
Notation "'let*' ' p ':=' c 'in' k" := (bind c (fun x => match x with p => k end))
  (at level 10, p pattern, c at level 100, k at level 200) : py_scope.
Local Open Scope py_scope.

Definition succeeds {A : Type} (c : result A) : bool :=
  match c with
  | Ok _ => true
  | Raise _ => false
  end.

(** ** Python values read from JSON *)

#[local] Set Warnings "-register-all".

Inductive json : Type :=
| JNull
| JBool (b : bool)
| JInt (n : Z)
| JStr (s : string)
| JList (items : list json)
| JDict (fields : list (string * json)).

(** Lookup of a key in a dict (the first binding of the key). *)
Fixpoint dict_lookup (k : string) (fields : list (string * json)) : option json :=
  match fields with
  | [] => None
  | (k', v) :: rest => if String.eqb k k' then Some v else dict_lookup k rest
  end.

Definition dict_has (k : string) (fields : list (string * json)) : bool :=
  match dict_lookup k fields with
  | Some _ => true
  | None => false
  end.

(** [needle in hay] on two strings: substring test. *)
Definition str_contains (needle hay : string) : bool :=
  match String.index 0 needle hay with
  | Some _ => true
  | None => false
  end.

(** [k in v] for a string [k]: key test on a dict, membership on a list,
    substring test on a string, [TypeError] on [None], [bool] and [int]. *)
Definition py_in (k : string) (v : json) : result bool :=
  match v with
  | JDict fields => Ok (dict_has k fields)
  | JList items =>
      Ok (existsb (fun x => match x with JStr s => String.eqb s k | _ => false end) items)
  | JStr s => Ok (str_contains k s)
  | JNull | JBool _ | JInt _ => Raise TypeError
  end.

(** [v[k]] for a string [k]: [KeyError] on a dict without the key,
    [TypeError] on every other value (a list and a string take integer
    indices only). *)
Definition py_getitem (v : json) (k : string) : result json :=
  match v with
  | JDict fields =>
      match dict_lookup k fields with
      | Some x => Ok x
      | None => Raise KeyError
      end
  | _ => Raise TypeError
  end.

(** [v.get(k, default)]: only a dict has the method. *)
Definition py_get (v : json) (k : string) (default : json) : result json :=
  match v with
  | JDict fields =>
      match dict_lookup k fields with
      | Some x => Ok x
      | None => Ok default
      end
  | _ => Raise AttributeError
  end.

(** Truth value of a Python object ([if v] / [not v]). *)
Definition py_truthy (v : json) : bool :=
  match v with
  | JNull => false
  | JBool b => b
  | JInt n => negb (n =? 0)
  | JStr s => negb (String.eqb s "")
  | JList items => match items with [] => false | _ => true end
  | JDict fields => match fields with [] => false | _ => true end
  end.

(** [isinstance(v, dict)]. *)
Definition is_dict (v : json) : bool :=
  match v with
  | JDict _ => true
  | _ => false
  end.

(** [len(v)]. *)
Definition py_len (v : json) : result nat :=
  match v with
  | JList items => Ok (length items)
  | JDict fields => Ok (length fields)
  | JStr s => Ok (String.length s)
  | JNull | JBool _ | JInt _ => Raise TypeError
  end.

(** The items a [for] loop visits: the members of a list, the keys of a
    dict, the one-character strings of a string. *)
Fixpoint str_chars (s : string) : list json :=
  match s with
  | EmptyString => []
  | String c rest => JStr (String c EmptyString) :: str_chars rest
  end.

Definition py_iter (v : json) : result (list json) :=
  match v with
  | JList items => Ok items
  | JDict fields => Ok (map (fun kv => JStr (fst kv)) fields)
  | JStr s => Ok (str_chars s)
  | JNull | JBool _ | JInt _ => Raise TypeError
  end.

(** *** Decimal text of an integer *)

Definition digit_char (d : N) : ascii := ascii_of_N (48 + d).

Fixpoint str_of_N_fuel (fuel : nat) (n : N) : string :=
  match fuel with
  | O => ""
  | S fuel' =>
      if (n <? 10)%N then String (digit_char n) ""
      else str_of_N_fuel fuel' (n / 10)%N +:+ String (digit_char (n mod 10)%N) ""
  end.

(** [str(n)] for [n >= 0]: a number has no more decimal digits than bits. *)
Definition str_of_N (n : N) : string :=
  str_of_N_fuel (S (N.to_nat (N.log2 n))) n.

Definition str_of_Z (n : Z) : string :=
  if n <? 0 then "-" +:+ str_of_N (Z.abs_N n) else str_of_N (Z.abs_N n).

(** *** [repr] and [str]

    [repr] of a string puts it in single quotes, or in double quotes when
    it holds a single quote and no double quote, and escapes the backslash,
    the quote in use, tab, newline, carriage return and the other control
    characters of ASCII.  Python also escapes the characters outside ASCII
    that it does not count as printable; here they stay as they are, so
    [repr], and with it [str] of a list or of a dict, is Python's on
    strings whose characters outside ASCII are printable. *)

Definition squote : ascii := ascii_of_N 39.
Definition dquote : ascii := ascii_of_N 34.

Definition hex_digit (d : N) : ascii :=
  if (d <? 10)%N then ascii_of_N (48 + d) else ascii_of_N (87 + d).

Definition repr_char (quote c : ascii) : string :=
  let n := N_of_ascii c in
  if Ascii.eqb c quote then String "\" (String c "")
  else if Ascii.eqb c "\" then "\\"
  else if (n =? 9)%N then "\t"
  else if (n =? 10)%N then "\n"
  else if (n =? 13)%N then "\r"
  else if ((n <? 32) || (n =? 127))%N
       then "\x" +:+ String (hex_digit (n / 16)%N) (String (hex_digit (n mod 16)%N) "")
  else String c "".

Fixpoint repr_chars (quote : ascii) (s : string) : string :=
  match s with
  | EmptyString => ""
  | String c rest => repr_char quote c +:+ repr_chars quote rest
  end.

Definition repr_str (s : string) : string :=
  let quote : ascii :=
    if str_contains (String squote "") s && negb (str_contains (String dquote "") s)
    then dquote else squote in
  String quote (repr_chars quote s) +:+ String quote "".

Fixpoint join (sep : string) (parts : list string) : string :=
  match parts with
  | [] => ""
  | [p] => p
  | p :: rest => p +:+ sep +:+ join sep rest
  end.

Fixpoint py_repr (v : json) : string :=
  match v with
  | JNull => "None"
  | JBool true => "True"
  | JBool false => "False"
  | JInt n => str_of_Z n
  | JStr s => repr_str s
  | JList items => "[" +:+ join ", " (map py_repr items) +:+ "]"
  | JDict fields =>
      "{" +:+ join ", " (map (fun kv => repr_str (fst kv) +:+ ": " +:+ py_repr (snd kv)) fields)
          +:+ "}"
  end.

(** [str(v)], also what an f-string puts for [{v}]. *)
Definition py_str (v : json) : string :=
  match v with
  | JStr s => s
  | _ => py_repr v
  end.

(** ** Standard output *)

Inductive line : Type :=
| LErrorExtracting (e : exn)            (* Error extracting elements: {e} *)
| LErrorBuildingRow (e : exn)           (* Error building row: {e} *)
| LNoFilesMatching                      (* No files found matching pattern: ... *)
| LMakeSureDownloaded                   (* Make sure you have downloaded ... first. *)
| LNoDownloadedFiles                    (* No downloaded page files found *)
| LFoundPageFiles (n : nat)             (* Found {n} page files to process... *)
| LProcessingDownloaded (n : nat)       (* Processing {n} downloaded page files... *)
| LProcessing (filename : string)       (* Processing {filename}... *)
| LErrorReading (filename : string) (e : exn)
| LFoundProfiles (n : nat)
| LFoundElements (n : nat)
| LTotalProfiles (n : nat)
| LTotalRows (n : nat)
| LNoRowsToWrite                        (* No rows to write *)
| LWroteRows (n : nat) (filename : string)
| LErrorWritingCsv (e : exn)
| LTitle                                (* LinkedIn Followers CSV Processor *)
| LRule                                 (* ======== *)
| LProcessingExisting                   (* Processing existing downloaded page files... *)
| LNoDataFound                          (* No data found to process *)
| LSuccess (filename : string) (n : nat)  (* Success! Created {file} with {n} followers *)
| LCsvIncludes                          (* CSV includes: LinkedIn URLs, names, ... *)
| LFailedCsv.                           (* Failed to create CSV file *)

(** ** Dictionaries built by the scripts

    The keys of a Python dict are hashable objects compared with [==]:
    [None], numbers ([True] is [1] and [False] is [0]) and strings; a list or
    a dict as a key raises [TypeError]. *)

Inductive pykey : Type :=
| KNone
| KNum (n : Z)
| KStr (s : string).

#[global] Instance pykey_eq_dec : EqDecision pykey.
Proof. solve_decision. Defined.

#[global] Instance pykey_countable : Countable pykey.
Proof.
  refine (inj_countable'
    (fun k => match k with
              | KNone => inl ()
              | KNum n => inr (inl n)
              | KStr s => inr (inr s)
              end)
    (fun x => match x with
              | inl _ => KNone
              | inr (inl n) => KNum n
              | inr (inr s) => KStr s
              end) _).
  intros []; reflexivity.
Defined.

Definition py_key (v : json) : result pykey :=
  match v with
  | JNull => Ok KNone
  | JBool b => Ok (KNum (if b then 1 else 0))
  | JInt n => Ok (KNum n)
  | JStr s => Ok (KStr s)
  | JList _ | JDict _ => Raise TypeError
  end.

(** The profile mapping: resource identifier to profile. *)
Abbreviation profile_map := (gmap pykey json).

(** An output row: a dict from column name to value; [[]] is [{}]. *)
Abbreviation row := (list (string * json)).

(** [a and b] on two tests, the second evaluated only when the first holds. *)
Definition py_and (a b : result bool) : result bool :=
  let* x := a in if x then b else Ok false.

(** A [for] loop whose body may raise: the state after the last item, or
    the first exception. *)
Fixpoint for_each {S A : Type} (body : S -> A -> result S) (st : S) (items : list A)
  : result S :=
  match items with
  | [] => Ok st
  | x :: rest => let* st' := body st x in for_each body st' rest
  end.

(** ** Files

    A directory lists its entries in some order; an entry is a name and what
    [open] followed by [json.load] gives for it: the parsed content, or the
    exception one of the two raises. *)

Abbreviation file := (result json).
Abbreviation directory := (list (string * file)).

Definition str_suffix (suffix s : string) : bool :=
  let n := String.length s in
  let k := String.length suffix in
  (k <=? n)%nat && String.eqb (String.substring (n - k) k s) suffix.

(** [fnmatch(name, "followers_page_*.json")]. *)
Definition matches_page_pattern (name : string) : bool :=
  String.prefix "followers_page_" name
  && str_suffix ".json" name
  && (String.length "followers_page_" + String.length ".json" <=? String.length name)%nat.

(** [glob.glob("followers_page_*.json")], the pattern of both scripts: the
    matching names, in the order the directory lists them. *)
Definition glob_pages (dir : directory) : list string :=
  filter (fun name => matches_page_pattern name = true) (map fst dir).

Fixpoint read_file (dir : directory) (name : string) : file :=
  match dir with
  | [] => Raise OSError
  | (name', content) :: rest =>
      if String.eqb name name' then content else read_file rest name
  end.

(** [sorted] on a list of strings: ascending in the order of [str]. *)
Fixpoint insert_sorted (x : string) (l : list string) : list string :=
  match l with
  | [] => [x]
  | y :: rest => if String.leb x y then x :: l else y :: insert_sorted x rest
  end.

Definition sorted (l : list string) : list string :=
  foldr insert_sorted [] l.

(** ** The CSV file

    A CSV file as [csv.DictWriter] writes it: the header and the records,
    a record being the texts of its cells (quoting is that of the [csv]
    module and is not modelled). *)
Record csv_file : Type := {
  csv_name : string;
  csv_header : list string;
  csv_records : list (list string)
}.

(** What opening the file for writing and writing to it does: nothing
    goes wrong; [open] raises and the file is as it was; or the file is
    opened, which creates or empties it, and writing breaks off. *)
Inductive disk_outcome : Type :=
| DiskDone
| DiskRefused (e : exn)
| DiskBroken (e : exn).

(** What a call of [write_csv] did to the file: nothing; it holds the
    header and the records written; or it was created or emptied and holds
    a part of the text, possibly none. *)
Inductive csv_effect : Type :=
| CsvUntouched
| CsvFile (f : csv_file)
| CsvBrokenOff.

(** The text the writer puts in a cell: nothing for [None], a string as
    it is, [str] of any other value. *)
Definition csv_cell (v : json) : string :=
  match v with
  | JNull => ""
  | _ => py_str v
  end.

(** [DictWriter._dict_to_list]: a row with a key that is not a field name
    raises [ValueError]; otherwise the cells in the order of the field
    names, empty for a field the row does not have. *)
Definition dict_to_list (fieldnames : list string) (r : row) : result (list string) :=
  if forallb (fun kv => existsb (String.eqb (fst kv)) fieldnames) r
  then Ok (map (fun name => match dict_lookup name r with
                            | Some v => csv_cell v
                            | None => ""
                            end) fieldnames)
  else Raise ValueError.

(** [DictWriter.writerows]: the records written, and the exception that
    ended the writing if a row raised. *)
Fixpoint writerows (fieldnames : list string) (rows : list row)
  : list (list string) * option exn :=
  match rows with
  | [] => ([], None)
  | r :: rest =>
      match dict_to_list fieldnames r with
      | Raise e => ([], Some e)
      | Ok cells =>
          let '(records, stop) := writerows fieldnames rest in
          (cells :: records, stop)
      end
  end.

(** The state of the page loop. *)
Record loop_state : Type := {
  all_rows : list row;
  all_profiles : profile_map;
  printed : list line
}.

Definition is_empty_row (r : row) : bool :=
  match r with
  | [] => true
  | _ => false
  end.

(** ** linkedin_followers_complete.py

    The reducer of the script and, of its downloader, the number of pages
    and the names of the snapshot files; the downloader and [main] follow
    in [Downloader]. *)

Module Complete.

Definition TOTAL_FOLLOWERS : Z := 2417.
Definition COUNT_PER_PAGE : Z := 50.
Definition OUTPUT_FILE : string := "followers.csv".

(** The name [save_page_data] gives the snapshot of a page. *)
Definition page_filename (page : N) : string :=
  "followers_page_" +:+ str_of_N page +:+ ".json".

(** [download_all_followers]: the number of pages and the pages of its
    loop, [range(num_pages)]. *)
Definition num_pages : Z :=
  (TOTAL_FOLLOWERS + COUNT_PER_PAGE - 1) / COUNT_PER_PAGE.

Definition pages : list N :=
  map N.of_nat (seq 0 (Z.to_nat num_pages)).

Definition add_profile (profiles : profile_map) (profile : json) : result profile_map :=
  let* both := py_and (py_in "entityUrn" profile) (py_in "publicIdentifier" profile) in
  if both then
    let* urn := py_getitem profile "entityUrn" in
    let* key := py_key urn in
    Ok (<[key := profile]> profiles)
  else Ok profiles.

Definition extract_profiles_from_page (page_data : json) : result profile_map :=
  let* has_included := py_in "included" page_data in
  if has_included then
    let* included := py_getitem page_data "included" in
    let* items := py_iter included in
    for_each add_profile ∅ items
  else Ok ∅.

(** The [try] block of [extract_elements_from_page]: the value of
    [elements] when the block completes. *)
Definition extract_elements_try (page_data : json) : result json :=
  let* nested :=
    py_and (py_in "data" page_data)
           (let* d := py_getitem page_data "data" in py_in "data" d) in
  let* main_data :=
    if nested then
      let* d := py_getitem page_data "data" in py_getitem d "data"
    else
      let* wrapped := py_in "data" page_data in
      if wrapped then py_getitem page_data "data" else Ok page_data in
  let* has_container :=
    py_in "organizationDashFollowersByOrganizationalPage" main_data in
  if has_container then
    let* follower_data :=
      py_getitem main_data "organizationDashFollowersByOrganizationalPage" in
    let* has_elements := py_in "elements" follower_data in
    if has_elements then py_getitem follower_data "elements" else Ok (JList [])
  else Ok (JList []).

Definition extract_elements_from_page (page_data : json) : json * list line :=
  match extract_elements_try page_data with
  | Ok elements => (elements, [])
  | Raise e => (JList [], [LErrorExtracting e])
  end.

(** The [try] block of [build_follower_row]. *)
Definition build_follower_row_try (element : json) (profiles : profile_map)
  : result row :=
  let* has_ref :=
    py_and (py_in "followerV2" element)
           (let* f := py_getitem element "followerV2" in py_in "*profile" f) in
  let* profile_urn :=
    if has_ref then
      let* f := py_getitem element "followerV2" in py_getitem f "*profile"
    else Ok JNull in
  let* profile :=
    if py_truthy profile_urn then
      let* key := py_key profile_urn in
      Ok (default (JDict []) (profiles !! key))
    else Ok (JDict []) in
  let* followed_at := py_get element "followedAt" (JDict []) in
  let* '(followed_text, followed_accessibility) :=
    if is_dict followed_at then
      let* t := py_get followed_at "text" (JStr "") in
      let* a := py_get followed_at "accessibilityText" (JStr "") in
      Ok (t, a)
    else
      Ok (if py_truthy followed_at then JStr (py_str followed_at) else JStr "",
          JStr "") in
  let* public_identifier := py_get profile "publicIdentifier" (JStr "") in
  let linkedin_url :=
    if py_truthy public_identifier
    then JStr ("https://www.linkedin.com/in/" +:+ py_str public_identifier +:+ "/")
    else JStr "" in
  let* first_name := py_get profile "firstName" (JStr "") in
  let* last_name := py_get profile "lastName" (JStr "") in
  let* headline := py_get profile "headline" (JStr "") in
  let* own_urn := py_get element "entityUrn" (JStr "") in
  let* entity_urn := py_get profile "entityUrn" own_urn in
  Ok [ ("firstName", first_name);
       ("lastName", last_name);
       ("headline", headline);
       ("publicIdentifier", public_identifier);
       ("linkedinUrl", linkedin_url);
       ("followedAt.text", followed_text);
       ("followedAt.accessibilityText", followed_accessibility);
       ("entityUrn", entity_urn) ].

(** The function: the row, [{}] after an exception, and what it printed. *)
Definition build_follower_row (element : json) (profiles : profile_map)
  : row * list line :=
  match build_follower_row_try element profiles with
  | Ok r => (r, [])
  | Raise e => ([], [LErrorBuildingRow e])
  end.

(** The body of [for element in elements]. *)
Definition add_row (profiles : profile_map) (acc : list row * list line)
  (element : json) : list row * list line :=
  let '(r, out) := build_follower_row element profiles in
  (if is_empty_row r then fst acc else fst acc ++ [r], snd acc ++ out).

(** The body of [for i, filename in enumerate(page_files)]. *)
Definition process_page (dir : directory) (st : loop_state) (filename : string)
  : result loop_state :=
  let out := printed st ++ [LProcessing filename] in
  match read_file dir filename with
  | Raise e =>
      Ok {| all_rows := all_rows st;
            all_profiles := all_profiles st;
            printed := out ++ [LErrorReading filename e] |}
  | Ok page_data =>
      let* page_profiles := extract_profiles_from_page page_data in
      let profiles := page_profiles ∪ all_profiles st in
      let out := out ++ [LFoundProfiles (size page_profiles)] in
      let '(elements, err) := extract_elements_from_page page_data in
      let out := out ++ err in
      let* n := py_len elements in
      let out := out ++ [LFoundElements n] in
      let* items := py_iter elements in
      let '(rows, out) := fold_left (add_row profiles) items (all_rows st, out) in
      Ok {| all_rows := rows; all_profiles := profiles; printed := out |}
  end.

Definition process_downloaded_pages (dir : directory) : result (list row * list line) :=
  let page_files := sorted (glob_pages dir) in
  match page_files with
  | [] => Ok ([], [LNoDownloadedFiles])
  | _ =>
      let st0 := {| all_rows := [];
                    all_profiles := ∅;
                    printed := [LProcessingDownloaded (length page_files)] |} in
      let* st := for_each (process_page dir) st0 page_files in
      Ok (all_rows st,
          printed st ++ [LTotalProfiles (size (all_profiles st));
                         LTotalRows (length (all_rows st))])
  end.

End Complete.

(** ** process_existing_followers.py *)

Module ProcessOnly.

Definition INPUT_PATTERN : string := "followers_page_*.json".
Definition OUTPUT_FILE : string := "followers.csv".

Definition add_profile (profiles : profile_map) (profile : json) : result profile_map :=
  let* both := py_and (py_in "entityUrn" profile) (py_in "publicIdentifier" profile) in
  if both then
    let* urn := py_getitem profile "entityUrn" in
    let* key := py_key urn in
    Ok (<[key := profile]> profiles)
  else Ok profiles.

Definition extract_profiles_from_page (page_data : json) : result profile_map :=
  let* has_included := py_in "included" page_data in
  if has_included then
    let* included := py_getitem page_data "included" in
    let* items := py_iter included in
    for_each add_profile ∅ items
  else Ok ∅.

(** The [try] block of [extract_elements_from_page]: the value of
    [elements] when the block completes. *)
Definition extract_elements_try (page_data : json) : result json :=
  let* nested :=
    py_and (py_in "data" page_data)
           (let* d := py_getitem page_data "data" in py_in "data" d) in
  let* main_data :=
    if nested then
      let* d := py_getitem page_data "data" in py_getitem d "data"
    else
      let* wrapped := py_in "data" page_data in
      if wrapped then py_getitem page_data "data" else Ok page_data in
  let* has_container :=
    py_in "organizationDashFollowersByOrganizationalPage" main_data in
  if has_container then
    let* follower_data :=
      py_getitem main_data "organizationDashFollowersByOrganizationalPage" in
    let* has_elements := py_in "elements" follower_data in
    if has_elements then py_getitem follower_data "elements" else Ok (JList [])
  else Ok (JList []).

Definition extract_elements_from_page (page_data : json) : json * list line :=
  match extract_elements_try page_data with
  | Ok elements => (elements, [])
  | Raise e => (JList [], [LErrorExtracting e])
  end.

(** The [try] block of [build_follower_row]. *)
Definition build_follower_row_try (element : json) (profiles : profile_map)
  : result row :=
  let* has_ref :=
    py_and (py_in "followerV2" element)
           (let* f := py_getitem element "followerV2" in py_in "*profile" f) in
  let* profile_urn :=
    if has_ref then
      let* f := py_getitem element "followerV2" in py_getitem f "*profile"
    else Ok JNull in
  let* profile :=
    if py_truthy profile_urn then
      let* key := py_key profile_urn in
      Ok (default (JDict []) (profiles !! key))
    else Ok (JDict []) in
  let* followed_at := py_get element "followedAt" (JDict []) in
  let* '(followed_text, followed_accessibility) :=
    if is_dict followed_at then
      let* t := py_get followed_at "text" (JStr "") in
      let* a := py_get followed_at "accessibilityText" (JStr "") in
      Ok (t, a)
    else
      Ok (if py_truthy followed_at then JStr (py_str followed_at) else JStr "",
          JStr "") in
  let* public_identifier := py_get profile "publicIdentifier" (JStr "") in
  let linkedin_url :=
    if py_truthy public_identifier
    then JStr ("https://www.linkedin.com/in/" +:+ py_str public_identifier +:+ "/")
    else JStr "" in
  let* first_name := py_get profile "firstName" (JStr "") in
  let* last_name := py_get profile "lastName" (JStr "") in
  let* headline := py_get profile "headline" (JStr "") in
  let* entity_urn := py_get profile "entityUrn" (JStr "") in
  Ok [ ("firstName", first_name);
       ("lastName", last_name);
       ("headline", headline);
       ("publicIdentifier", public_identifier);
       ("linkedinUrl", linkedin_url);
       ("followedAt.text", followed_text);
       ("followedAt.accessibilityText", followed_accessibility);
       ("entityUrn", entity_urn) ].

(** The function: the row, [{}] after an exception, and what it printed. *)
Definition build_follower_row (element : json) (profiles : profile_map)
  : row * list line :=
  match build_follower_row_try element profiles with
  | Ok r => (r, [])
  | Raise e => ([], [LErrorBuildingRow e])
  end.

(** The body of [for element in elements]. *)
Definition add_row (profiles : profile_map) (acc : list row * list line)
  (element : json) : list row * list line :=
  let '(r, out) := build_follower_row element profiles in
  (if is_empty_row r then fst acc else fst acc ++ [r], snd acc ++ out).

(** The body of [for i, filename in enumerate(page_files)]. *)
Definition process_page (dir : directory) (st : loop_state) (filename : string)
  : result loop_state :=
  let out := printed st ++ [LProcessing filename] in
  match read_file dir filename with
  | Raise e =>
      Ok {| all_rows := all_rows st;
            all_profiles := all_profiles st;
            printed := out ++ [LErrorReading filename e] |}
  | Ok page_data =>
      let* page_profiles := extract_profiles_from_page page_data in
      let profiles := page_profiles ∪ all_profiles st in
      let out := out ++ [LFoundProfiles (size page_profiles)] in
      let '(elements, err) := extract_elements_from_page page_data in
      let out := out ++ err in
      let* n := py_len elements in
      let out := out ++ [LFoundElements n] in
      let* items := py_iter elements in
      let '(rows, out) := fold_left (add_row profiles) items (all_rows st, out) in
      Ok {| all_rows := rows; all_profiles := profiles; printed := out |}
  end.

Definition process_existing_pages (dir : directory) : result (list row * list line) :=
  let page_files := sorted (glob_pages dir) in
  match page_files with
  | [] => Ok ([], [LNoFilesMatching; LMakeSureDownloaded])
  | _ =>
      let st0 := {| all_rows := [];
                    all_profiles := ∅;
                    printed := [LFoundPageFiles (length page_files)] |} in
      let* st := for_each (process_page dir) st0 page_files in
      Ok (all_rows st,
          printed st ++ [LTotalProfiles (size (all_profiles st));
                         LTotalRows (length (all_rows st))])
  end.

Definition fieldnames : list string :=
  [ "firstName"; "lastName"; "headline"; "publicIdentifier"; "linkedinUrl";
    "followedAt.text"; "followedAt.accessibilityText"; "entityUrn" ].

(** [write_csv]: its return value, what it printed and what it did to
    the file.  [disk] is what opening and writing the file does; a row
    [DictWriter] refuses ends the writing after the records before it. *)
Definition write_csv (disk : disk_outcome) (filename : string) (rows : list row)
  : bool * list line * csv_effect :=
  match rows with
  | [] => (false, [LNoRowsToWrite], CsvUntouched)
  | _ =>
      match disk with
      | DiskRefused e => (false, [LErrorWritingCsv e], CsvUntouched)
      | DiskBroken e => (false, [LErrorWritingCsv e], CsvBrokenOff)
      | DiskDone =>
          let '(records, stop) := writerows fieldnames rows in
          let f := {| csv_name := filename; csv_header := fieldnames;
                      csv_records := records |} in
          match stop with
          | None => (true, [LWroteRows (length rows) filename], CsvFile f)
          | Some e => (false, [LErrorWritingCsv e], CsvFile f)
          end
      end
  end.

(** [main]: what it printed and what it did to the CSV file, or the
    exception that ends the script. *)
Definition main (dir : directory) (disk : disk_outcome)
  : result (list line * csv_effect) :=
  let out := [LTitle; LRule; LProcessingExisting] in
  let* '(rows, out1) := process_existing_pages dir in
  let out := out ++ out1 in
  match rows with
  | [] => Ok (out ++ [LNoDataFound], CsvUntouched)
  | _ =>
      let '(ok, out2, written) := write_csv disk OUTPUT_FILE rows in
      let out := out ++ out2 in
      if ok then Ok (out ++ [LSuccess OUTPUT_FILE (length rows); LCsvIncludes], written)
      else Ok (out ++ [LFailedCsv], written)
  end.

End ProcessOnly.

(** ** Notions the properties are stated with *)

(** The field [k] of a JSON object; nothing for any other value. *)
Definition field (k : string) (v : json) : option json :=
  match v with
  | JDict fields => dict_lookup k fields
  | _ => None
  end.

Definition container_name : string := "organizationDashFollowersByOrganizationalPage".

(** The objects at the three nesting depths of a snapshot, deepest first:
    under [data.data], under [data], and the snapshot itself. *)
Definition nesting_depths (page_data : json) : list json :=
  match field "data" page_data with
  | Some d =>
      match field "data" d with
      | Some m => [m; d; page_data]
      | None => [d; page_data]
      end
  | None => [page_data]
  end.

Definition holds_container (m : json) : bool :=
  match field container_name m with
  | Some _ => true
  | None => false
  end.

(** The [elements] of the container of [m]; the empty list when [m] has no
    container or the container no [elements]. *)
Definition elements_at (m : json) : json :=
  match field container_name m with
  | Some c =>
      match field "elements" c with
      | Some elements => elements
      | None => JList []
      end
  | None => JList []
  end.

(** The relationship extractor in the words of the specification: try the
    nesting depths in order and use the first one that holds the container. *)
Definition extract_elements_spec (page_data : json) : json :=
  match List.find holds_container (nesting_depths page_data) with
  | Some m => elements_at m
  | None => JList []
  end.

(** The depth the scripts use: the deepest one there is. *)
Definition selected_depth (page_data : json) : json :=
  List.hd page_data (nesting_depths page_data).

(** Page indices in numeric order (insertion sort on the index). *)
Fixpoint insert_page (x : N) (l : list N) : list N :=
  match l with
  | [] => [x]
  | y :: rest => if (x <=? y)%N then x :: l else y :: insert_page x rest
  end.

Definition sort_pages (l : list N) : list N :=
  foldr insert_page [] l.

(** Number of decimal digits of a page index as [save_page_data] writes it. *)
Definition index_width (i : N) : nat := String.length (str_of_N i).

(** Ten to the power [k]: a bound on the numbers of at most [k] digits. *)
Fixpoint pow10 (k : nat) : N :=
  match k with
  | O => 1
  | S k' => 10 * pow10 k'
  end.

(** A value is primitive when it is not a list or a dict. *)
Definition is_primitive (v : json) : bool :=
  match v with
  | JNull | JBool _ | JInt _ | JStr _ => true
  | JList _ | JDict _ => false
  end.

(** The value of a column of a row. *)
Definition column (name : string) (r : row) : option json := dict_lookup name r.

(** The five columns of a row that come from the profile. *)
Definition profile_columns : list string :=
  [ "firstName"; "lastName"; "headline"; "publicIdentifier"; "linkedinUrl" ].

(** A dict without the key [k]. *)
Fixpoint dict_remove (k : string) (fields : list (string * json)) : list (string * json) :=
  match fields with
  | [] => []
  | (k', v) :: rest =>
      if String.eqb k k' then dict_remove k rest else (k', v) :: dict_remove k rest
  end.

(** A dict with the first binding of [k] replaced by [v]. *)
Fixpoint dict_replace (k : string) (v : json) (fields : list (string * json))
  : list (string * json) :=
  match fields with
  | [] => []
  | (k', v') :: rest =>
      if String.eqb k k' then (k', v) :: rest else (k', v') :: dict_replace k v rest
  end.

(** The blocks of [build_follower_row], named for the proofs: the profile
    the element refers to, and the two [followedAt] columns. *)
Definition resolve_profile (element : json) (profiles : profile_map) : result json :=
  let* has_ref :=
    py_and (py_in "followerV2" element)
           (let* f := py_getitem element "followerV2" in py_in "*profile" f) in
  let* profile_urn :=
    if has_ref then
      let* f := py_getitem element "followerV2" in py_getitem f "*profile"
    else Ok JNull in
  if py_truthy profile_urn then
    let* key := py_key profile_urn in
    Ok (default (JDict []) (profiles !! key))
  else Ok (JDict []).

Definition followed_at_columns (element : json) : result (json * json) :=
  let* followed_at := py_get element "followedAt" (JDict []) in
  if is_dict followed_at then
    let* t := py_get followed_at "text" (JStr "") in
    let* a := py_get followed_at "accessibilityText" (JStr "") in
    Ok (t, a)
  else
    Ok (if py_truthy followed_at then JStr (py_str followed_at) else JStr "", JStr "").

Definition linkedin_url_of (public_identifier : json) : json :=
  if py_truthy public_identifier
  then JStr ("https://www.linkedin.com/in/" +:+ py_str public_identifier +:+ "/")
  else JStr "".

(** The row of a profile that has been resolved to a dict with fields [p]. *)
Definition row_of (p : list (string * json)) (followed : json * json) (entity_urn : json)
  : row :=
  let public_identifier := default (JStr "") (dict_lookup "publicIdentifier" p) in
  [ ("firstName", default (JStr "") (dict_lookup "firstName" p));
    ("lastName", default (JStr "") (dict_lookup "lastName" p));
    ("headline", default (JStr "") (dict_lookup "headline" p));
    ("publicIdentifier", public_identifier);
    ("linkedinUrl", linkedin_url_of public_identifier);
    ("followedAt.text", fst followed);
    ("followedAt.accessibilityText", snd followed);
    ("entityUrn", entity_urn) ].

(** The rows a reducer returns, without what it printed. *)
Definition returned_rows (r : result (list row * list line)) : result (list row) :=
  let* out := r in Ok (fst out).

(** Every profile of the mapping is a dict. *)
Definition dict_valued (profiles : profile_map) : Prop :=
  forall key v, profiles !! key = Some v -> is_dict v = true.

(** The page loop of the two scripts, over the row builder: the scripts
    differ in the builder (and in the lines they print around the loop). *)
Definition add_row_with (build : json -> profile_map -> row * list line)
  (profiles : profile_map) (acc : list row * list line) (element : json)
  : list row * list line :=
  let '(r, out) := build element profiles in
  (if is_empty_row r then fst acc else fst acc ++ [r], snd acc ++ out).

Definition process_page_with (build : json -> profile_map -> row * list line)
  (dir : directory) (st : loop_state) (filename : string) : result loop_state :=
  let out := printed st ++ [LProcessing filename] in
  match read_file dir filename with
  | Raise e =>
      Ok {| all_rows := all_rows st;
            all_profiles := all_profiles st;
            printed := out ++ [LErrorReading filename e] |}
  | Ok page_data =>
      let* page_profiles := Complete.extract_profiles_from_page page_data in
      let profiles := page_profiles ∪ all_profiles st in
      let out := out ++ [LFoundProfiles (size page_profiles)] in
      let '(elements, err) := Complete.extract_elements_from_page page_data in
      let out := out ++ err in
      let* n := py_len elements in
      let out := out ++ [LFoundElements n] in
      let* items := py_iter elements in
      let '(rows, out) := fold_left (add_row_with build profiles) items (all_rows st, out) in
      Ok {| all_rows := rows; all_profiles := profiles; printed := out |}
  end.

(** The rows of the elements [items] of one page: one per element, in
    order, without the empty rows of the elements whose row fails. *)
Definition built_rows (build : json -> profile_map -> row * list line)
  (profiles : profile_map) (items : list json) : list row :=
  List.filter (fun r => negb (is_empty_row r)) (map (fun e => fst (build e profiles)) items).

(** The values of the page loop, apart from what it prints: the rows and
    the profile mapping, and the step of the loop on them. *)
Definition loop_values (st : loop_state) : list row * profile_map :=
  (all_rows st, all_profiles st).

Definition file_step (build : json -> profile_map -> row * list line)
  (acc : list row * profile_map) (f : file) : result (list row * profile_map) :=
  match f with
  | Raise _ => Ok acc
  | Ok page_data =>
      let* page_profiles := Complete.extract_profiles_from_page page_data in
      let profiles := page_profiles ∪ snd acc in
      let elements := fst (Complete.extract_elements_from_page page_data) in
      let* n := py_len elements in
      let* items := py_iter elements in
      Ok (fst acc ++ built_rows build profiles items, profiles)
  end.

(** The profiles one snapshot file contributes: those extracted from it,
    none when the file cannot be read. *)
Definition profiles_of_file (f : file) : profile_map :=
  match f with
  | Ok page_data =>
      match Complete.extract_profiles_from_page page_data with
      | Ok page_profiles => page_profiles
      | Raise _ => ∅
      end
  | Raise _ => ∅
  end.

(** The relationship elements of one snapshot file, as the loop visits
    them; none when the file cannot be read. *)
Definition elements_of_file (f : file) : list json :=
  match f with
  | Ok page_data =>
      match py_iter (fst (Complete.extract_elements_from_page page_data)) with
      | Ok items => items
      | Raise _ => []
      end
  | Raise _ => []
  end.

(** The relationship elements of all the snapshot files of a directory, in
    the order of processing. *)
Definition all_elements (dir : directory) : list json :=
  concat (map (fun name => elements_of_file (read_file dir name)) (sorted (glob_pages dir))).

(** The row of the element can be built: the [try] block of
    [build_follower_row] completes. *)
Definition row_builds (element : json) : bool :=
  succeeds (ProcessOnly.build_follower_row_try element ∅).

(** An element of the expected shape: an object whose [followerV2], when
    present, is an object whose [*profile], when present, is a primitive. *)
Definition well_formed_element (element : json) : bool :=
  match element with
  | JDict fields =>
      match dict_lookup "followerV2" fields with
      | None => true
      | Some (JDict fv) =>
          match dict_lookup "*profile" fv with
          | None => true
          | Some ref => is_primitive ref
          end
      | Some _ => false
      end
  | _ => false
  end.

(** The lines the page loop prints. *)
Definition is_page_line (l : line) : bool :=
  match l with
  | LProcessing _ | LErrorReading _ _ | LFoundProfiles _ | LFoundElements _
  | LErrorExtracting _ | LErrorBuildingRow _ => true
  | _ => false
  end.

(** The lines a reducer prints when it has found page files. *)
Definition is_reducer_line (l : line) : bool :=
  match l with
  | LFoundPageFiles _ | LProcessingDownloaded _ | LTotalProfiles _ | LTotalRows _ => true
  | _ => is_page_line l
  end.

(** The order of strings, as a relation. *)
Definition le_str (a b : string) : Prop := String.leb a b = true.

(** The directory without the files that cannot be read. *)
Definition readable_files (dir : directory) : directory :=
  List.filter (fun entry => succeeds (snd entry)) dir.

(** The key under which [extract_profiles_from_page] files an item of
    [included]: the [entityUrn] of an object that also has a
    [publicIdentifier]; nothing for any other item. *)
Definition profile_key (item : json) : option pykey :=
  match item with
  | JDict p =>
      match dict_lookup "entityUrn" p, dict_lookup "publicIdentifier" p with
      | Some urn, Some _ =>
          match py_key urn with
          | Ok key => Some key
          | Raise _ => None
          end
      | _, _ => None
      end
  | _ => None
  end.

(** The two steps of the page loop that no [try] encloses complete on the
    snapshot: the extraction of the profiles, and [len] of the elements. *)
Definition page_completes (page_data : json) : bool :=
  succeeds (Complete.extract_profiles_from_page page_data)
  && succeeds (py_len (fst (Complete.extract_elements_from_page page_data))).

Definition file_completes (f : file) : bool :=
  match f with
  | Ok page_data => page_completes page_data
  | Raise _ => true
  end.

(** An item of [included] of the expected shape: an object whose
    [entityUrn], when present, is a primitive. *)
Definition profile_entry_ok (item : json) : bool :=
  match item with
  | JDict p =>
      match dict_lookup "entityUrn" p with
      | Some urn => is_primitive urn
      | None => true
      end
  | _ => false
  end.

(** A snapshot of the expected shape: an object whose [included], when
    present, is a list of such items, and whose elements at the selected
    depth are a list. *)
Definition snapshot_well_shaped (page_data : json) : bool :=
  is_dict page_data
  && match field "included" page_data with
     | None => true
     | Some (JList items) => forallb profile_entry_ok items
     | Some _ => false
     end
  && match elements_at (selected_depth page_data) with
     | JList _ => true
     | _ => false
     end.

(** The files a reducer announced, in the order of its output. *)
Definition processed_names (out : list line) : list string :=
  flat_map (fun l => match l with LProcessing name => [name] | _ => [] end) out.

(** A record holds the texts of a row: it has one cell for each column
    of the header, and the cell of a column holds the text of the value
    the row has there when that value is a primitive. *)
Definition record_of_row (header : list string) (r : row) (record : list string) : Prop :=
  length record = length header /\
  forall k name v,
    header !! k = Some name -> column name r = Some v -> is_primitive v = true ->
    record !! k = Some (csv_cell v).

(** ** linkedin_followers_complete.py: the downloader and [main]

    The constants a user of the script edits are the fields of a
    configuration.  The network and the disk are the environment: [http]
    gives what [requests.get], [raise_for_status] and [response.json] give
    for a URL, the parsed body or the exception one of them raises (the
    headers of the request are constants of the configuration); [disk]
    gives what opening a file and writing to it does.  [time.sleep] is not
    modelled. *)

(** Writing a file: done; refused, the file as it was; or broken off, with
    what is left of the file. *)
Inductive write_outcome : Type :=
| WriteDone
| WriteRefused (e : exn)
| WriteBroken (e : exn) (remains : file).

(** The directory after a file got a new content: the entry is replaced,
    or added when there was none. *)
Fixpoint write_file (dir : directory) (name : string) (content : file) : directory :=
  match dir with
  | [] => [(name, content)]
  | (name', content') :: rest =>
      if String.eqb name name' then (name, content) :: rest
      else (name', content') :: write_file rest name content
  end.

(** [range(n)]. *)
Definition range (n : Z) : list N :=
  map N.of_nat (seq 0 (Z.to_nat n)).

Module Downloader.

Record config : Type := {
  TOTAL_FOLLOWERS : Z;
  COUNT_PER_PAGE : Z;
  COOKIE : string;
  CSRF_TOKEN : string;
  MAX_FOLLOW_TIMESTAMP : string;
  COMPANY_ID : string
}.

(** The configuration of the script as it is distributed. *)
Definition distributed : config :=
  {| TOTAL_FOLLOWERS := Complete.TOTAL_FOLLOWERS;
     COUNT_PER_PAGE := Complete.COUNT_PER_PAGE;
     COOKIE := "YOUR_LINKEDIN_COOKIE_VALUE_HERE";
     CSRF_TOKEN := "YOUR_CSRF_TOKEN_HERE";
     MAX_FOLLOW_TIMESTAMP := "";
     COMPANY_ID := "YOUR_COMPANY_ID_HERE" |}.

(** The lines the downloader and [main] print; the lines of the reducer
    and of [write_csv] are those of [line]. *)
Inductive main_line : Type :=
| MTitle                                   (* LinkedIn Followers Complete Downloader & CSV Generator *)
| MRule                                    (* ======== *)
| MCookieMissing                           (* ERROR: Please configure your LinkedIn cookie value ... *)
| MCookieHint                              (* Follow the instructions ... above the COOKIE variable. *)
| MCsrfMissing                             (* ERROR: Please configure your CSRF token ... *)
| MCsrfHint
| MCompanyMissing                          (* ERROR: Please configure your company ID ... *)
| MCompanyHint
| MTotalInvalid                            (* ERROR: Please set a valid TOTAL_FOLLOWERS count. *)
| MTotalHint
| MConfigValidated                         (* Configuration validated successfully! *)
| MStep1                                   (* STEP 1: Downloading follower data from LinkedIn... *)
| MDownloading (total num_pages : Z)       (* Downloading {total} followers in {num_pages} pages... *)
| MDownloadingPage (number num_pages first last : Z)
                                           (* Downloading page {number}/{num_pages} (followers {first}-{last})... *)
| MErrorDownloading (page : N) (e : exn)   (* Error downloading page {page}: {e} *)
| MErrorSaving (filename : string) (e : exn)  (* Error saving {filename}: {e} *)
| MSaved (filename : string)               (* Saved to {filename} *)
| MFailedToSave (page : N)                 (* Failed to save page {page} *)
| MFailedToDownload (page : N)             (* Failed to download page {page} *)
| MDownloaded (n : nat)                    (* Downloaded {n} pages *)
| MNoDataDownloaded                        (* No data downloaded. Exiting. *)
| MStep2                                   (* STEP 2: Processing downloaded data into CSV... *)
| MPrinted (l : line)
| MNoDataFound                             (* No data found to process *)
| MStep3                                   (* STEP 3: Writing CSV file... *)
| MSuccess (filename : string) (n : nat)   (* SUCCESS! Created {filename} with {n} followers *)
| MCsvIncludes                             (* CSV includes: LinkedIn URLs, names, headlines, and follow dates *)
| MDownloadedFiles (n : nat)               (* Downloaded {n} page files *)
| MFailedCsv.                              (* Failed to create CSV file *)

(** The [variables] of the API call. *)
Definition request_variables (cfg : config) (start count : Z) : string :=
  let variables :=
    "(start:" +:+ str_of_Z start +:+ ",count:" +:+ str_of_Z count
    +:+ ",organizationalPage:urn%3Ali%3Afsd_organizationalPage%3A" +:+ COMPANY_ID cfg
    +:+ ",followerType:MEMBER" in
  let variables :=
    if negb (String.eqb (MAX_FOLLOW_TIMESTAMP cfg) "")
    then variables +:+ ",maxFollowTimestamp:" +:+ MAX_FOLLOW_TIMESTAMP cfg
    else variables in
  variables +:+ ")".

Definition request_url (cfg : config) (start count : Z) : string :=
  "https://www.linkedin.com/voyager/api/graphql?variables="
  +:+ request_variables cfg start count
  +:+ "&queryId=voyagerOrganizationDashFollowers.36569e7e40afe58d8bc91299def4c53b".

(** [download_followers_page]: the value it returns and what it printed. *)
Definition download_followers_page (cfg : config) (http : string -> result json)
  (page : N) (start count : Z) : json * list main_line :=
  match http (request_url cfg start count) with
  | Ok data => (data, [])
  | Raise e => (JDict [], [MErrorDownloading page e])
  end.

(** [save_page_data]: the name it returns, what it printed and the
    directory it leaves. *)
Definition save_page_data (disk : string -> write_outcome) (dir : directory)
  (page : N) (data : json) : string * list main_line * directory :=
  let filename := Complete.page_filename page in
  match disk filename with
  | WriteDone => (filename, [], write_file dir filename (Ok data))
  | WriteRefused e => ("", [MErrorSaving filename e], dir)
  | WriteBroken e remains => ("", [MErrorSaving filename e], write_file dir filename remains)
  end.

(** The state of the loop of [download_all_followers]: the names it
    collected, the directory, the URLs requested so far and the lines
    printed. *)
Record download : Type := {
  downloaded_files : list string;
  files : directory;
  requested : list string;
  shown : list main_line
}.

(** The body of [for page in range(num_pages)]. *)
Definition download_page (cfg : config) (http : string -> result json)
  (disk : string -> write_outcome) (num_pages : Z) (st : download) (page : N) : download :=
  let start := Z.of_N page * COUNT_PER_PAGE cfg in
  let out := shown st ++ [MDownloadingPage (Z.of_N page + 1) num_pages start
                                            (start + COUNT_PER_PAGE cfg - 1)] in
  let '(data, err) := download_followers_page cfg http page start (COUNT_PER_PAGE cfg) in
  let sent := requested st ++ [request_url cfg start (COUNT_PER_PAGE cfg)] in
  let out := out ++ err in
  if py_truthy data then
    let '(filename, err, dir) := save_page_data disk (files st) page data in
    let out := out ++ err in
    if negb (String.eqb filename "") then
      {| downloaded_files := downloaded_files st ++ [filename];
         files := dir; requested := sent; shown := out ++ [MSaved filename] |}
    else
      {| downloaded_files := downloaded_files st;
         files := dir; requested := sent; shown := out ++ [MFailedToSave page] |}
  else
    {| downloaded_files := downloaded_files st;
       files := files st; requested := sent; shown := out ++ [MFailedToDownload page] |}.

(** [download_all_followers]; nothing when the division raises
    [ZeroDivisionError]. *)
Definition download_all_followers (cfg : config) (http : string -> result json)
  (disk : string -> write_outcome) (dir : directory) : option download :=
  if COUNT_PER_PAGE cfg =? 0 then None
  else
    let num_pages := (TOTAL_FOLLOWERS cfg + COUNT_PER_PAGE cfg - 1) / COUNT_PER_PAGE cfg in
    let st0 := {| downloaded_files := []; files := dir; requested := [];
                  shown := [MDownloading (TOTAL_FOLLOWERS cfg) num_pages] |} in
    let st := fold_left (download_page cfg http disk num_pages) (range num_pages) st0 in
    Some {| downloaded_files := downloaded_files st; files := files st;
            requested := requested st;
            shown := shown st ++ [MDownloaded (length (downloaded_files st))] |}.

Definition fieldnames : list string :=
  [ "firstName"; "lastName"; "headline"; "publicIdentifier"; "linkedinUrl";
    "followedAt.text"; "followedAt.accessibilityText"; "entityUrn" ].

(** [write_csv]: its return value, what it printed and what it did to
    the file.  [csv_disk] is what opening and writing the file does; a row
    [DictWriter] refuses ends the writing after the records before it. *)
Definition write_csv (csv_disk : disk_outcome) (filename : string) (rows : list row)
  : bool * list line * csv_effect :=
  match rows with
  | [] => (false, [LNoRowsToWrite], CsvUntouched)
  | _ =>
      match csv_disk with
      | DiskRefused e => (false, [LErrorWritingCsv e], CsvUntouched)
      | DiskBroken e => (false, [LErrorWritingCsv e], CsvBrokenOff)
      | DiskDone =>
          let '(records, stop) := writerows fieldnames rows in
          let f := {| csv_name := filename; csv_header := fieldnames;
                      csv_records := records |} in
          match stop with
          | None => (true, [LWroteRows (length rows) filename], CsvFile f)
          | Some e => (false, [LErrorWritingCsv e], CsvFile f)
          end
      end
  end.

(** What ends a run abnormally: the division by [COUNT_PER_PAGE], or an
    exception that escapes the reducer. *)
Inductive crash : Type :=
| ZeroDivisionError
| Escaped (e : exn).

(** A run of [main]: the lines printed (when the run ends in the reducer,
    the lines up to the reducer), the directory it leaves, the URLs it
    requested, what it did to the CSV file and what ended it, if not its
    end. *)
Record run : Type := {
  run_shown : list main_line;
  run_files : directory;
  run_requested : list string;
  run_csv : csv_effect;
  run_crash : option crash
}.

Definition main (cfg : config) (http : string -> result json)
  (disk : string -> write_outcome) (csv_disk : disk_outcome) (dir : directory) : run :=
  let returns out :=
    {| run_shown := out; run_files := dir; run_requested := [];
       run_csv := CsvUntouched; run_crash := None |} in
  let out := [MTitle; MRule] in
  if String.eqb (COOKIE cfg) "YOUR_LINKEDIN_COOKIE_VALUE_HERE" then
    returns (out ++ [MCookieMissing; MCookieHint])
  else if String.eqb (CSRF_TOKEN cfg) "YOUR_CSRF_TOKEN_HERE" then
    returns (out ++ [MCsrfMissing; MCsrfHint])
  else if String.eqb (COMPANY_ID cfg) "YOUR_COMPANY_ID_HERE" then
    returns (out ++ [MCompanyMissing; MCompanyHint])
  else if TOTAL_FOLLOWERS cfg <=? 0 then
    returns (out ++ [MTotalInvalid; MTotalHint])
  else
    let out := out ++ [MConfigValidated; MStep1] in
    match download_all_followers cfg http disk dir with
    | None =>
        {| run_shown := out; run_files := dir; run_requested := [];
           run_csv := CsvUntouched; run_crash := Some ZeroDivisionError |}
    | Some d =>
        let out := out ++ shown d in
        let ends out written stop :=
          {| run_shown := out; run_files := files d; run_requested := requested d;
             run_csv := written; run_crash := stop |} in
        match downloaded_files d with
        | [] => ends (out ++ [MNoDataDownloaded]) CsvUntouched None
        | _ =>
            let out := out ++ [MStep2] in
            match Complete.process_downloaded_pages (files d) with
            | Raise e => ends out CsvUntouched (Some (Escaped e))
            | Ok (rows, out1) =>
                let out := out ++ map MPrinted out1 in
                match rows with
                | [] => ends (out ++ [MNoDataFound]) CsvUntouched None
                | _ =>
                    let out := out ++ [MStep3] in
                    let '(ok, out2, written) := write_csv csv_disk Complete.OUTPUT_FILE rows in
                    let out := out ++ map MPrinted out2 in
                    if ok then
                      ends (out ++ [MSuccess Complete.OUTPUT_FILE (length rows);
                                    MCsvIncludes;
                                    MDownloadedFiles (length (downloaded_files d))])
                           written None
                    else ends (out ++ [MFailedCsv]) written None
                end
            end
        end
    end.

End Downloader.

(** ** Notions the properties of the downloader are stated with *)

(** The first follower a page asks for. *)
Definition page_start (cfg : Downloader.config) (page : N) : Z :=
  Z.of_N page * Downloader.COUNT_PER_PAGE cfg.

(** The URL of the request of a page. *)
Definition page_url (cfg : Downloader.config) (page : N) : string :=
  Downloader.request_url cfg (page_start cfg page) (Downloader.COUNT_PER_PAGE cfg).

(** The pages of the loop of [download_all_followers]. *)
Definition pages_of (cfg : Downloader.config) : list N :=
  range ((Downloader.TOTAL_FOLLOWERS cfg + Downloader.COUNT_PER_PAGE cfg - 1)
         / Downloader.COUNT_PER_PAGE cfg).

(** What the download of a page leaves in the file of the page: nothing
    when the file is not touched. *)
Definition page_effect (cfg : Downloader.config) (http : string -> result json)
  (disk : string -> write_outcome) (page : N) : option file :=
  match http (page_url cfg page) with
  | Ok data =>
      if py_truthy data then
        match disk (Complete.page_filename page) with
        | WriteDone => Some (Ok data)
        | WriteRefused _ => None
        | WriteBroken _ remains => Some remains
        end
      else None
  | Raise _ => None
  end.

Definition apply_effect (cfg : Downloader.config) (http : string -> result json)
  (disk : string -> write_outcome) (dir : directory) (page : N) : directory :=
  match page_effect cfg http disk page with
  | Some content => write_file dir (Complete.page_filename page) content
  | None => dir
  end.

(** The page is saved: the response is a value that is not empty, and
    writing its file is done. *)
Definition page_saved (cfg : Downloader.config) (http : string -> result json)
  (disk : string -> write_outcome) (page : N) : bool :=
  match http (page_url cfg page) with
  | Ok data =>
      py_truthy data
      && match disk (Complete.page_filename page) with
         | WriteDone => true
         | _ => false
         end
  | Raise _ => false
  end.

(** The configuration passes the four tests of [main]. *)
Definition configured (cfg : Downloader.config) : bool :=
  negb (String.eqb (Downloader.COOKIE cfg) "YOUR_LINKEDIN_COOKIE_VALUE_HERE")
  && negb (String.eqb (Downloader.CSRF_TOKEN cfg) "YOUR_CSRF_TOKEN_HERE")
  && negb (String.eqb (Downloader.COMPANY_ID cfg) "YOUR_COMPANY_ID_HERE")
  && (0 <? Downloader.TOTAL_FOLLOWERS cfg).

(** ** Properties *)

(** *** The error monad and the Python primitives *)

Lemma bind_ok_inv {A B : Type} (c : result A) (k : A -> result B) (b : B) :
  bind c k = Ok b -> exists a, c = Ok a /\ k a = Ok b.
Proof. destruct c as [a|e]; simpl; [eauto | discriminate]. Qed.

Lemma dict_has_lookup k fields v :
  dict_lookup k fields = Some v -> dict_has k fields = true.
Proof. unfold dict_has. intros ->. reflexivity. Qed.

Lemma dict_has_none k fields :
  dict_lookup k fields = None -> dict_has k fields = false.
Proof. unfold dict_has. intros ->. reflexivity. Qed.

Lemma py_get_dict fields k d :
  py_get (JDict fields) k d = Ok (default d (dict_lookup k fields)).
Proof. simpl. destruct (dict_lookup k fields); reflexivity. Qed.

Lemma py_get_ok_is_dict v k d x : py_get v k d = Ok x -> is_dict v = true.
Proof. destruct v; simpl; congruence. Qed.

Lemma is_dict_inv v : is_dict v = true -> exists fields, v = JDict fields.
Proof. destruct v; simpl; try discriminate. eauto. Qed.

Lemma dict_lookup_remove_eq k fields : dict_lookup k (dict_remove k fields) = None.
Proof.
  induction fields as [|[k' v] rest IH]; simpl; [reflexivity|].
  destruct (String.eqb k k') eqn:E; simpl; [assumption|].
  rewrite E. assumption.
Qed.

Lemma dict_lookup_replace_eq k v fields :
  dict_has k fields = true -> dict_lookup k (dict_replace k v fields) = Some v.
Proof.
  unfold dict_has.
  induction fields as [|[k' v'] rest IH]; simpl; [discriminate|].
  destruct (String.eqb k k') eqn:E; simpl; rewrite E; auto.
Qed.

Lemma dict_lookup_replace_ne k k' v fields :
  k <> k' -> dict_lookup k' (dict_replace k v fields) = dict_lookup k' fields.
Proof.
  intros Hne.
  induction fields as [|[k0 v0] rest IH]; simpl; [reflexivity|].
  destruct (String.eqb k k0) eqn:E; simpl.
  - apply String.eqb_eq in E. subst k0.
    assert (String.eqb k' k = false) as -> by (apply String.eqb_neq; congruence).
    reflexivity.
  - rewrite IH. reflexivity.
Qed.

(** *** The row builder, block by block *)

Lemma Complete_row_blocks element profiles :
  Complete.build_follower_row_try element profiles =
  (let* profile := resolve_profile element profiles in
   let* followed := followed_at_columns element in
   let* public_identifier := py_get profile "publicIdentifier" (JStr "") in
   let* first_name := py_get profile "firstName" (JStr "") in
   let* last_name := py_get profile "lastName" (JStr "") in
   let* headline := py_get profile "headline" (JStr "") in
   let* own_urn := py_get element "entityUrn" (JStr "") in
   let* entity_urn := py_get profile "entityUrn" own_urn in
   Ok [ ("firstName", first_name); ("lastName", last_name); ("headline", headline);
        ("publicIdentifier", public_identifier);
        ("linkedinUrl", linkedin_url_of public_identifier);
        ("followedAt.text", fst followed);
        ("followedAt.accessibilityText", snd followed);
        ("entityUrn", entity_urn) ]).
Proof.
  unfold Complete.build_follower_row_try, resolve_profile, followed_at_columns.
  destruct (py_and _ _) as [has_ref|]; [|reflexivity]. simpl.
  destruct (if has_ref then _ else _) as [profile_urn|]; [|reflexivity]. simpl.
  destruct (if py_truthy profile_urn then _ else _) as [profile|]; [|reflexivity]. simpl.
  destruct (py_get element _ _) as [followed_at|]; [|reflexivity]. simpl.
  destruct (if is_dict followed_at then _ else _) as [[t a]|]; reflexivity.
Qed.

Lemma ProcessOnly_row_blocks element profiles :
  ProcessOnly.build_follower_row_try element profiles =
  (let* profile := resolve_profile element profiles in
   let* followed := followed_at_columns element in
   let* public_identifier := py_get profile "publicIdentifier" (JStr "") in
   let* first_name := py_get profile "firstName" (JStr "") in
   let* last_name := py_get profile "lastName" (JStr "") in
   let* headline := py_get profile "headline" (JStr "") in
   let* entity_urn := py_get profile "entityUrn" (JStr "") in
   Ok [ ("firstName", first_name); ("lastName", last_name); ("headline", headline);
        ("publicIdentifier", public_identifier);
        ("linkedinUrl", linkedin_url_of public_identifier);
        ("followedAt.text", fst followed);
        ("followedAt.accessibilityText", snd followed);
        ("entityUrn", entity_urn) ]).
Proof.
  unfold ProcessOnly.build_follower_row_try, resolve_profile, followed_at_columns.
  destruct (py_and _ _) as [has_ref|]; [|reflexivity]. simpl.
  destruct (if has_ref then _ else _) as [profile_urn|]; [|reflexivity]. simpl.
  destruct (if py_truthy profile_urn then _ else _) as [profile|]; [|reflexivity]. simpl.
  destruct (py_get element _ _) as [followed_at|]; [|reflexivity]. simpl.
  destruct (if is_dict followed_at then _ else _) as [[t a]|]; reflexivity.
Qed.

(** The [followedAt] block never fails on an element that is a dict. *)
Lemma followed_at_columns_dict fields :
  followed_at_columns (JDict fields) =
  Ok match dict_lookup "followedAt" fields with
     | None => (JStr "", JStr "")
     | Some (JDict fa) =>
         (default (JStr "") (dict_lookup "text" fa),
          default (JStr "") (dict_lookup "accessibilityText" fa))
     | Some v => (if py_truthy v then JStr (py_str v) else JStr "", JStr "")
     end.
Proof.
  unfold followed_at_columns. rewrite py_get_dict.
  destruct (dict_lookup "followedAt" fields) as [v|]; [|reflexivity].
  destruct v; try reflexivity.
  cbn [from_option id bind is_dict]. rewrite !py_get_dict. reflexivity.
Qed.

Lemma followed_at_columns_ok_is_dict element followed :
  followed_at_columns element = Ok followed -> is_dict element = true.
Proof.
  unfold followed_at_columns. intros H.
  apply bind_ok_inv in H as (fa & H & _). eapply py_get_ok_is_dict, H.
Qed.

(** The profile block on an element that is a dict. *)
Lemma resolve_profile_no_follower fields profiles :
  dict_lookup "followerV2" fields = None ->
  resolve_profile (JDict fields) profiles = Ok (JDict []).
Proof.
  intros H. unfold resolve_profile. cbn [py_in py_and bind].
  rewrite (dict_has_none _ _ H). reflexivity.
Qed.

Lemma resolve_profile_no_ref fields fv profiles :
  dict_lookup "followerV2" fields = Some (JDict fv) ->
  dict_lookup "*profile" fv = None ->
  resolve_profile (JDict fields) profiles = Ok (JDict []).
Proof.
  intros Hf Hp. unfold resolve_profile. cbn [py_in py_and py_getitem bind].
  rewrite (dict_has_lookup _ _ _ Hf), Hf. cbn [py_in bind].
  rewrite (dict_has_none _ _ Hp). reflexivity.
Qed.

Lemma resolve_profile_ref fields fv ref profiles :
  dict_lookup "followerV2" fields = Some (JDict fv) ->
  dict_lookup "*profile" fv = Some ref ->
  resolve_profile (JDict fields) profiles =
  if py_truthy ref
  then let* key := py_key ref in Ok (default (JDict []) (profiles !! key))
  else Ok (JDict []).
Proof.
  intros Hf Hp. unfold resolve_profile. cbn [py_in py_and py_getitem bind].
  rewrite (dict_has_lookup _ _ _ Hf), Hf. cbn [py_in py_getitem bind].
  rewrite (dict_has_lookup _ _ _ Hp), Hp. reflexivity.
Qed.

(** With a mapping of dicts the profile block gives a dict. *)
Lemma resolve_profile_is_dict element profiles profile :
  dict_valued profiles ->
  resolve_profile element profiles = Ok profile -> is_dict profile = true.
Proof.
  intros Hv. unfold resolve_profile. intros H.
  apply bind_ok_inv in H as (has_ref & _ & H).
  apply bind_ok_inv in H as (urn & _ & H).
  destruct (py_truthy urn).
  - apply bind_ok_inv in H as (key & _ & H). injection H as <-.
    destruct (profiles !! key) as [v|] eqn:E; [exact (Hv _ _ E) | reflexivity].
  - injection H as <-. reflexivity.
Qed.

(** Whether the profile block fails does not depend on the mapping. *)
Lemma resolve_profile_succeeds element profiles profiles' :
  succeeds (resolve_profile element profiles) = succeeds (resolve_profile element profiles').
Proof.
  unfold resolve_profile.
  destruct (py_and _ _) as [has_ref|]; [|reflexivity]. simpl.
  destruct (if has_ref then _ else _) as [urn|]; [|reflexivity]. simpl.
  destruct (py_truthy urn); [|reflexivity].
  destruct (py_key urn); reflexivity.
Qed.

(** The rows of the two scripts, once the profile is known to be a dict. *)
Lemma Complete_row_of fields profiles p :
  resolve_profile (JDict fields) profiles = Ok (JDict p) ->
  exists followed,
    followed_at_columns (JDict fields) = Ok followed /\
    Complete.build_follower_row_try (JDict fields) profiles =
    Ok (row_of p followed
          (default (default (JStr "") (dict_lookup "entityUrn" fields))
                   (dict_lookup "entityUrn" p))).
Proof.
  intros Hr. rewrite Complete_row_blocks, Hr, followed_at_columns_dict.
  eexists; split; [reflexivity|].
  cbn [bind]. rewrite !py_get_dict. cbn [bind]. rewrite ?py_get_dict. reflexivity.
Qed.

Lemma ProcessOnly_row_of fields profiles p :
  resolve_profile (JDict fields) profiles = Ok (JDict p) ->
  exists followed,
    followed_at_columns (JDict fields) = Ok followed /\
    ProcessOnly.build_follower_row_try (JDict fields) profiles =
    Ok (row_of p followed (default (JStr "") (dict_lookup "entityUrn" p))).
Proof.
  intros Hr. rewrite ProcessOnly_row_blocks, Hr, followed_at_columns_dict.
  eexists; split; [reflexivity|].
  cbn [bind]. rewrite !py_get_dict. cbn [bind]. rewrite ?py_get_dict. reflexivity.
Qed.

(** A row is built only from an element that is a dict, a profile that is a
    dict, and has the shape [row_of]. *)
Lemma Complete_row_inv element profiles r :
  Complete.build_follower_row_try element profiles = Ok r ->
  exists fields p followed,
    element = JDict fields /\
    resolve_profile element profiles = Ok (JDict p) /\
    followed_at_columns element = Ok followed /\
    r = row_of p followed
          (default (default (JStr "") (dict_lookup "entityUrn" fields))
                   (dict_lookup "entityUrn" p)).
Proof.
  rewrite Complete_row_blocks. intros H.
  apply bind_ok_inv in H as (profile & Hr & H).
  apply bind_ok_inv in H as (followed & Hf & H).
  destruct (is_dict_inv _ (followed_at_columns_ok_is_dict _ _ Hf)) as [fields ->].
  destruct profile as [| | | | |p]; try discriminate H.
  destruct (Complete_row_of _ _ _ Hr) as (followed' & Hf' & Hrow).
  rewrite Complete_row_blocks, Hr, Hf in Hrow. cbn [bind] in Hrow.
  rewrite Hrow in H. injection H as <-.
  rewrite Hf in Hf'. injection Hf' as <-.
  eauto 10.
Qed.

Lemma ProcessOnly_row_inv element profiles r :
  ProcessOnly.build_follower_row_try element profiles = Ok r ->
  exists fields p followed,
    element = JDict fields /\
    resolve_profile element profiles = Ok (JDict p) /\
    followed_at_columns element = Ok followed /\
    r = row_of p followed (default (JStr "") (dict_lookup "entityUrn" p)).
Proof.
  rewrite ProcessOnly_row_blocks. intros H.
  apply bind_ok_inv in H as (profile & Hr & H).
  apply bind_ok_inv in H as (followed & Hf & H).
  destruct (is_dict_inv _ (followed_at_columns_ok_is_dict _ _ Hf)) as [fields ->].
  destruct profile as [| | | | |p]; try discriminate H.
  destruct (ProcessOnly_row_of _ _ _ Hr) as (followed' & Hf' & Hrow).
  rewrite ProcessOnly_row_blocks, Hr, Hf in Hrow. cbn [bind] in Hrow.
  rewrite Hrow in H. injection H as <-.
  rewrite Hf in Hf'. injection Hf' as <-.
  eauto 10.
Qed.

Lemma Complete_built element profiles r :
  fst (Complete.build_follower_row element profiles) = r -> r <> [] ->
  Complete.build_follower_row_try element profiles = Ok r.
Proof.
  unfold Complete.build_follower_row.
  destruct (Complete.build_follower_row_try element profiles); simpl; congruence.
Qed.

Lemma ProcessOnly_built element profiles r :
  fst (ProcessOnly.build_follower_row element profiles) = r -> r <> [] ->
  ProcessOnly.build_follower_row_try element profiles = Ok r.
Proof.
  unfold ProcessOnly.build_follower_row.
  destruct (ProcessOnly.build_follower_row_try element profiles); simpl; congruence.
Qed.

(** X3.  The two scripts build a row for the same elements, and the rows
    agree on every column but [entityUrn]. *)
Lemma builders_agree_off_entity_urn element profiles name :
  name <> "entityUrn" ->
  column name (fst (Complete.build_follower_row element profiles)) =
  column name (fst (ProcessOnly.build_follower_row element profiles)).
Proof.
  intros Hne.
  unfold Complete.build_follower_row, ProcessOnly.build_follower_row.
  rewrite Complete_row_blocks, ProcessOnly_row_blocks.
  destruct (resolve_profile element profiles) as [profile|]; [|reflexivity].
  destruct (followed_at_columns element) as [followed|] eqn:Hf; [|reflexivity].
  destruct (is_dict_inv _ (followed_at_columns_ok_is_dict _ _ Hf)) as [fields ->].
  destruct profile as [| | | | |p]; try reflexivity.
  cbn [bind]. rewrite !py_get_dict. cbn [bind]. rewrite ?py_get_dict. cbn [bind fst].
  unfold column. cbn [dict_lookup].
  repeat (destruct (String.eqb name _) eqn:?; [reflexivity|]).
  assert (String.eqb name "entityUrn" = false) as -> by (apply String.eqb_neq; assumption).
  reflexivity.
Qed.

Lemma builders_agree_off_entity_urn_witness :
  column "linkedinUrl"
    (fst (Complete.build_follower_row (JDict [("followedAt", JStr "3d")]) ∅))
  = column "linkedinUrl"
      (fst (ProcessOnly.build_follower_row (JDict [("followedAt", JStr "3d")]) ∅)).
Proof.
  apply (builders_agree_off_entity_urn (JDict [("followedAt", JStr "3d")]) ∅ "linkedinUrl").
  discriminate.
Defined.

(** *** Row builder: a reference to a profile the mapping does not hold *)

(** X2.  In [linkedin_followers_complete.py] the row of an element whose
    profile is missing from the mapping has empty profile columns and the
    element's own [entityUrn]. *)
Lemma Complete_missing_profile_row fields fv ref key own (profiles : profile_map) :
  dict_lookup "followerV2" fields = Some (JDict fv) ->
  dict_lookup "*profile" fv = Some ref ->
  py_truthy ref = true ->
  py_key ref = Ok key ->
  profiles !! key = None ->
  dict_lookup "entityUrn" fields = Some own ->
  let r := fst (Complete.build_follower_row (JDict fields) profiles) in
  column "firstName" r = Some (JStr "") /\
  column "lastName" r = Some (JStr "") /\
  column "headline" r = Some (JStr "") /\
  column "publicIdentifier" r = Some (JStr "") /\
  column "linkedinUrl" r = Some (JStr "") /\
  column "entityUrn" r = Some own.
Proof.
  intros Hf Hp Ht Hk Hm Ho r. subst r.
  assert (resolve_profile (JDict fields) profiles = Ok (JDict [])) as Hr.
  { rewrite (resolve_profile_ref _ _ _ _ Hf Hp), Ht, Hk. cbn [bind]. rewrite Hm. reflexivity. }
  destruct (Complete_row_of _ _ _ Hr) as (followed & _ & Hrow).
  unfold Complete.build_follower_row. rewrite Hrow, Ho.
  repeat split; reflexivity.
Qed.

Lemma Complete_missing_profile_row_witness :
  column "entityUrn"
    (fst (Complete.build_follower_row
            (JDict [ ("entityUrn", JStr "urn:li:fsd_follower:9");
                     ("followerV2", JDict [("*profile", JStr "urn:li:fsd_profile:Z")]) ])
            ∅))
  = Some (JStr "urn:li:fsd_follower:9").
Proof.
  exact (proj2 (proj2 (proj2 (proj2 (proj2
    (Complete_missing_profile_row
       [ ("entityUrn", JStr "urn:li:fsd_follower:9");
         ("followerV2", JDict [("*profile", JStr "urn:li:fsd_profile:Z")]) ]
       [("*profile", JStr "urn:li:fsd_profile:Z")]
       (JStr "urn:li:fsd_profile:Z") (KStr "urn:li:fsd_profile:Z")
       (JStr "urn:li:fsd_follower:9") ∅
       eq_refl eq_refl eq_refl eq_refl eq_refl eq_refl)))))).
Defined.

(** In [process_existing_followers.py] the same row has an empty
    [entityUrn]: the element's own identifier is not consulted. *)
Lemma ProcessOnly_missing_profile_row fields fv ref key (profiles : profile_map) :
  dict_lookup "followerV2" fields = Some (JDict fv) ->
  dict_lookup "*profile" fv = Some ref ->
  py_truthy ref = true ->
  py_key ref = Ok key ->
  profiles !! key = None ->
  let r := fst (ProcessOnly.build_follower_row (JDict fields) profiles) in
  column "firstName" r = Some (JStr "") /\
  column "lastName" r = Some (JStr "") /\
  column "headline" r = Some (JStr "") /\
  column "publicIdentifier" r = Some (JStr "") /\
  column "linkedinUrl" r = Some (JStr "") /\
  column "entityUrn" r = Some (JStr "").
Proof.
  intros Hf Hp Ht Hk Hm r. subst r.
  assert (resolve_profile (JDict fields) profiles = Ok (JDict [])) as Hr.
  { rewrite (resolve_profile_ref _ _ _ _ Hf Hp), Ht, Hk. cbn [bind]. rewrite Hm. reflexivity. }
  destruct (ProcessOnly_row_of _ _ _ Hr) as (followed & _ & Hrow).
  unfold ProcessOnly.build_follower_row. rewrite Hrow.
  repeat split; reflexivity.
Qed.

(** C1. An element with its own [entityUrn] that refers to a profile the
    mapping does not hold: [linkedin_followers_complete.py] puts the
    element's identifier in the [entityUrn] column, and
    [process_existing_followers.py] leaves the column empty. *)
Theorem C1_missing_profile_entity_urn :
  let element :=
    JDict [ ("entityUrn", JStr "urn:li:fsd_follower:1");
            ("followerV2", JDict [("*profile", JStr "urn:li:fsd_profile:A")]) ] in
  column "entityUrn" (fst (Complete.build_follower_row element ∅))
    = Some (JStr "urn:li:fsd_follower:1") /\
  column "entityUrn" (fst (ProcessOnly.build_follower_row element ∅))
    = Some (JStr "") /\
  List.Forall
    (fun name =>
       column name (fst (Complete.build_follower_row element ∅)) = Some (JStr "") /\
       column name (fst (ProcessOnly.build_follower_row element ∅)) = Some (JStr ""))
    profile_columns.
Proof.
  cbv zeta. split; [reflexivity|]. split; [reflexivity|].
  unfold profile_columns. repeat constructor.
Qed.

(** C4. The row builders of the two scripts differ on an element whose
    profile is missing from the mapping, and so do the reducers on a
    directory that holds one snapshot with such an element. *)
Theorem C4_reducers_disagree :
  let element :=
    JDict [ ("entityUrn", JStr "urn:li:fsd_follower:1");
            ("followerV2", JDict [("*profile", JStr "urn:li:fsd_profile:A")]) ] in
  let page :=
    JDict [ ("organizationDashFollowersByOrganizationalPage",
             JDict [("elements", JList [element])]) ] in
  let dir : directory := [ ("followers_page_0.json", Ok page) ] in
  fst (Complete.build_follower_row element ∅) <>
  fst (ProcessOnly.build_follower_row element ∅) /\
  (exists rows rows',
     returned_rows (Complete.process_downloaded_pages dir) = Ok rows /\
     returned_rows (ProcessOnly.process_existing_pages dir) = Ok rows' /\
     rows <> rows').
Proof.
  cbv zeta. split.
  - vm_compute. discriminate.
  - eexists _, _. split; [vm_compute; reflexivity|]. split; [vm_compute; reflexivity|].
    discriminate.
Qed.

(** *** Row builder: the followedAt columns *)

Lemma row_of_followed p followed urn :
  column "followedAt.text" (row_of p followed urn) = Some (fst followed) /\
  column "followedAt.accessibilityText" (row_of p followed urn) = Some (snd followed).
Proof. split; reflexivity. Qed.

(** The two [followedAt] columns of any row either script builds. *)
Lemma built_row_followed element profiles r :
  fst (Complete.build_follower_row element profiles) = r \/
  fst (ProcessOnly.build_follower_row element profiles) = r ->
  r <> [] ->
  exists fields followed,
    element = JDict fields /\
    followed_at_columns (JDict fields) = Ok followed /\
    column "followedAt.text" r = Some (fst followed) /\
    column "followedAt.accessibilityText" r = Some (snd followed).
Proof.
  intros [H|H] Hne.
  - apply Complete_built in H; [|assumption].
    apply Complete_row_inv in H as (fields & p & followed & -> & _ & Hf & ->).
    exists fields, followed. repeat split; assumption.
  - apply ProcessOnly_built in H; [|assumption].
    apply ProcessOnly_row_inv in H as (fields & p & followed & -> & _ & Hf & ->).
    exists fields, followed. repeat split; assumption.
Qed.

(** *** Row builder: a reference that is present but counts as false *)

Lemma followed_at_columns_replace fields k v :
  k <> "followedAt" ->
  followed_at_columns (JDict (dict_replace k v fields)) = followed_at_columns (JDict fields).
Proof.
  intros Hne. rewrite !followed_at_columns_dict, dict_lookup_replace_ne by assumption.
  reflexivity.
Qed.

(** C10. An element whose [followerV2] object holds a [*profile] reference
    that counts as false (the empty string and null among them): the row
    does not depend on the mapping (nothing is looked up), its profile
    columns are empty strings, and it is the row of the same element with
    the reference removed.  This holds for both scripts. *)
Theorem C10_falsy_reference_is_unknown_profile
  (fields fv : list (string * json)) (ref : json) (profiles profiles' : profile_map) :
  dict_lookup "followerV2" fields = Some (JDict fv) ->
  dict_lookup "*profile" fv = Some ref ->
  py_truthy ref = false ->
  let element := JDict fields in
  let without :=
    JDict (dict_replace "followerV2" (JDict (dict_remove "*profile" fv)) fields) in
  (Complete.build_follower_row element profiles
     = Complete.build_follower_row element profiles' /\
   Complete.build_follower_row element profiles
     = Complete.build_follower_row without profiles /\
   forall name, In name profile_columns ->
     column name (fst (Complete.build_follower_row element profiles)) = Some (JStr "")) /\
  (ProcessOnly.build_follower_row element profiles
     = ProcessOnly.build_follower_row element profiles' /\
   ProcessOnly.build_follower_row element profiles
     = ProcessOnly.build_follower_row without profiles /\
   forall name, In name profile_columns ->
     column name (fst (ProcessOnly.build_follower_row element profiles)) = Some (JStr "")).
Proof.
  intros Hf Hp Hfalse element without. subst element without.
  assert (forall pm, resolve_profile (JDict fields) pm = Ok (JDict [])) as Hr.
  { intros pm. rewrite (resolve_profile_ref _ _ _ _ Hf Hp), Hfalse. reflexivity. }
  assert (forall pm, resolve_profile
            (JDict (dict_replace "followerV2" (JDict (dict_remove "*profile" fv)) fields)) pm
          = Ok (JDict [])) as Hr'.
  { intros pm. eapply resolve_profile_no_ref.
    - apply dict_lookup_replace_eq, (dict_has_lookup _ _ _ Hf).
    - apply dict_lookup_remove_eq. }
  split.
  - destruct (Complete_row_of _ _ _ (Hr profiles)) as (fo & Hfo & H1).
    destruct (Complete_row_of _ _ _ (Hr profiles')) as (fo' & Hfo' & H2).
    destruct (Complete_row_of _ _ _ (Hr' profiles)) as (fo'' & Hfo'' & H3).
    rewrite Hfo in Hfo'. injection Hfo' as <-.
    rewrite followed_at_columns_replace, Hfo in Hfo'' by discriminate. injection Hfo'' as <-.
    rewrite dict_lookup_replace_ne in H3 by discriminate.
    unfold Complete.build_follower_row. rewrite H1, H2, H3.
    split; [reflexivity|]. split; [reflexivity|].
    intros name Hin. simpl in Hin.
    repeat (destruct Hin as [<-|Hin]; [reflexivity|]). contradiction.
  - destruct (ProcessOnly_row_of _ _ _ (Hr profiles)) as (fo & Hfo & H1).
    destruct (ProcessOnly_row_of _ _ _ (Hr profiles')) as (fo' & Hfo' & H2).
    destruct (ProcessOnly_row_of _ _ _ (Hr' profiles)) as (fo'' & Hfo'' & H3).
    rewrite Hfo in Hfo'. injection Hfo' as <-.
    rewrite followed_at_columns_replace, Hfo in Hfo'' by discriminate. injection Hfo'' as <-.
    unfold ProcessOnly.build_follower_row. rewrite H1, H2, H3.
    split; [reflexivity|]. split; [reflexivity|].
    intros name Hin. simpl in Hin.
    repeat (destruct Hin as [<-|Hin]; [reflexivity|]). contradiction.
Qed.

Lemma C10_falsy_reference_is_unknown_profile_witness :
  let fields := [ ("entityUrn", JStr "urn:li:fsd_follower:7");
                  ("followerV2", JDict [("*profile", JStr "")]) ] in
  let profiles : profile_map := {[ KStr "" := JDict [("firstName", JStr "Nobody")] ]} in
  Complete.build_follower_row (JDict fields) profiles
    = Complete.build_follower_row (JDict fields) ∅ /\
  ProcessOnly.build_follower_row (JDict fields) profiles
    = ProcessOnly.build_follower_row (JDict fields) ∅.
Proof.
  cbv zeta.
  pose proof (C10_falsy_reference_is_unknown_profile
                [ ("entityUrn", JStr "urn:li:fsd_follower:7");
                  ("followerV2", JDict [("*profile", JStr "")]) ]
                [("*profile", JStr "")] (JStr "")
                {[ KStr "" := JDict [("firstName", JStr "Nobody")] ]} ∅
                eq_refl eq_refl eq_refl) as H.
  cbv zeta in H. split; [exact (proj1 (proj1 H)) | exact (proj1 (proj2 H))].
Defined.

(** *** Relationship extractor *)

(** The second half of the [try] block, from the object [main_data] on. *)
Lemma container_block (main_data : json) :
  match
    (let* has_container :=
       py_in "organizationDashFollowersByOrganizationalPage" main_data in
     if has_container then
       let* follower_data :=
         py_getitem main_data "organizationDashFollowersByOrganizationalPage" in
       let* has_elements := py_in "elements" follower_data in
       if has_elements then py_getitem follower_data "elements" else Ok (JList [])
     else Ok (JList []))
  with
  | Ok elements => elements
  | Raise _ => JList []
  end = elements_at main_data.
Proof.
  unfold elements_at, container_name.
  destruct main_data as [| | | |items|fields]; cbn [py_in bind field]; try reflexivity.
  - destruct (str_contains _ _); reflexivity.
  - destruct (existsb _ items); reflexivity.
  - unfold dict_has. cbn [py_getitem].
    destruct (dict_lookup _ fields) as [c|]; [|reflexivity].
    cbn [bind].
    destruct c as [| | | |items|cf]; cbn [py_in bind field py_getitem]; try reflexivity.
    + destruct (str_contains _ _); reflexivity.
    + destruct (existsb _ items); reflexivity.
    + unfold dict_has. destruct (dict_lookup "elements" cf); reflexivity.
Qed.

Lemma extract_elements_try_selected (page_data : json) :
  match Complete.extract_elements_try page_data with
  | Ok elements => elements
  | Raise _ => JList []
  end = elements_at (selected_depth page_data).
Proof.
  unfold Complete.extract_elements_try, selected_depth, nesting_depths.
  destruct page_data as [| | | |items|fields]; cbn [py_in py_and bind field]; try reflexivity.
  - destruct (str_contains "data" _); cbn [py_getitem bind]; [reflexivity|].
    apply container_block.
  - destruct (existsb _ items); cbn [py_getitem bind]; [reflexivity|].
    apply container_block.
  - unfold dict_has. cbn [py_getitem].
    destruct (dict_lookup "data" fields) as [d|]; cbn [bind hd]; [|apply container_block].
    destruct d as [| | | |ditems|inner]; cbn [py_in bind field hd]; try reflexivity.
    + destruct (str_contains "data" _); cbn [py_getitem bind]; [reflexivity|].
      apply container_block.
    + destruct (existsb _ ditems); cbn [py_getitem bind]; [reflexivity|].
      apply container_block.
    + unfold dict_has.
      destruct (dict_lookup "data" inner) as [m|] eqn:Em; cbn [py_getitem bind hd];
        rewrite ?Em; cbn [bind]; apply container_block.
Qed.

Lemma ProcessOnly_extract_elements_try page_data :
  ProcessOnly.extract_elements_try page_data = Complete.extract_elements_try page_data.
Proof. reflexivity. Qed.

Lemma ProcessOnly_extract_elements page_data :
  ProcessOnly.extract_elements_from_page page_data
  = Complete.extract_elements_from_page page_data.
Proof. reflexivity. Qed.

Lemma ProcessOnly_extract_profiles page_data :
  ProcessOnly.extract_profiles_from_page page_data
  = Complete.extract_profiles_from_page page_data.
Proof. reflexivity. Qed.

(** X4.  The specification's extractor and the scripts' give the same
    elements whenever the deepest depth holds the container or no depth
    does. *)
Lemma extract_elements_spec_agrees (page_data : json) :
  holds_container (selected_depth page_data) = true \/
  List.find holds_container (nesting_depths page_data) = None ->
  fst (Complete.extract_elements_from_page page_data) = extract_elements_spec page_data.
Proof.
  intros H. unfold Complete.extract_elements_from_page.
  transitivity (elements_at (selected_depth page_data)).
  { rewrite <- extract_elements_try_selected.
    destruct (Complete.extract_elements_try page_data); reflexivity. }
  unfold extract_elements_spec, selected_depth in *.
  destruct (nesting_depths page_data) as [|m rest] eqn:E.
  - unfold nesting_depths in E.
    destruct (field "data" page_data) as [d|]; [destruct (field "data" d)|]; discriminate.
  - cbn [hd List.find] in *. destruct H as [-> | H]; [reflexivity|].
    destruct (holds_container m) eqn:Hm; [discriminate|].
    rewrite H. unfold elements_at. unfold holds_container in Hm.
    destruct (field container_name m); [discriminate | reflexivity].
Qed.

Lemma extract_elements_spec_agrees_witness :
  let page :=
    JDict [ ("data",
             JDict [ ("organizationDashFollowersByOrganizationalPage",
                      JDict [("elements", JList [JInt 1])]) ]) ] in
  fst (Complete.extract_elements_from_page page) = extract_elements_spec page.
Proof.
  intros page. apply extract_elements_spec_agrees. left. reflexivity.
Defined.




(** *** File names and the order of processing *)

Lemma ascii_compare_refl c : Ascii.compare c c = Eq.
Proof. unfold Ascii.compare. apply N.compare_refl. Qed.

Lemma compare_app_prefix p a b :
  String.compare (p +:+ a) (p +:+ b) = String.compare a b.
Proof.
  induction p as [|c p IH]; simpl; [reflexivity|].
  rewrite ascii_compare_refl. exact IH.
Qed.

Lemma compare_app_same_length a b s t :
  String.length a = String.length b ->
  String.compare (a +:+ s) (b +:+ t) =
  match String.compare a b with
  | Eq => String.compare s t
  | c => c
  end.
Proof.
  revert b. induction a as [|c a IH]; intros [|d b] Hlen; simpl in *; try discriminate.
  - reflexivity.
  - destruct (Ascii.compare c d); try reflexivity. apply IH. lia.
Qed.

Lemma str_of_N_fuel_enough f : forall f' n,
  (n < pow10 (S f))%N -> (n < pow10 (S f'))%N ->
  str_of_N_fuel (S f) n = str_of_N_fuel (S f') n.
Proof.
  induction f as [|g IH]; intros f' n Hf Hf'.
  - cbn [pow10] in Hf. cbn [str_of_N_fuel].
    assert ((n <? 10)%N = true) as -> by (apply N.ltb_lt; lia). reflexivity.
  - cbn [str_of_N_fuel]. destruct (n <? 10)%N eqn:E; [reflexivity|].
    apply N.ltb_ge in E.
    destruct f' as [|g'].
    + cbn [pow10] in Hf'. lia.
    + f_equal. apply IH.
      * change (pow10 (S (S g))) with (10 * pow10 (S g))%N in Hf.
        apply N.Div0.div_lt_upper_bound; lia.
      * change (pow10 (S (S g'))) with (10 * pow10 (S g'))%N in Hf'.
        apply N.Div0.div_lt_upper_bound; lia.
Qed.

Lemma pow2_le_pow10 k : (2 ^ N.of_nat k <= pow10 k)%N.
Proof.
  induction k as [|k IH].
  - simpl. lia.
  - rewrite Nat2N.inj_succ, N.pow_succ_r'. cbn [pow10]. lia.
Qed.

Lemma lt_pow10_log2 n : (n < pow10 (S (N.to_nat (N.log2 n))))%N.
Proof.
  eapply N.lt_le_trans; [|apply pow2_le_pow10].
  rewrite Nat2N.inj_succ, N2Nat.id.
  destruct (N.eq_dec n 0%N) as [->|Hn]; [reflexivity|].
  apply N.log2_spec. lia.
Qed.

Lemma str_of_N_small n : (n < 10)%N -> str_of_N n = String (digit_char n) "".
Proof.
  intros H. unfold str_of_N. cbn [str_of_N_fuel].
  apply N.ltb_lt in H. rewrite H. reflexivity.
Qed.

Lemma str_of_N_large n :
  (10 <= n)%N ->
  str_of_N n = str_of_N (n / 10) +:+ String (digit_char (n mod 10)) "".
Proof.
  intros H. unfold str_of_N at 1. cbn [str_of_N_fuel].
  assert ((n <? 10)%N = false) as -> by (apply N.ltb_ge; assumption).
  f_equal.
  pose proof (lt_pow10_log2 n) as Hn.
  destruct (N.to_nat (N.log2 n)) as [|g] eqn:Eg.
  - cbn [pow10] in Hn. lia.
  - unfold str_of_N. apply str_of_N_fuel_enough; [|apply lt_pow10_log2].
    change (pow10 (S (S g))) with (10 * pow10 (S g))%N in Hn.
    apply N.Div0.div_lt_upper_bound; lia.
Qed.

Lemma length_append a b : String.length (a +:+ b) = (String.length a + String.length b)%nat.
Proof. induction a as [|c a IH]; simpl; [reflexivity|]. rewrite IH. reflexivity. Qed.

Lemma str_of_N_length_pos n : (1 <= String.length (str_of_N n))%nat.
Proof.
  destruct (N.lt_ge_cases n 10) as [H|H].
  - rewrite str_of_N_small by assumption. simpl. lia.
  - rewrite str_of_N_large, length_append by assumption. simpl. lia.
Qed.

Lemma index_width_one n : index_width n = 1%nat <-> (n < 10)%N.
Proof.
  unfold index_width. split; intros H.
  - destruct (N.lt_ge_cases n 10) as [H'|H']; [assumption|].
    rewrite str_of_N_large, length_append in H by assumption.
    pose proof (str_of_N_length_pos (n / 10)). simpl in H. lia.
  - rewrite str_of_N_small by assumption. reflexivity.
Qed.

Lemma digit_char_code d : (d < 10)%N -> N_of_ascii (digit_char d) = (48 + d)%N.
Proof. intros H. unfold digit_char. apply N_ascii_embedding. lia. Qed.

Lemma compare_digits a b :
  (a < 10)%N -> (b < 10)%N ->
  String.compare (String (digit_char a) "") (String (digit_char b) "") = N.compare a b.
Proof.
  intros Ha Hb. cbn [String.compare]. unfold Ascii.compare.
  rewrite !digit_char_code by assumption.
  replace (48 + a ?= 48 + b)%N with (a ?= b)%N.
  - destruct (a ?= b)%N; reflexivity.
  - destruct (N.compare_spec a b) as [E|E|E]; symmetry.
    + apply N.compare_eq_iff. lia.
    + apply N.compare_lt_iff. lia.
    + apply N.compare_gt_iff. lia.
Qed.

Lemma compare_div_mod i j :
  N.compare i j =
  match N.compare (i / 10) (j / 10) with
  | Eq => N.compare (i mod 10) (j mod 10)
  | c => c
  end.
Proof.
  pose proof (N.div_mod i 10 ltac:(lia)) as Hi.
  pose proof (N.div_mod j 10 ltac:(lia)) as Hj.
  pose proof (N.mod_lt i 10 ltac:(lia)) as Hi'.
  pose proof (N.mod_lt j 10 ltac:(lia)) as Hj'.
  generalize dependent (i / 10)%N. generalize dependent (i mod 10)%N.
  generalize dependent (j / 10)%N. generalize dependent (j mod 10)%N.
  intros rj Hrj qj Hj ri Hri qi Hi.
  destruct (N.compare_spec qi qj) as [E|E|E].
  - destruct (N.compare_spec ri rj) as [E'|E'|E'].
    + apply N.compare_eq_iff. lia.
    + apply N.compare_lt_iff. lia.
    + apply N.compare_gt_iff. lia.
  - apply N.compare_lt_iff. lia.
  - apply N.compare_gt_iff. lia.
Qed.

Lemma compare_str_of_N i : forall j,
  index_width i = index_width j ->
  String.compare (str_of_N i) (str_of_N j) = N.compare i j.
Proof.
  induction i as [i IH] using (well_founded_induction N.lt_wf_0). intros j Hw.
  destruct (N.lt_ge_cases i 10) as [Hi|Hi].
  - assert (j < 10)%N as Hj.
    { apply index_width_one. rewrite <- Hw. apply index_width_one. assumption. }
    rewrite !str_of_N_small by assumption. apply compare_digits; assumption.
  - assert (10 <= j)%N as Hj.
    { destruct (N.lt_ge_cases j 10) as [Hj|Hj]; [|assumption].
      apply index_width_one in Hj. rewrite <- Hw in Hj. apply index_width_one in Hj. lia. }
    unfold index_width in Hw.
    rewrite (str_of_N_large i), (str_of_N_large j) in * by assumption.
    rewrite !length_append in Hw. simpl in Hw.
    rewrite compare_app_same_length by lia.
    rewrite IH.
    + rewrite (compare_div_mod i j).
      destruct (i / 10 ?= j / 10)%N; try reflexivity.
      apply compare_digits; apply N.mod_lt; lia.
    + apply N.div_lt; lia.
    + unfold index_width. lia.
Qed.

Lemma leb_page_filename i j :
  index_width i = index_width j ->
  String.leb (Complete.page_filename i) (Complete.page_filename j) = N.leb i j.
Proof.
  intros Hw. unfold String.leb, Complete.page_filename.
  rewrite compare_app_prefix, compare_app_same_length by exact Hw.
  rewrite compare_str_of_N by exact Hw.
  unfold N.leb. destruct (i ?= j)%N; reflexivity.
Qed.

Lemma insert_page_In x y l : In y (insert_page x l) -> y = x \/ In y l.
Proof.
  induction l as [|z l IH]; simpl.
  - intros [<-|[]]. left. reflexivity.
  - destruct (x <=? z)%N; simpl; intros [H|H]; auto.
    destruct (IH H); auto.
Qed.

Lemma sort_pages_In y l : In y (sort_pages l) -> In y l.
Proof.
  induction l as [|x l IH]; simpl; [tauto|].
  intros H. apply insert_page_In in H as [->|H]; auto.
Qed.

Lemma insert_sorted_map (f : N -> string) x l :
  (forall y, In y l -> String.leb (f x) (f y) = N.leb x y) ->
  insert_sorted (f x) (map f l) = map f (insert_page x l).
Proof.
  induction l as [|y l IH]; intros H; simpl; [reflexivity|].
  rewrite (H y) by (left; reflexivity).
  destruct (x <=? y)%N; simpl; [reflexivity|].
  rewrite IH; [reflexivity|]. intros z Hz. apply H. right. exact Hz.
Qed.

Lemma sorted_map (f : N -> string) l :
  (forall x y, In x l -> In y l -> String.leb (f x) (f y) = N.leb x y) ->
  sorted (map f l) = map f (sort_pages l).
Proof.
  induction l as [|x l IH]; intros H; [reflexivity|].
  change (sorted (map f (x :: l))) with (insert_sorted (f x) (sorted (map f l))).
  rewrite IH by (intros; apply H; simpl; auto).
  change (sort_pages (x :: l)) with (insert_page x (sort_pages l)).
  apply insert_sorted_map.
  intros y Hy. apply H; simpl; auto. right. apply sort_pages_In. exact Hy.
Qed.

Lemma prefix_app p s : String.prefix p (p +:+ s) = true.
Proof.
  induction p as [|c p IH]; simpl.
  - destruct s; reflexivity.
  - destruct (ascii_dec c c); [exact IH | contradiction].
Qed.

Lemma substring_all s : String.substring 0 (String.length s) s = s.
Proof. induction s as [|c s IH]; simpl; [reflexivity|]. rewrite IH. reflexivity. Qed.

Lemma substring_app_at pre s :
  String.substring (String.length pre) (String.length s) (pre +:+ s) = s.
Proof.
  induction pre as [|c pre IH]; simpl; [apply substring_all | exact IH].
Qed.

Lemma str_suffix_app pre s : str_suffix s (pre +:+ s) = true.
Proof.
  unfold str_suffix. rewrite length_append.
  replace (String.length pre + String.length s - String.length s)%nat
    with (String.length pre) by lia.
  rewrite substring_app_at, String.eqb_refl.
  rewrite andb_true_r. apply Nat.leb_le. lia.
Qed.

Lemma append_assoc a b c : (a +:+ b) +:+ c = a +:+ (b +:+ c).
Proof.
  induction a as [|x a IH]; [reflexivity|].
  change (String x ((a +:+ b) +:+ c) = String x (a +:+ (b +:+ c))).
  f_equal. exact IH.
Qed.

Lemma matches_page_filename i : matches_page_pattern (Complete.page_filename i) = true.
Proof.
  unfold matches_page_pattern, Complete.page_filename.
  rewrite prefix_app. cbn [andb].
  rewrite <- append_assoc, str_suffix_app. cbn [andb].
  rewrite !length_append. apply Nat.leb_le. lia.
Qed.

Lemma glob_page_files (l : list N) (content : N -> file) :
  glob_pages (map (fun i => (Complete.page_filename i, content i)) l)
  = map Complete.page_filename l.
Proof.
  unfold glob_pages. rewrite map_map. cbn [fst].
  induction l as [|i l IH]; [reflexivity|].
  cbn [map]. rewrite filter_cons, IH.
  destruct (decide (matches_page_pattern (Complete.page_filename i) = true)) as [|Hn];
    [reflexivity|].
  exfalso. apply Hn, matches_page_filename.
Qed.

(** [sort_pages] puts the indices in increasing order. *)
Lemma insert_page_perm x l : Permutation (insert_page x l) (x :: l).
Proof.
  induction l as [|y l IH]; simpl; [reflexivity|].
  destruct (x <=? y)%N; [reflexivity|].
  rewrite IH. apply perm_swap.
Qed.

Lemma sort_pages_perm l : Permutation (sort_pages l) l.
Proof.
  induction l as [|x l IH]; [reflexivity|].
  change (sort_pages (x :: l)) with (insert_page x (sort_pages l)).
  rewrite insert_page_perm, IH. reflexivity.
Qed.

Lemma insert_page_sorted x l :
  StronglySorted N.le l -> StronglySorted N.le (insert_page x l).
Proof.
  induction 1 as [|y l Hl IH Hy]; simpl.
  - constructor; constructor.
  - destruct (x <=? y)%N eqn:E.
    + apply N.leb_le in E. constructor; [constructor; assumption|].
      constructor; [exact E|].
      rewrite Forall_forall in Hy |- *. intros z Hz. specialize (Hy z Hz). lia.
    + apply N.leb_gt in E. constructor; [exact IH|].
      rewrite Forall_forall. intros z Hz. apply list_elem_of_In in Hz.
      apply insert_page_In in Hz as [->|Hz]; [lia|].
      rewrite Forall_forall in Hy. apply Hy, list_elem_of_In, Hz.
Qed.

Lemma sort_pages_sorted l : StronglySorted N.le (sort_pages l).
Proof.
  induction l as [|x l IH]; [constructor|]. apply insert_page_sorted, IH.
Qed.

Example num_pages_default : Complete.num_pages = 49%Z.
Proof. reflexivity. Qed.

Example page_filename_48 : Complete.page_filename 48 = "followers_page_48.json".
Proof. reflexivity. Qed.

(** C2, as stated, fails on the 49 pages of the default configuration:
    sorted by name, page 10 comes third, before page 2, and the order of
    the names is not the order of the page indices. *)
Lemma C2_default_pages_not_in_index_order :
  length Complete.pages = 49%nat /\
  sort_pages Complete.pages = Complete.pages /\
  nth 2 (sorted (map Complete.page_filename Complete.pages)) "" = "followers_page_10.json" /\
  nth 12 (sorted (map Complete.page_filename Complete.pages)) "" = "followers_page_2.json" /\
  sorted (map Complete.page_filename Complete.pages)
    <> map Complete.page_filename (sort_pages Complete.pages).
Proof.
  split; [reflexivity|]. split; [vm_compute; reflexivity|].
  split; [vm_compute; reflexivity|]. split; [vm_compute; reflexivity|].
  vm_compute. discriminate.
Qed.

(** *** The page loop *)

#[local] Set Warnings "-clear-no-such-hyp".

Lemma Complete_process_page :
  Complete.process_page = process_page_with Complete.build_follower_row.
Proof. reflexivity. Qed.

Lemma ProcessOnly_process_page :
  ProcessOnly.process_page = process_page_with ProcessOnly.build_follower_row.
Proof. reflexivity. Qed.

Lemma fold_add_row_rows build profiles items rows out :
  fst (fold_left (add_row_with build profiles) items (rows, out))
  = rows ++ built_rows build profiles items.
Proof.
  revert rows out. induction items as [|e items IH]; intros rows out.
  - simpl. rewrite app_nil_r. reflexivity.
  - cbn [fold_left]. unfold add_row_with at 2. cbn [fst snd].
    destruct (build e profiles) as [r o] eqn:E.
    rewrite IH. unfold built_rows. cbn [map List.filter]. rewrite E. cbn [fst].
    destruct (is_empty_row r); cbn [negb]; [reflexivity|].
    rewrite <- app_assoc. reflexivity.
Qed.

Lemma process_page_values build dir st name :
  (let* st' := process_page_with build dir st name in Ok (loop_values st'))
  = file_step build (loop_values st) (read_file dir name).
Proof.
  unfold process_page_with, file_step.
  destruct (read_file dir name) as [page|e]; [|reflexivity].
  destruct (Complete.extract_profiles_from_page page) as [pp|]; [|reflexivity].
  cbn [bind].
  destruct (Complete.extract_elements_from_page page) as [elements err]. cbn [fst].
  destruct (py_len elements) as [n|]; [|reflexivity]. cbn [bind].
  destruct (py_iter elements) as [items|]; [|reflexivity]. cbn [bind].
  match goal with |- context [fold_left ?f ?l (?r, ?o)] =>
    pose proof (fold_add_row_rows build (pp ∪ all_profiles st) items r o) as H;
    destruct (fold_left f l (r, o)) as [rows out] end.
  cbn [fst snd] in H. cbn [bind loop_values all_rows all_profiles fst snd].
  rewrite H. reflexivity.
Qed.

Lemma for_each_values build dir names : forall st,
  (let* st' := for_each (process_page_with build dir) st names in Ok (loop_values st'))
  = for_each (file_step build) (loop_values st) (map (read_file dir) names).
Proof.
  induction names as [|name names IH]; intros st; [reflexivity|].
  cbn [for_each map].
  rewrite <- process_page_values.
  destruct (process_page_with build dir st name) as [st1|]; [|reflexivity].
  cbn [bind]. apply IH.
Qed.

(** The profile mapping across the loop. *)

Lemma file_step_profiles build acc f acc' :
  file_step build acc f = Ok acc' -> snd acc' = profiles_of_file f ∪ snd acc.
Proof.
  unfold file_step, profiles_of_file. destruct f as [page|e].
  - destruct (Complete.extract_profiles_from_page page) as [pp|]; [|discriminate].
    cbn [bind]. intros H.
    apply bind_ok_inv in H as (n & _ & H). apply bind_ok_inv in H as (items & _ & H).
    injection H as <-. reflexivity.
  - intros H. injection H as <-. rewrite (left_id_L ∅ (∪)). reflexivity.
Qed.

Lemma for_each_snoc {S A : Type} (body : S -> A -> result S) items x : forall st,
  for_each body st (items ++ [x]) = (let* st' := for_each body st items in body st' x).
Proof.
  induction items as [|y items IH]; intros st; cbn [for_each app bind].
  - destruct (body st x); reflexivity.
  - destruct (body st y) as [st1|]; [|reflexivity]. cbn [bind]. apply IH.
Qed.

Lemma for_each_app {S A : Type} (body : S -> A -> result S) l1 l2 : forall st,
  for_each body st (l1 ++ l2) = (let* st' := for_each body st l1 in for_each body st' l2).
Proof.
  induction l1 as [|y l1 IH]; intros st; cbn [for_each app]; [reflexivity|].
  destruct (body st y) as [st1|]; [|reflexivity]. cbn [bind]. apply IH.
Qed.

Lemma loop_profiles_lookup build files : forall acc acc' key v,
  snd acc = ∅ ->
  for_each (file_step build) acc files = Ok acc' ->
  (snd acc' !! key = Some v <->
   exists i f, files !! i = Some f /\ profiles_of_file f !! key = Some v /\
     forall j f', (i < j)%nat -> files !! j = Some f' -> profiles_of_file f' !! key = None).
Proof.
  induction files as [|f files IH] using rev_ind; intros acc acc' key v H0 H.
  - injection H as <-. rewrite H0, lookup_empty. split; [discriminate|].
    intros (i & f & Hi & _). rewrite lookup_nil in Hi. discriminate.
  - rewrite for_each_snoc in H. apply bind_ok_inv in H as (acc1 & H1 & H2).
    apply file_step_profiles in H2. rewrite H2, lookup_union_Some_raw.
    specialize (IH acc acc1 key v H0 H1). rewrite IH. clear IH. split.
    + intros [Hf | (Hn & i & g & Hi & Hg & Hlater)].
      * exists (length files), f. split; [apply list_lookup_middle; reflexivity|].
        split; [exact Hf|]. intros j f' Hj Hj'.
        apply lookup_lt_Some in Hj'. rewrite length_app in Hj'. simpl in Hj'. lia.
      * exists i, g. split; [apply lookup_app_l_Some; exact Hi|]. split; [exact Hg|].
        intros j f' Hj Hj'.
        destruct (decide (j < length files)%nat) as [Hlt|Hge].
        -- rewrite lookup_app_l in Hj' by exact Hlt. eapply Hlater; eassumption.
        -- pose proof (lookup_lt_Some _ _ _ Hj') as Hb. rewrite length_app in Hb. simpl in Hb.
           assert (j = length files) as -> by lia.
           rewrite list_lookup_middle in Hj' by reflexivity. injection Hj' as <-. exact Hn.
    + intros (i & g & Hi & Hg & Hlater).
      destruct (decide (i < length files)%nat) as [Hlt|Hge].
      * right. split.
        -- apply (Hlater (length files) f); [exact Hlt | apply list_lookup_middle; reflexivity].
        -- exists i, g. rewrite lookup_app_l in Hi by exact Hlt. split; [exact Hi|].
           split; [exact Hg|]. intros j f' Hj Hj'. apply (Hlater j f' Hj).
           apply lookup_app_l_Some. exact Hj'.
      * left. pose proof (lookup_lt_Some _ _ _ Hi) as Hb. rewrite length_app in Hb. simpl in Hb.
        assert (i = length files) as -> by lia.
        rewrite list_lookup_middle in Hi by reflexivity. injection Hi as <-. exact Hg.
Qed.

Lemma loop_profiles_dom build files : forall acc acc',
  for_each (file_step build) acc files = Ok acc' ->
  dom (snd acc') = ⋃ (map (fun f => dom (profiles_of_file f)) files) ∪ dom (snd acc).
Proof.
  induction files as [|f files IH]; intros acc acc' H.
  - injection H as <-. cbn [map union_list foldr]. set_solver.
  - cbn [for_each] in H. apply bind_ok_inv in H as (acc1 & H1 & H2).
    rewrite (IH _ _ H2), (file_step_profiles _ _ _ _ H1), dom_union_L.
    cbn [map]. rewrite union_list_cons. set_solver.
Qed.

(** The rows across the loop. *)

Lemma dict_valued_empty : dict_valued ∅.
Proof. intros key v H. rewrite lookup_empty in H. discriminate. Qed.







Lemma ProcessOnly_succeeds element profiles :
  dict_valued profiles ->
  succeeds (ProcessOnly.build_follower_row_try element profiles)
  = succeeds (resolve_profile element profiles) && is_dict element.
Proof.
  intros Hv. rewrite ProcessOnly_row_blocks.
  destruct (resolve_profile element profiles) as [profile|] eqn:Hr; [|reflexivity].
  destruct (is_dict_inv _ (resolve_profile_is_dict _ _ _ Hv Hr)) as [p ->].
  cbn [bind succeeds andb].
  destruct element; try reflexivity.
  rewrite followed_at_columns_dict. cbn [bind]. rewrite !py_get_dict. reflexivity.
Qed.

Lemma Complete_succeeds element profiles :
  dict_valued profiles ->
  succeeds (Complete.build_follower_row_try element profiles)
  = succeeds (resolve_profile element profiles) && is_dict element.
Proof.
  intros Hv. rewrite Complete_row_blocks.
  destruct (resolve_profile element profiles) as [profile|] eqn:Hr; [|reflexivity].
  destruct (is_dict_inv _ (resolve_profile_is_dict _ _ _ Hv Hr)) as [p ->].
  cbn [bind succeeds andb].
  destruct element; try reflexivity.
  rewrite followed_at_columns_dict. cbn [bind]. rewrite !py_get_dict.
  cbn [bind]. rewrite py_get_dict. reflexivity.
Qed.

Lemma row_builds_resolve element :
  row_builds element = succeeds (resolve_profile element ∅) && is_dict element.
Proof. unfold row_builds. apply ProcessOnly_succeeds, dict_valued_empty. Qed.

Lemma ProcessOnly_row_nonempty element profiles :
  dict_valued profiles ->
  negb (is_empty_row (fst (ProcessOnly.build_follower_row element profiles)))
  = row_builds element.
Proof.
  intros Hv. rewrite row_builds_resolve, (resolve_profile_succeeds _ ∅ profiles).
  rewrite <- ProcessOnly_succeeds by exact Hv.
  unfold ProcessOnly.build_follower_row.
  destruct (ProcessOnly.build_follower_row_try element profiles) as [r|] eqn:E; [|reflexivity].
  apply ProcessOnly_row_inv in E as (? & ? & ? & _ & _ & _ & ->). reflexivity.
Qed.

Lemma Complete_row_nonempty element profiles :
  dict_valued profiles ->
  negb (is_empty_row (fst (Complete.build_follower_row element profiles)))
  = row_builds element.
Proof.
  intros Hv. rewrite row_builds_resolve, (resolve_profile_succeeds _ ∅ profiles).
  rewrite <- Complete_succeeds by exact Hv.
  unfold Complete.build_follower_row.
  destruct (Complete.build_follower_row_try element profiles) as [r|] eqn:E; [|reflexivity].
  apply Complete_row_inv in E as (? & ? & ? & _ & _ & _ & ->). reflexivity.
Qed.






Lemma well_formed_builds element :
  well_formed_element element = true -> row_builds element = true.
Proof.
  rewrite row_builds_resolve. unfold well_formed_element.
  destruct element as [| | | | |fields]; try discriminate.
  destruct (dict_lookup "followerV2" fields) as [f|] eqn:Hf.
  - destruct f as [| | | | |fv]; try discriminate.
    destruct (dict_lookup "*profile" fv) as [ref|] eqn:Hp.
    + intros Hprim. rewrite (resolve_profile_ref _ _ _ _ Hf Hp).
      destruct ref; try discriminate Hprim; cbn [py_truthy py_key bind];
        repeat match goal with |- context [if ?b then _ else _] => destruct b end;
        reflexivity.
    + intros _. rewrite (resolve_profile_no_ref _ _ _ Hf Hp). reflexivity.
  - intros _. rewrite (resolve_profile_no_follower _ _ Hf). reflexivity.
Qed.

(** *** Row builder: the followedAt columns of the rows that are built *)

(** An element of the expected shape gets a row in both scripts. *)
Lemma well_formed_rows_built element profiles :
  well_formed_element element = true -> dict_valued profiles ->
  fst (Complete.build_follower_row element profiles) <> [] /\
  fst (ProcessOnly.build_follower_row element profiles) <> [].
Proof.
  intros Hw Hv. apply well_formed_builds in Hw.
  pose proof (Complete_row_nonempty element profiles Hv) as Hc.
  pose proof (ProcessOnly_row_nonempty element profiles Hv) as Hp.
  rewrite Hw in Hc, Hp. split; intros E; [rewrite E in Hc | rewrite E in Hp]; discriminate.
Qed.

(** C7, as the scripts have it.  An element of the expected shape (an
    object whose [followerV2], when present, is an object whose
    [*profile], when present, is a primitive) gets a row in both scripts.
    In every row either script builds: when [followedAt] is an object, the
    two followedAt columns are its [text] and [accessibilityText] fields,
    each the empty string when the field is absent; when it is a primitive
    Python counts as true, the text column is its string form and the
    accessibility column is empty; when it is absent or a value Python
    counts as false (null, false, zero, the empty string, list or object),
    both columns are empty strings. *)
Theorem C7_followed_at_columns :
  (forall element profiles,
     well_formed_element element = true -> dict_valued profiles ->
     fst (Complete.build_follower_row element profiles) <> [] /\
     fst (ProcessOnly.build_follower_row element profiles) <> []) /\
  (forall element profiles r,
     fst (Complete.build_follower_row element profiles) = r \/
     fst (ProcessOnly.build_follower_row element profiles) = r ->
     r <> [] ->
     (forall fa, field "followedAt" element = Some (JDict fa) ->
        column "followedAt.text" r = Some (default (JStr "") (dict_lookup "text" fa)) /\
        column "followedAt.accessibilityText" r
          = Some (default (JStr "") (dict_lookup "accessibilityText" fa))) /\
     (forall v, field "followedAt" element = Some v ->
        is_primitive v = true -> py_truthy v = true ->
        column "followedAt.text" r = Some (JStr (py_str v)) /\
        column "followedAt.accessibilityText" r = Some (JStr "")) /\
     (field "followedAt" element = None \/
      (exists v, field "followedAt" element = Some v /\ py_truthy v = false) ->
        column "followedAt.text" r = Some (JStr "") /\
        column "followedAt.accessibilityText" r = Some (JStr ""))).
Proof.
  split; [exact well_formed_rows_built|].
  intros element profiles r H Hne.
  destruct (built_row_followed _ _ _ H Hne) as (fields & followed & -> & Hf & -> & ->).
  rewrite followed_at_columns_dict in Hf. injection Hf as <-.
  cbn [field]. split; [|split].
  - intros fa ->. split; reflexivity.
  - intros v -> Hprim Ht. destruct v; try discriminate Hprim; cbn [fst snd]; rewrite Ht;
      split; reflexivity.
  - intros [-> | (v & -> & Hfalse)]; [split; reflexivity|].
    destruct v as [| | | | |fa]; cbn [fst snd]; rewrite ?Hfalse; try (split; reflexivity).
    destruct fa; [split; reflexivity | discriminate Hfalse].
Qed.


Lemma C7_followed_at_columns_witness :
  let stamp := JDict [("followedAt", JInt 1746598607000)] in
  let object := JDict [("followedAt", JDict [("text", JStr "3d")])] in
  let r := fst (Complete.build_follower_row stamp ∅) in
  let r' := fst (ProcessOnly.build_follower_row object ∅) in
  (r <> [] /\
   column "followedAt.text" r = Some (JStr "1746598607000") /\
   column "followedAt.accessibilityText" r = Some (JStr "")) /\
  (r' <> [] /\
   column "followedAt.text" r' = Some (JStr "3d") /\
   column "followedAt.accessibilityText" r' = Some (JStr "")).
Proof.
  cbv zeta. destruct C7_followed_at_columns as [Hbuilt Hcols]. split.
  - destruct (Hbuilt (JDict [("followedAt", JInt 1746598607000)]) ∅ eq_refl dict_valued_empty)
      as [Hne _].
    split; [exact Hne|].
    exact (proj1 (proj2 (Hcols _ ∅ _ (or_introl eq_refl) Hne))
                 (JInt 1746598607000) eq_refl eq_refl eq_refl).
  - destruct (Hbuilt (JDict [("followedAt", JDict [("text", JStr "3d")])]) ∅
                eq_refl dict_valued_empty) as [_ Hne].
    split; [exact Hne|].
    exact (proj1 (Hcols _ ∅ _ (or_intror eq_refl) Hne) [("text", JStr "3d")] eq_refl).
Defined.


(** C7, as stated, fails on the primitives zero and false, which are not
    empty and whose string forms are 0 and False: the test of the scripts
    is the truth value of [followedAt], and the text column of their rows
    is the empty string. *)
Lemma C7_zero_and_false_are_not_stringified :
  let zero := JDict [("followedAt", JInt 0)] in
  let no := JDict [("followedAt", JBool false)] in
  is_primitive (JInt 0) = true /\ py_str (JInt 0) = "0" /\
  is_primitive (JBool false) = true /\ py_str (JBool false) = "False" /\
  column "followedAt.text" (fst (Complete.build_follower_row zero ∅)) = Some (JStr "") /\
  column "followedAt.text" (fst (ProcessOnly.build_follower_row zero ∅)) = Some (JStr "") /\
  column "followedAt.text" (fst (Complete.build_follower_row no ∅)) = Some (JStr "") /\
  column "followedAt.text" (fst (ProcessOnly.build_follower_row no ∅)) = Some (JStr "") /\
  column "followedAt.text" (fst (ProcessOnly.build_follower_row zero ∅))
    <> Some (JStr (py_str (JInt 0))).
Proof.
  cbv zeta. repeat split; try (vm_compute; reflexivity). vm_compute. discriminate.
Qed.

Lemma loop_run build dir st0 names st :
  for_each (process_page_with build dir) st0 names = Ok st ->
  for_each (file_step build) (loop_values st0) (map (read_file dir) names)
  = Ok (loop_values st).
Proof. intros H. rewrite <- for_each_values, H. reflexivity. Qed.




(** C6.  After the first [k] snapshot files, in the order of processing,
    the keys of the cumulative profile mapping are the union of the keys
    extracted from those files; each key maps to the profile of the latest
    of those files that defines it; and one more step of the loop removes no
    key: it keeps every entry but those the new file defines, which it
    overwrites.  This holds for the loops of both scripts. *)
Theorem C6_cumulative_profiles (dir : directory) (k : nat) (st0 st : loop_state) :
  let names := take k (sorted (glob_pages dir)) in
  all_profiles st0 = ∅ ->
  for_each (Complete.process_page dir) st0 names = Ok st \/
  for_each (ProcessOnly.process_page dir) st0 names = Ok st ->
  dom (all_profiles st)
    = ⋃ (map (fun name => dom (profiles_of_file (read_file dir name))) names) /\
  (forall key v,
     all_profiles st !! key = Some v <->
     exists i name,
       names !! i = Some name /\
       profiles_of_file (read_file dir name) !! key = Some v /\
       forall j name', (i < j)%nat -> names !! j = Some name' ->
         profiles_of_file (read_file dir name') !! key = None) /\
  (forall name st',
     Complete.process_page dir st name = Ok st' \/
     ProcessOnly.process_page dir st name = Ok st' ->
     dom (all_profiles st) ⊆ dom (all_profiles st') /\
     forall key,
       all_profiles st' !! key =
       match profiles_of_file (read_file dir name) !! key with
       | Some v => Some v
       | None => all_profiles st !! key
       end).
Proof.
  intros names H0 H.
  assert (exists build, for_each (file_step build) (loop_values st0) (map (read_file dir) names)
                        = Ok (loop_values st)) as [build Hrun].
  { destruct H as [H|H]; eexists; eapply loop_run; exact H. }
  split; [|split].
  - pose proof (loop_profiles_dom _ _ _ _ Hrun) as Hd. cbn [loop_values snd] in Hd.
    rewrite Hd, H0, dom_empty_L, (right_id_L ∅ (∪)), map_map. reflexivity.
  - intros key v.
    pose proof (loop_profiles_lookup build _ (loop_values st0) _ key v H0 Hrun) as Hl.
    cbn [loop_values snd] in Hl. rewrite Hl. clear Hl. split.
    + intros (i & f & Hi & Hf & Hlater).
      rewrite list_lookup_fmap in Hi.
      destruct (names !! i) as [name|] eqn:En; [|discriminate]. injection Hi as <-.
      exists i, name. split; [exact En|]. split; [exact Hf|].
      intros j name' Hj Hj'. apply (Hlater j _ Hj).
      rewrite list_lookup_fmap, Hj'. reflexivity.
    + intros (i & name & Hi & Hf & Hlater).
      exists i, (read_file dir name). split; [rewrite list_lookup_fmap, Hi; reflexivity|].
      split; [exact Hf|]. intros j f' Hj Hj'.
      rewrite list_lookup_fmap in Hj'.
      destruct (names !! j) as [name'|] eqn:En; [|discriminate]. injection Hj' as <-.
      eapply Hlater; eassumption.
  - intros name st' Hstep.
    assert (all_profiles st' = profiles_of_file (read_file dir name) ∪ all_profiles st) as ->.
    { assert (exists b, file_step b (loop_values st) (read_file dir name)
                        = Ok (loop_values st')) as [b Hb].
      { destruct Hstep as [Hs|Hs]; eexists; rewrite <- process_page_values;
          [rewrite <- Complete_process_page | rewrite <- ProcessOnly_process_page];
          rewrite Hs; reflexivity. }
      apply file_step_profiles in Hb. exact Hb. }
    split; [rewrite dom_union_L; set_solver|].
    intros key. rewrite lookup_union.
    destruct (profiles_of_file (read_file dir name) !! key),
             (all_profiles st !! key); reflexivity.
Qed.


Lemma C6_cumulative_profiles_witness :
  let old := JDict [("entityUrn", JStr "urn:1"); ("publicIdentifier", JStr "alice");
                    ("headline", JStr "old")] in
  let new := JDict [("entityUrn", JStr "urn:1"); ("publicIdentifier", JStr "alice");
                    ("headline", JStr "new")] in
  let dir : directory :=
    [ ("followers_page_1.json", Ok (JDict [("included", JList [new])]));
      ("followers_page_0.json", Ok (JDict [("included", JList [old])])) ] in
  let st0 := {| all_rows := []; all_profiles := ∅; printed := [LFoundPageFiles 2] |} in
  exists st,
    for_each (ProcessOnly.process_page dir) st0 (take 2 (sorted (glob_pages dir))) = Ok st /\
    all_profiles st !! KStr "urn:1" = Some new.
Proof.
  intros old new dir st0.
  destruct (for_each (ProcessOnly.process_page dir) st0 (take 2 (sorted (glob_pages dir))))
    as [st|e] eqn:Hrun; [|vm_compute in Hrun; discriminate].
  exists st. split; [reflexivity|].
  apply (proj1 (proj2 (C6_cumulative_profiles dir 2 st0 st eq_refl (or_intror Hrun)))).
  exists 1%nat, "followers_page_1.json".
  split; [vm_compute; reflexivity|]. split; [vm_compute; reflexivity|].
  intros j name' Hj Hl. apply lookup_lt_Some in Hl. vm_compute in Hl. lia.
Defined.

(** *** Snapshots that are empty or cannot be read *)

(** The order of strings is transitive, and [sorted] sorts. *)

Lemma compare_not_gt_trans a : forall b c,
  String.compare a b <> Gt -> String.compare b c <> Gt -> String.compare a c <> Gt.
Proof.
  induction a as [|x a IH]; intros b c Hab Hbc.
  - destruct c; simpl; discriminate.
  - destruct b as [|y b]; [simpl in Hab; congruence|].
    destruct c as [|z c]; [simpl in Hbc; congruence|].
    simpl in *. unfold Ascii.compare in *.
    destruct (N.compare_spec (N_of_ascii x) (N_of_ascii y)) as [Exy|Exy|Exy];
      [|destruct (N.compare_spec (N_of_ascii y) (N_of_ascii z)) as [Eyz|Eyz|Eyz]|congruence].
    + rewrite Exy.
      destruct (N.compare_spec (N_of_ascii y) (N_of_ascii z)); try congruence.
      eapply IH; eassumption.
    + rewrite <- Eyz. rewrite (proj2 (N.compare_lt_iff _ _) Exy). discriminate.
    + assert (N_of_ascii x < N_of_ascii z)%N as H by lia.
      rewrite (proj2 (N.compare_lt_iff _ _) H). discriminate.
    + congruence.
Qed.

Lemma leb_trans a b c :
  String.leb a b = true -> String.leb b c = true -> String.leb a c = true.
Proof.
  unfold String.leb. intros Hab Hbc.
  destruct (String.compare a c) eqn:Eac; try reflexivity.
  exfalso. apply (compare_not_gt_trans a b c); [| |exact Eac].
  - intros E. rewrite E in Hab. discriminate.
  - intros E. rewrite E in Hbc. discriminate.
Qed.


Lemma insert_sorted_In x y l : In y (insert_sorted x l) -> y = x \/ In y l.
Proof.
  induction l as [|z l IH]; simpl.
  - intros [<-|[]]. left. reflexivity.
  - destruct (String.leb x z); simpl; intros [H|H]; auto.
    destruct (IH H); auto.
Qed.

Lemma insert_sorted_sorted x l :
  StronglySorted le_str l -> StronglySorted le_str (insert_sorted x l).
Proof.
  induction 1 as [|y l Hl IH Hy]; simpl.
  - constructor; constructor.
  - destruct (String.leb x y) eqn:E.
    + constructor; [constructor; assumption|].
      constructor; [exact E|].
      rewrite Forall_forall in Hy |- *. intros z Hz.
      eapply leb_trans; [exact E | apply Hy; exact Hz].
    + constructor; [exact IH|].
      rewrite Forall_forall. intros z Hz. apply list_elem_of_In in Hz.
      apply insert_sorted_In in Hz as [->|Hz].
      * destruct (String.leb_total x y) as [H|H]; [congruence | exact H].
      * rewrite Forall_forall in Hy. apply Hy. apply list_elem_of_In. exact Hz.
Qed.

Lemma sorted_sorted l : StronglySorted le_str (sorted l).
Proof.
  induction l as [|x l IH]; [constructor|]. apply insert_sorted_sorted, IH.
Qed.

Lemma insert_sorted_perm x l : Permutation (insert_sorted x l) (x :: l).
Proof.
  induction l as [|y l IH]; simpl; [reflexivity|].
  destruct (String.leb x y); [reflexivity|].
  rewrite IH. apply perm_swap.
Qed.

Lemma sorted_perm l : Permutation (sorted l) l.
Proof.
  induction l as [|x l IH]; [reflexivity|].
  change (sorted (x :: l)) with (insert_sorted x (sorted l)).
  rewrite insert_sorted_perm, IH. reflexivity.
Qed.

(** *** File names: the order of the names of two pages *)

Lemma append_cancel_l p a b : p +:+ a = p +:+ b -> a = b.
Proof.
  induction p as [|c p IH]; [trivial|].
  change (String c (p +:+ a) = String c (p +:+ b) -> a = b).
  intros H. injection H as H. exact (IH H).
Qed.

Lemma append_cancel_r s : forall a b, a +:+ s = b +:+ s -> a = b.
Proof.
  induction a as [|c a IH]; intros b H.
  - destruct b as [|d b]; [reflexivity|].
    apply (f_equal String.length) in H. rewrite !length_append in H. simpl in H. lia.
  - destruct b as [|d b].
    + apply (f_equal String.length) in H. rewrite !length_append in H. simpl in H. lia.
    + change (String c (a +:+ s) = String d (b +:+ s)) in H.
      injection H as -> H. f_equal. exact (IH _ H).
Qed.

Lemma compare_refl s : String.compare s s = Eq.
Proof.
  induction s as [|c s IH]; [reflexivity|].
  cbn [String.compare]. rewrite ascii_compare_refl. exact IH.
Qed.

Lemma str_of_N_inj i j : str_of_N i = str_of_N j -> i = j.
Proof.
  intros H. apply N.compare_eq_iff.
  rewrite <- compare_str_of_N by (unfold index_width; rewrite H; reflexivity).
  rewrite H. apply compare_refl.
Qed.

Lemma page_filename_inj i j :
  Complete.page_filename i = Complete.page_filename j -> i = j.
Proof.
  unfold Complete.page_filename. intros H.
  apply append_cancel_l, append_cancel_r in H. apply str_of_N_inj, H.
Qed.

Lemma append_nil_r s : s +:+ "" = s.
Proof.
  induction s as [|c s IH]; [reflexivity|].
  change (String c (s +:+ "") = String c s). rewrite IH. reflexivity.
Qed.

Lemma index_width_large n :
  (10 <= n)%N -> index_width n = S (index_width (n / 10)).
Proof.
  intros H. unfold index_width. rewrite (str_of_N_large n H), length_append.
  simpl. lia.
Qed.

Lemma index_width_pos n : (1 <= index_width n)%nat.
Proof. apply str_of_N_length_pos. Qed.

Lemma index_width_mono j : forall i, (i <= j)%N -> (index_width i <= index_width j)%nat.
Proof.
  induction j as [j IH] using (well_founded_induction N.lt_wf_0). intros i Hij.
  destruct (N.lt_ge_cases i 10) as [Hi|Hi].
  - rewrite (proj2 (index_width_one i) Hi). apply index_width_pos.
  - assert (10 <= j)%N as Hj by lia.
    rewrite (index_width_large i Hi), (index_width_large j Hj).
    apply le_n_S, IH.
    + apply N.div_lt; lia.
    + apply N.Div0.div_le_mono. exact Hij.
Qed.

(** The decimal of [j] is the decimal of its leading digits followed by
    the digits left out. *)
Lemma str_of_N_split k : forall j,
  (k < index_width j)%nat ->
  exists rest,
    str_of_N j = str_of_N (j / pow10 k) +:+ rest /\
    String.length rest = k /\
    (k <> 0%nat -> exists d rest', (d < 10)%N /\ rest = String (digit_char d) rest').
Proof.
  induction k as [|k IH]; intros j Hk.
  - exists "". cbn [pow10]. rewrite N.div_1_r, append_nil_r.
    split; [reflexivity|]. split; [reflexivity|]. intros H. contradiction.
  - assert (10 <= j)%N as Hj.
    { destruct (N.lt_ge_cases j 10) as [H|H]; [|exact H].
      rewrite (proj2 (index_width_one j) H) in Hk. lia. }
    rewrite (index_width_large j Hj) in Hk.
    destruct (IH (j / 10)%N ltac:(lia)) as (rest & E & Hlen & Hd).
    exists (rest +:+ String (digit_char (j mod 10)) "").
    assert (pow10 k <> 0)%N as Hp.
    { clear. induction k as [|k IHk]; cbn [pow10]; lia. }
    split; [|split].
    + rewrite (str_of_N_large j Hj), E, append_assoc.
      cbn [pow10]. rewrite N.Div0.div_div. reflexivity.
    + rewrite length_append, Hlen. simpl. lia.
    + intros _. destruct k as [|k'].
      * destruct rest; [|discriminate Hlen].
        exists (j mod 10)%N, "". split; [apply N.mod_lt; lia | reflexivity].
      * destruct (Hd ltac:(lia)) as (d & rest' & Hd10 & ->).
        exists d, (rest' +:+ String (digit_char (j mod 10)) ""). split; [exact Hd10|].
        reflexivity.
Qed.

(** The names of two pages whose indices differ in their number of
    digits. *)
Lemma compare_page_filename_shorter i j :
  (index_width i < index_width j)%nat ->
  String.compare (Complete.page_filename i) (Complete.page_filename j)
  = match (i ?= j / pow10 (index_width j - index_width i))%N with
    | Gt => Gt
    | _ => Lt
    end.
Proof.
  intros Hw. pose proof (index_width_pos i) as Hi.
  destruct (str_of_N_split (index_width j - index_width i) j ltac:(lia))
    as (rest & E & Hlen & Hd).
  destruct (Hd ltac:(lia)) as (d & rest' & Hd10 & ->). clear Hd.
  set (q := (j / pow10 (index_width j - index_width i))%N) in *.
  assert (index_width i = index_width q) as Hq.
  { pose proof (f_equal String.length E) as HL. rewrite length_append, Hlen in HL.
    fold (index_width j) in HL. fold (index_width q) in HL. lia. }
  unfold Complete.page_filename.
  rewrite compare_app_prefix, E, append_assoc.
  rewrite compare_app_same_length by exact Hq.
  rewrite (compare_str_of_N i q Hq).
  destruct (i ?= q)%N; try reflexivity.
  change (String (digit_char d) rest' +:+ ".json")
    with (String (digit_char d) (rest' +:+ ".json")).
  cbn [String.compare]. unfold Ascii.compare.
  rewrite (digit_char_code d Hd10).
  change (N_of_ascii ".") with 46%N.
  destruct (N.compare_spec 46 (48 + d)) as [H|H|H]; try lia. reflexivity.
Qed.

Lemma leb_page_filename_shorter i j :
  (index_width i < index_width j)%nat ->
  String.leb (Complete.page_filename i) (Complete.page_filename j)
    = (i <=? j / pow10 (index_width j - index_width i))%N /\
  String.leb (Complete.page_filename j) (Complete.page_filename i)
    = negb (i <=? j / pow10 (index_width j - index_width i))%N.
Proof.
  intros Hw. pose proof (compare_page_filename_shorter i j Hw) as H.
  split.
  - unfold String.leb, N.leb. rewrite H. destruct (i ?= _)%N; reflexivity.
  - unfold String.leb, N.leb.
    rewrite (String.compare_antisym (Complete.page_filename j) (Complete.page_filename i)), H.
    destruct (i ?= _)%N; reflexivity.
Qed.

Lemma leb_refl s : String.leb s s = true.
Proof. unfold String.leb. rewrite compare_refl. reflexivity. Qed.

Lemma StronglySorted_lookup {A : Type} (R : A -> A -> Prop) (l : list A) :
  StronglySorted R l ->
  forall p q a b, (p < q)%nat -> l !! p = Some a -> l !! q = Some b -> R a b.
Proof.
  induction 1 as [|x l Hl IH Hx]; intros p q a b Hpq Hp Hq.
  - rewrite lookup_nil in Hp. discriminate.
  - destruct q as [|q]; [lia|]. cbn in Hq. destruct p as [|p].
    + cbn in Hp. injection Hp as <-.
      rewrite Forall_forall in Hx. apply Hx. eapply list_elem_of_lookup_2, Hq.
    + cbn in Hp. apply (IH p q); [lia | exact Hp | exact Hq].
Qed.

(** Sorting the names gives the files in the order of their indices
    exactly when the names of every two indices are in the order of the
    indices. *)
Lemma sorted_names_index_order l :
  sorted (map Complete.page_filename l) = map Complete.page_filename (sort_pages l)
  <-> (forall i j, In i l -> In j l -> (i < j)%N ->
         String.leb (Complete.page_filename i) (Complete.page_filename j) = true).
Proof.
  split.
  - intros E i j Hi Hj Hij.
    pose proof (sorted_sorted (map Complete.page_filename l)) as Hs. rewrite E in Hs.
    pose proof (sort_pages_sorted l) as Hn.
    assert (i ∈ sort_pages l) as Hi'
      by (rewrite (sort_pages_perm l); apply list_elem_of_In, Hi).
    assert (j ∈ sort_pages l) as Hj'
      by (rewrite (sort_pages_perm l); apply list_elem_of_In, Hj).
    apply list_elem_of_lookup_1 in Hi' as [p Hp].
    apply list_elem_of_lookup_1 in Hj' as [q Hq].
    destruct (lt_eq_lt_dec p q) as [[Hlt|Heq]|Hgt].
    + apply (StronglySorted_lookup _ _ Hs p q); [exact Hlt| |];
        rewrite list_lookup_fmap; [rewrite Hp | rewrite Hq]; reflexivity.
    + subst q. rewrite Hp in Hq. injection Hq as ->. lia.
    + pose proof (StronglySorted_lookup _ _ Hn q p j i Hgt Hq Hp). lia.
  - intros H. apply sorted_map. intros x y Hx Hy.
    destruct (N.compare_spec x y) as [->|Hlt|Hgt].
    + rewrite leb_refl. symmetry. apply N.leb_refl.
    + rewrite (H x y Hx Hy Hlt). symmetry. apply N.leb_le. lia.
    + transitivity false; [|symmetry; apply N.leb_gt; exact Hgt].
      destruct (String.leb (Complete.page_filename x) (Complete.page_filename y)) eqn:E;
        [|reflexivity].
      pose proof (String.leb_antisym _ _ E (H y x Hy Hx Hgt)) as Heq.
      apply page_filename_inj in Heq. lia.
Qed.

(** C2, as the scripts have it.  The page files are processed in the order
    of their names as strings.  Two indices with the same number of
    decimal digits have their names in the order of the indices.  Of two
    indices with different numbers of digits the smaller has the fewer,
    and its name comes first exactly when the index is at most the
    leading digits of the other, as many as it has itself.  Sorting the
    names, or the names [glob] finds in a directory of such files, gives
    the files in increasing page index ([sort_pages] is the list of
    indices in increasing order) exactly when the names of every two
    indices present are in the order of the indices, and so whenever the
    indices present all have the same number of digits. *)
Theorem C2_name_order_of_page_files :
  (forall i j, index_width i = index_width j ->
     String.leb (Complete.page_filename i) (Complete.page_filename j) = (i <=? j)%N) /\
  (forall i j, (i <= j)%N -> (index_width i <= index_width j)%nat) /\
  (forall i j, (index_width i < index_width j)%nat ->
     String.leb (Complete.page_filename i) (Complete.page_filename j)
       = (i <=? j / pow10 (index_width j - index_width i))%N /\
     String.leb (Complete.page_filename j) (Complete.page_filename i)
       = negb (i <=? j / pow10 (index_width j - index_width i))%N) /\
  (forall (l : list N) (content : N -> file),
     sorted (glob_pages (map (fun i => (Complete.page_filename i, content i)) l))
       = sorted (map Complete.page_filename l) /\
     (sorted (map Complete.page_filename l) = map Complete.page_filename (sort_pages l)
      <-> forall i j, In i l -> In j l -> (i < j)%N ->
            String.leb (Complete.page_filename i) (Complete.page_filename j) = true) /\
     ((forall i j, In i l -> In j l -> index_width i = index_width j) ->
      sorted (map Complete.page_filename l) = map Complete.page_filename (sort_pages l)) /\
     StronglySorted N.le (sort_pages l) /\
     Permutation (sort_pages l) l).
Proof.
  split; [exact leb_page_filename|].
  split; [intros i j; apply index_width_mono|].
  split; [exact leb_page_filename_shorter|].
  intros l content.
  split; [rewrite glob_page_files; reflexivity|].
  split; [apply sorted_names_index_order|].
  split; [|split; [apply sort_pages_sorted | apply sort_pages_perm]].
  intros Hw. apply sorted_map. intros x y Hx Hy. apply leb_page_filename, Hw; assumption.
Qed.

Lemma C2_name_order_of_page_files_witness :
  sorted (map Complete.page_filename [10; 1; 0]%N)
    = [ "followers_page_0.json"; "followers_page_1.json"; "followers_page_10.json" ] /\
  sorted (map Complete.page_filename [12; 10; 11]%N)
    = [ "followers_page_10.json"; "followers_page_11.json"; "followers_page_12.json" ] /\
  String.leb (Complete.page_filename 2) (Complete.page_filename 10) = false.
Proof.
  destruct C2_name_order_of_page_files as (_ & _ & Hshort & Hlists).
  split; [|split].
  - destruct (Hlists [10; 1; 0]%N (fun _ => Ok JNull)) as (_ & Hiff & _).
    refine (eq_trans (proj2 Hiff _) _); [|reflexivity].
    intros i j Hi Hj Hij. simpl in Hi, Hj.
    destruct Hi as [<-|[<-|[<-|[]]]], Hj as [<-|[<-|[<-|[]]]];
      try reflexivity; lia.
  - destruct (Hlists [12; 10; 11]%N (fun _ => Ok JNull)) as (_ & _ & Heq & _).
    refine (eq_trans (Heq _) _); [|reflexivity].
    intros i j Hi Hj. simpl in Hi, Hj.
    destruct Hi as [<-|[<-|[<-|[]]]], Hj as [<-|[<-|[<-|[]]]]; reflexivity.
  - exact (proj1 (Hshort 2%N 10%N ltac:(vm_compute; lia))).
Defined.

Lemma insert_sorted_below x l :
  Forall (le_str x) l -> insert_sorted x l = x :: l.
Proof.
  destruct 1 as [|y l Hy _]; simpl; [reflexivity|]. rewrite Hy. reflexivity.
Qed.

Lemma filter_insert_sorted (P : string -> Prop) `{forall x, Decision (P x)} x l :
  StronglySorted le_str l ->
  filter P (insert_sorted x l)
  = if decide (P x) then insert_sorted x (filter P l) else filter P l.
Proof.
  induction 1 as [|y l Hl IH Hy]; simpl.
  - rewrite filter_cons, filter_nil. destruct (decide (P x)); reflexivity.
  - destruct (String.leb x y) eqn:E.
    + rewrite (filter_cons P x). destruct (decide (P x)); [|reflexivity].
      symmetry. apply insert_sorted_below.
      apply Forall_forall. intros z Hz. apply list_elem_of_filter in Hz as [_ Hz].
      apply elem_of_cons in Hz as [->|Hz]; [exact E|].
      rewrite Forall_forall in Hy. eapply leb_trans; [exact E | apply Hy, Hz].
    + rewrite !(filter_cons P y), IH.
      destruct (decide (P y)), (decide (P x)); try reflexivity.
      simpl. rewrite E. reflexivity.
Qed.

Lemma sorted_filter (P : string -> Prop) `{forall x, Decision (P x)} l :
  sorted (filter P l) = filter P (sorted l).
Proof.
  induction l as [|x l IH]; [reflexivity|].
  change (sorted (x :: l)) with (insert_sorted x (sorted l)).
  rewrite filter_insert_sorted by apply sorted_sorted.
  rewrite filter_cons. destruct (decide (P x)); [|exact IH].
  change (sorted (x :: filter P l)) with (insert_sorted x (sorted (filter P l))).
  rewrite IH. reflexivity.
Qed.

(** A directory without the files that cannot be read. *)

Lemma filter_ext_in {A} (P Q : A -> Prop) `{forall x, Decision (P x)}
  `{forall x, Decision (Q x)} (l : list A) :
  (forall x, In x l -> (P x <-> Q x)) -> filter P l = filter Q l.
Proof.
  induction l as [|x l IH]; intros Hpq; [reflexivity|].
  rewrite !filter_cons, IH by (intros; apply Hpq; right; assumption).
  destruct (decide (P x)) as [Hp|Hp], (decide (Q x)) as [Hq|Hq]; try reflexivity;
    exfalso; apply (Hpq x (or_introl eq_refl)) in Hp || apply (Hpq x (or_introl eq_refl)) in Hq;
    contradiction.
Qed.

Lemma read_file_not_in dir name :
  ~ In name (map fst dir) -> read_file dir name = Raise OSError.
Proof.
  induction dir as [|[n c] dir IH]; simpl; [reflexivity|].
  intros H. destruct (String.eqb name n) eqn:E.
  - apply String.eqb_eq in E. subst. exfalso. apply H. left. reflexivity.
  - apply IH. intros Hin. apply H. right. exact Hin.
Qed.

Lemma read_file_readable dir name :
  succeeds (read_file dir name) = true ->
  read_file (readable_files dir) name = read_file dir name.
Proof.
  unfold readable_files.
  induction dir as [|[n c] dir IH]; simpl; [reflexivity|].
  destruct (String.eqb name n) eqn:E.
  - intros Hc. rewrite Hc. simpl. rewrite E. reflexivity.
  - intros Hs. destruct (succeeds c); simpl; [rewrite E|]; apply IH, Hs.
Qed.

Lemma glob_readable_files dir :
  List.NoDup (map fst dir) ->
  glob_pages (readable_files dir)
  = filter (fun name => succeeds (read_file dir name) = true) (glob_pages dir).
Proof.
  unfold glob_pages, readable_files.
  induction dir as [|[n c] dir IH]; intros Hnd; [reflexivity|].
  inversion Hnd as [|? ? Hn Hnd']; subst.
  cbn [map fst List.filter snd].
  assert (filter (fun name => succeeds (read_file ((n, c) :: dir) name) = true)
                 (filter (fun name => matches_page_pattern name = true) (map fst dir))
          = filter (fun name => succeeds (read_file dir name) = true)
                   (filter (fun name => matches_page_pattern name = true) (map fst dir))) as Htail.
  { apply filter_ext_in. intros m Hm.
    apply list_elem_of_In, list_elem_of_filter in Hm as [_ Hm]. apply list_elem_of_In in Hm.
    simpl. destruct (String.eqb m n) eqn:E; [|tauto].
    apply String.eqb_eq in E. subst. contradiction. }
  assert (read_file ((n, c) :: dir) n = c) as Hread
    by (simpl; rewrite String.eqb_refl; reflexivity).
  specialize (IH Hnd').
  rewrite (filter_cons _ n (map fst dir)).
  destruct (decide (matches_page_pattern n = true)) as [Hm|Hm].
  - rewrite (filter_cons _ n), Hread, Htail, <- IH.
    destruct (succeeds c) eqn:Ec.
    + rewrite decide_True by reflexivity.
      cbn [map fst]. rewrite filter_cons, decide_True by exact Hm. reflexivity.
    + rewrite decide_False by discriminate. reflexivity.
  - rewrite Htail, <- IH.
    destruct (succeeds c) eqn:Ec; [|reflexivity].
    cbn [map fst]. rewrite filter_cons, decide_False by exact Hm. reflexivity.
Qed.

Lemma skip_unreadable build dir names : forall acc,
  for_each (file_step build) acc (map (read_file dir) names)
  = for_each (file_step build) acc
      (map (read_file (readable_files dir))
           (filter (fun name => succeeds (read_file dir name) = true) names)).
Proof.
  induction names as [|name names IH]; intros acc; [reflexivity|].
  rewrite filter_cons. cbn [map for_each].
  destruct (decide (succeeds (read_file dir name) = true)) as [Hs|Hs].
  - cbn [map for_each]. rewrite (read_file_readable _ _ Hs).
    destruct (file_step build acc (read_file dir name)); [|reflexivity].
    cbn [bind]. apply IH.
  - destruct (read_file dir name) as [page|e]; [exfalso; apply Hs; reflexivity|].
    cbn [file_step bind]. apply IH.
Qed.

Lemma ProcessOnly_returned_rows dir :
  returned_rows (ProcessOnly.process_existing_pages dir)
  = (let* acc := for_each (file_step ProcessOnly.build_follower_row) ([], ∅)
                   (map (read_file dir) (sorted (glob_pages dir))) in
     Ok (fst acc)).
Proof.
  unfold returned_rows, ProcessOnly.process_existing_pages.
  destruct (sorted (glob_pages dir)) as [|name names]; [reflexivity|].
  rewrite ProcessOnly_process_page.
  match goal with |- context [for_each (process_page_with _ _) ?st0 ?l] =>
    pose proof (for_each_values ProcessOnly.build_follower_row dir l st0) as Hv;
    unfold loop_values in Hv; cbn [all_rows all_profiles] in Hv; rewrite <- Hv;
    destruct (for_each (process_page_with ProcessOnly.build_follower_row dir) st0 l)
  end; reflexivity.
Qed.

Lemma Complete_returned_rows dir :
  returned_rows (Complete.process_downloaded_pages dir)
  = (let* acc := for_each (file_step Complete.build_follower_row) ([], ∅)
                   (map (read_file dir) (sorted (glob_pages dir))) in
     Ok (fst acc)).
Proof.
  unfold returned_rows, Complete.process_downloaded_pages.
  destruct (sorted (glob_pages dir)) as [|name names]; [reflexivity|].
  rewrite Complete_process_page.
  match goal with |- context [for_each (process_page_with _ _) ?st0 ?l] =>
    pose proof (for_each_values Complete.build_follower_row dir l st0) as Hv;
    unfold loop_values in Hv; cbn [all_rows all_profiles] in Hv; rewrite <- Hv;
    destruct (for_each (process_page_with Complete.build_follower_row dir) st0 l)
  end; reflexivity.
Qed.

Lemma process_page_unreadable build dir st name e :
  read_file dir name = Raise e ->
  process_page_with build dir st name
  = Ok {| all_rows := all_rows st;
          all_profiles := all_profiles st;
          printed := (printed st ++ [LProcessing name]) ++ [LErrorReading name e] |}.
Proof. intros H. unfold process_page_with. rewrite H. reflexivity. Qed.

Lemma process_page_empty_object build dir st name :
  read_file dir name = Ok (JDict []) ->
  process_page_with build dir st name
  = Ok {| all_rows := all_rows st;
          all_profiles := all_profiles st;
          printed := ((printed st ++ [LProcessing name]) ++ [LFoundProfiles 0])
                     ++ [LFoundElements 0] |}.
Proof.
  intros H. unfold process_page_with. rewrite H. cbn.
  rewrite (left_id_L ∅ (∪)), app_nil_r. reflexivity.
Qed.

(** C8.  A snapshot that parses to the empty object gives no profile and
    no relationship element, nothing is raised, and the page loop goes on
    with the rows and the mapping it had.  A snapshot file that cannot be
    opened or parsed is skipped in the same way, and the rows the reducer
    returns are the rows it returns for the directory without the files
    that cannot be read. *)
Theorem C8_empty_and_unreadable_snapshots (dir : directory) :
  List.NoDup (map fst dir) ->
  ProcessOnly.extract_profiles_from_page (JDict []) = Ok ∅ /\
  ProcessOnly.extract_elements_from_page (JDict []) = (JList [], []) /\
  (forall st name,
     read_file dir name = Ok (JDict []) ->
     exists st',
       ProcessOnly.process_page dir st name = Ok st' /\
       all_rows st' = all_rows st /\ all_profiles st' = all_profiles st) /\
  (forall st name e,
     read_file dir name = Raise e ->
     exists st',
       ProcessOnly.process_page dir st name = Ok st' /\
       all_rows st' = all_rows st /\ all_profiles st' = all_profiles st) /\
  returned_rows (ProcessOnly.process_existing_pages dir)
  = returned_rows (ProcessOnly.process_existing_pages (readable_files dir)).
Proof.
  intros Hnd. split; [reflexivity|]. split; [reflexivity|]. split; [|split].
  - intros st name H. rewrite ProcessOnly_process_page.
    rewrite (process_page_empty_object _ _ _ _ H). eexists. repeat split.
  - intros st name e H. rewrite ProcessOnly_process_page.
    rewrite (process_page_unreadable _ _ _ _ _ H). eexists. repeat split.
  - rewrite !ProcessOnly_returned_rows.
    rewrite (skip_unreadable _ dir), glob_readable_files by exact Hnd.
    rewrite sorted_filter. reflexivity.
Qed.

(** *** The entry point and what it reports *)

Lemma fold_add_row_printed build profiles items :
  (forall e pm l, In l (snd (build e pm)) -> is_page_line l = true) ->
  forall rows out,
  exists extra,
    snd (fold_left (add_row_with build profiles) items (rows, out)) = out ++ extra /\
    (forall l, In l extra -> is_page_line l = true).
Proof.
  intros Hb. induction items as [|e items IH]; intros rows out.
  - exists []. rewrite app_nil_r. split; [reflexivity | intros l []].
  - cbn [fold_left]. unfold add_row_with at 2. cbn [fst snd].
    destruct (build e profiles) as [r o] eqn:E.
    destruct (IH (if is_empty_row r then rows else rows ++ [r]) (out ++ o))
      as (extra & Hx & Hp).
    exists (o ++ extra). rewrite Hx, app_assoc. split; [reflexivity|].
    intros l Hl. apply in_app_or in Hl as [Hl|Hl]; [|auto].
    apply (Hb e profiles). rewrite E. exact Hl.
Qed.

Lemma process_page_printed build dir st name st' :
  (forall e pm l, In l (snd (build e pm)) -> is_page_line l = true) ->
  process_page_with build dir st name = Ok st' ->
  exists extra,
    printed st' = printed st ++ extra /\ (forall l, In l extra -> is_page_line l = true).
Proof.
  intros Hb. unfold process_page_with.
  destruct (read_file dir name) as [page|e].
  - intros H. apply bind_ok_inv in H as (pp & _ & H).
    destruct (Complete.extract_elements_from_page page) as [elements err] eqn:Ee.
    apply bind_ok_inv in H as (n & _ & H). apply bind_ok_inv in H as (items & _ & H).
    match type of H with context [fold_left ?f ?l (?r, ?o)] =>
      destruct (fold_add_row_printed build (pp ∪ all_profiles st) items Hb r o)
        as (extra & Hx & Hp);
      destruct (fold_left f l (r, o)) as [rows out] end.
    cbn [snd] in Hx. injection H as <-. cbn [printed]. rewrite Hx.
    eexists. rewrite <- !app_assoc. split; [reflexivity|].
    intros l Hl. repeat (apply in_app_or in Hl as [Hl|Hl]); auto.
    + destruct Hl as [<-|[]]. reflexivity.
    + destruct Hl as [<-|[]]. reflexivity.
    + unfold Complete.extract_elements_from_page in Ee.
      destruct (Complete.extract_elements_try page); injection Ee as _ <-;
        [destruct Hl | destruct Hl as [<-|[]]; reflexivity].
    + destruct Hl as [<-|[]]. reflexivity.
  - intros H. injection H as <-. cbn [printed]. eexists. rewrite <- app_assoc.
    split; [reflexivity|]. intros l [<-|[<-|[]]]; reflexivity.
Qed.

Lemma for_each_printed build dir names :
  (forall e pm l, In l (snd (build e pm)) -> is_page_line l = true) ->
  forall st st',
  for_each (process_page_with build dir) st names = Ok st' ->
  exists extra,
    printed st' = printed st ++ extra /\ (forall l, In l extra -> is_page_line l = true).
Proof.
  intros Hb. induction names as [|name names IH]; intros st st' H; cbn [for_each] in H.
  - injection H as <-. exists []. rewrite app_nil_r. split; [reflexivity | intros l []].
  - apply bind_ok_inv in H as (st1 & H1 & H2).
    destruct (process_page_printed _ _ _ _ _ Hb H1) as (x1 & E1 & P1).
    destruct (IH _ _ H2) as (x2 & E2 & P2).
    exists (x1 ++ x2). rewrite E2, E1, app_assoc. split; [reflexivity|].
    intros l Hl. apply in_app_or in Hl as [Hl|Hl]; auto.
Qed.

Lemma ProcessOnly_build_prints e pm l :
  In l (snd (ProcessOnly.build_follower_row e pm)) -> is_page_line l = true.
Proof.
  unfold ProcessOnly.build_follower_row.
  destruct (ProcessOnly.build_follower_row_try e pm); simpl; [tauto|].
  intros [<-|[]]. reflexivity.
Qed.

Lemma sorted_nil l : sorted l = [] -> l = [].
Proof.
  destruct l as [|x l]; [reflexivity|].
  change (sorted (x :: l)) with (insert_sorted x (sorted l)).
  destruct (sorted l) as [|y s]; simpl; [discriminate|].
  destruct (String.leb x y); discriminate.
Qed.

Lemma process_existing_pages_lines dir rows out :
  glob_pages dir <> [] ->
  ProcessOnly.process_existing_pages dir = Ok (rows, out) ->
  forall l, In l out -> is_reducer_line l = true.
Proof.
  intros Hne. unfold ProcessOnly.process_existing_pages.
  destruct (sorted (glob_pages dir)) as [|name names] eqn:En.
  { apply sorted_nil in En. contradiction. }
  intros H. apply bind_ok_inv in H as (st & Hrun & H). injection H as _ <-.
  rewrite ProcessOnly_process_page in Hrun.
  destruct (for_each_printed _ _ _ ProcessOnly_build_prints _ _ Hrun) as (extra & -> & Hp).
  cbn [printed]. intros l Hl.
  repeat (apply in_app_or in Hl as [Hl|Hl]).
  - destruct Hl as [<-|[]]. reflexivity.
  - apply Hp in Hl. destruct l; try discriminate Hl; reflexivity.
  - destruct Hl as [<-|[<-|[]]]; reflexivity.
Qed.


Lemma reducer_line_facts out :
  (forall l, In l out -> is_reducer_line l = true) ->
  ~ In LNoFilesMatching out /\ ~ In LNoDataFound out /\
  (forall f n, ~ In (LSuccess f n) out).
Proof.
  intros H. repeat split; [intros Hin..|intros f n Hin]; apply H in Hin; discriminate.
Qed.

(** C9.  A snapshot file whose [included] is null holds no relationship
    element, and so does one whose [elements] is null; on a directory with
    such a file [main] of [process_existing_followers.py] reports neither
    that no rows were produced nor anything else: the [TypeError] of the
    loop over [included], or of [len] of the elements, is outside every
    [try] of the script and ends it.  On the empty object in the same
    place, and on a file that cannot be read, [main] says that no data was
    found and returns. *)
Theorem C9_malformed_snapshot_ends_main :
  let no_profiles : directory :=
    [("followers_page_0.json", Ok (JDict [("included", JNull)]))] in
  let no_elements : directory :=
    [("followers_page_0.json",
      Ok (JDict [(container_name, JDict [("elements", JNull)])]))] in
  let empty : directory := [("followers_page_0.json", Ok (JDict []))] in
  let unreadable : directory := [("followers_page_0.json", Raise JSONDecodeError)] in
  (glob_pages no_profiles = ["followers_page_0.json"] /\
   all_elements no_profiles = [] /\
   forall disk, ProcessOnly.main no_profiles disk = Raise TypeError) /\
  (glob_pages no_elements = ["followers_page_0.json"] /\
   all_elements no_elements = [] /\
   forall disk, ProcessOnly.main no_elements disk = Raise TypeError) /\
  (forall disk, exists log,
     ProcessOnly.main empty disk = Ok (log, CsvUntouched) /\ In LNoDataFound log) /\
  (forall disk, exists log,
     ProcessOnly.main unreadable disk = Ok (log, CsvUntouched) /\ In LNoDataFound log).
Proof.
  cbv zeta. split; [|split; [|split]].
  - split; [vm_compute; reflexivity|]. split; [vm_compute; reflexivity|].
    intros disk. vm_compute. reflexivity.
  - split; [vm_compute; reflexivity|]. split; [vm_compute; reflexivity|].
    intros disk. vm_compute. reflexivity.
  - intros disk. eexists. split; [vm_compute; reflexivity|].
    repeat (first [left; reflexivity | right]).
  - intros disk. eexists. split; [vm_compute; reflexivity|].
    repeat (first [left; reflexivity | right]).
Qed.

Lemma C8_empty_and_unreadable_snapshots_witness :
  let page :=
    JDict [ ("organizationDashFollowersByOrganizationalPage",
             JDict [("elements", JList [JDict [("followedAt", JStr "3d")]])]) ] in
  let dir : directory :=
    [ ("followers_page_0.json", Raise JSONDecodeError);
      ("followers_page_1.json", Ok page);
      ("followers_page_2.json", Ok (JDict [])) ] in
  returned_rows (ProcessOnly.process_existing_pages dir)
  = returned_rows (ProcessOnly.process_existing_pages
                     [ ("followers_page_1.json", Ok page);
                       ("followers_page_2.json", Ok (JDict [])) ]).
Proof.
  intros page dir.
  refine (proj2 (proj2 (proj2 (proj2 (C8_empty_and_unreadable_snapshots dir _))))).
  repeat constructor; simpl; intuition discriminate.
Defined.

(** *** The example of the specification *)

(** Two snapshot files: page 0 with the profile of alice and one
    element that refers to it, followed 3d ago; page 1 the empty object.
    Both reducers return exactly one row. *)
Example example_two_pages_one_row :
  let profile := JDict [("entityUrn", JStr "urn:1"); ("publicIdentifier", JStr "alice")] in
  let element :=
    JDict [ ("followerV2", JDict [("*profile", JStr "urn:1")]);
            ("followedAt", JDict [("text", JStr "3d")]) ] in
  let page0 :=
    JDict [ ("included", JList [profile]);
            ("data",
             JDict [("data",
                     JDict [("organizationDashFollowersByOrganizationalPage",
                             JDict [("elements", JList [element])])])]) ] in
  let dir : directory :=
    [ ("followers_page_0.json", Ok page0); ("followers_page_1.json", Ok (JDict [])) ] in
  let expected : row :=
    [ ("firstName", JStr ""); ("lastName", JStr ""); ("headline", JStr "");
      ("publicIdentifier", JStr "alice");
      ("linkedinUrl", JStr "https://www.linkedin.com/in/alice/");
      ("followedAt.text", JStr "3d"); ("followedAt.accessibilityText", JStr "");
      ("entityUrn", JStr "urn:1") ] in
  returned_rows (ProcessOnly.process_existing_pages dir) = Ok [expected] /\
  returned_rows (Complete.process_downloaded_pages dir) = Ok [expected].
Proof. cbv zeta. split; vm_compute; reflexivity. Qed.

(** Two elements, on two pages, that refer to the same profile: two rows. *)
Example example_same_profile_twice :
  let profile := JDict [("entityUrn", JStr "urn:1"); ("publicIdentifier", JStr "alice")] in
  let element := JDict [("followerV2", JDict [("*profile", JStr "urn:1")])] in
  let page (included : list json) :=
    JDict [ ("included", JList included);
            ("organizationDashFollowersByOrganizationalPage",
             JDict [("elements", JList [element])]) ] in
  let dir : directory :=
    [ ("followers_page_0.json", Ok (page [profile]));
      ("followers_page_1.json", Ok (page [])) ] in
  exists r,
    column "publicIdentifier" r = Some (JStr "alice") /\
    returned_rows (ProcessOnly.process_existing_pages dir) = Ok [r; r].
Proof. cbv zeta. eexists. split; [|vm_compute; reflexivity]. reflexivity. Qed.

(** *** Row builder: the shape of a row *)

(** A row either script builds is the row of a profile, of the two
    [followedAt] columns and of an [entityUrn]. *)
Lemma built_row_shape element profiles r :
  fst (Complete.build_follower_row element profiles) = r \/
  fst (ProcessOnly.build_follower_row element profiles) = r ->
  r <> [] ->
  exists p followed urn, r = row_of p followed urn.
Proof.
  intros [H|H] Hne.
  - apply Complete_built in H; [|assumption].
    apply Complete_row_inv in H as (fields & p & followed & _ & _ & _ & ->). eauto.
  - apply ProcessOnly_built in H; [|assumption].
    apply ProcessOnly_row_inv in H as (fields & p & followed & _ & _ & _ & ->). eauto.
Qed.

Lemma row_of_columns p followed urn :
  map fst (row_of p followed urn) = ProcessOnly.fieldnames.
Proof. reflexivity. Qed.

(** X1.  Every row either script builds has the eight columns of the CSV
    header, in the order of the header: [csv.DictWriter] finds no column
    missing and none it does not know. *)
Theorem built_row_columns (element : json) (profiles : profile_map) (r : row) :
  fst (Complete.build_follower_row element profiles) = r \/
  fst (ProcessOnly.build_follower_row element profiles) = r ->
  r <> [] ->
  map fst r = ProcessOnly.fieldnames.
Proof.
  intros H Hne. destruct (built_row_shape _ _ _ H Hne) as (p & fo & urn & ->).
  apply row_of_columns.
Qed.

Lemma built_row_columns_witness :
  map fst (fst (ProcessOnly.build_follower_row (JDict [("followedAt", JStr "3d")]) ∅))
  = ProcessOnly.fieldnames.
Proof.
  apply (built_row_columns (JDict [("followedAt", JStr "3d")]) ∅);
    [right; reflexivity | vm_compute; discriminate].
Defined.

(** X5.  In every row either script builds, [linkedinUrl] is made from the
    [publicIdentifier] column of the same row: the empty string when the
    identifier is one Python counts as false, and the profile address of
    its string form when it is a primitive Python counts as true; for a
    string that is not empty, the profile address of the string. *)
Theorem built_row_linkedin_url (element : json) (profiles : profile_map) (r : row) :
  fst (Complete.build_follower_row element profiles) = r \/
  fst (ProcessOnly.build_follower_row element profiles) = r ->
  r <> [] ->
  exists pid,
    column "publicIdentifier" r = Some pid /\
    (py_truthy pid = false -> column "linkedinUrl" r = Some (JStr "")) /\
    (py_truthy pid = true -> is_primitive pid = true ->
       column "linkedinUrl" r
       = Some (JStr ("https://www.linkedin.com/in/" +:+ py_str pid +:+ "/"))) /\
    (forall s, pid = JStr s -> s <> "" ->
       column "linkedinUrl" r = Some (JStr ("https://www.linkedin.com/in/" +:+ s +:+ "/"))).
Proof.
  intros H Hne. destruct (built_row_shape _ _ _ H Hne) as (p & fo & urn & ->).
  eexists. split; [reflexivity|].
  split; [|split].
  - intros Hf. unfold column, row_of. cbn [dict_lookup String.eqb Ascii.eqb Bool.eqb].
    unfold linkedin_url_of. rewrite Hf. reflexivity.
  - intros Ht _. unfold column, row_of. cbn [dict_lookup String.eqb Ascii.eqb Bool.eqb].
    unfold linkedin_url_of. rewrite Ht. reflexivity.
  - intros s Hs Hn. unfold column, row_of. cbn [dict_lookup String.eqb Ascii.eqb Bool.eqb].
    rewrite Hs. unfold linkedin_url_of. cbn [py_truthy py_str].
    destruct (String.eqb s "") eqn:E; [apply String.eqb_eq in E; contradiction|]. reflexivity.
Qed.

Lemma built_row_linkedin_url_witness :
  let alice := JDict [ ("entityUrn", JStr "urn:li:fsd_profile:A");
                       ("publicIdentifier", JStr "alice") ] in
  let element := JDict [("followerV2", JDict [("*profile", JStr "urn:li:fsd_profile:A")])] in
  let profiles : profile_map := {[ KStr "urn:li:fsd_profile:A" := alice ]} in
  column "linkedinUrl" (fst (Complete.build_follower_row element profiles))
  = Some (JStr "https://www.linkedin.com/in/alice/").
Proof.
  intros alice element profiles.
  destruct (built_row_linkedin_url element profiles _ (or_introl eq_refl))
    as (pid & Hp & _ & _ & Hurl).
  - vm_compute. discriminate.
  - apply (Hurl "alice"); [|discriminate]. vm_compute in Hp. congruence.
Defined.

(** *** Row builder: a reference to a profile the mapping holds *)

Lemma resolve_profile_found fields fv ref key v (profiles : profile_map) :
  dict_lookup "followerV2" fields = Some (JDict fv) ->
  dict_lookup "*profile" fv = Some ref ->
  py_truthy ref = true ->
  py_key ref = Ok key ->
  profiles !! key = Some v ->
  resolve_profile (JDict fields) profiles = Ok v.
Proof.
  intros Hf Hp Ht Hk Hm.
  rewrite (resolve_profile_ref _ _ _ _ Hf Hp), Ht, Hk. cbn [bind]. rewrite Hm. reflexivity.
Qed.

(** X6.  The row of an element whose profile is in the mapping: in both
    scripts the four profile columns are the fields of the profile, empty
    where the profile has none; when the profile has an [entityUrn] it is
    the [entityUrn] of the row, and the two scripts build the same row. *)
Theorem found_profile_row fields fv ref key p (profiles : profile_map) :
  dict_lookup "followerV2" fields = Some (JDict fv) ->
  dict_lookup "*profile" fv = Some ref ->
  py_truthy ref = true ->
  py_key ref = Ok key ->
  profiles !! key = Some (JDict p) ->
  let r := fst (Complete.build_follower_row (JDict fields) profiles) in
  let r' := fst (ProcessOnly.build_follower_row (JDict fields) profiles) in
  List.Forall
    (fun name =>
       column name r = Some (default (JStr "") (dict_lookup name p)) /\
       column name r' = Some (default (JStr "") (dict_lookup name p)))
    [ "firstName"; "lastName"; "headline"; "publicIdentifier" ] /\
  (forall urn, dict_lookup "entityUrn" p = Some urn ->
     column "entityUrn" r = Some urn /\ r' = r).
Proof.
  intros Hf Hp Ht Hk Hm r r'. subst r r'.
  pose proof (resolve_profile_found _ _ _ _ _ _ Hf Hp Ht Hk Hm) as Hr.
  destruct (Complete_row_of _ _ _ Hr) as (fo & Hfo & H1).
  destruct (ProcessOnly_row_of _ _ _ Hr) as (fo' & Hfo' & H2).
  rewrite Hfo in Hfo'. injection Hfo' as <-.
  unfold Complete.build_follower_row, ProcessOnly.build_follower_row. rewrite H1, H2.
  cbn [fst]. split.
  - repeat constructor.
  - intros urn Hu. rewrite Hu. split; reflexivity.
Qed.

Lemma found_profile_row_witness :
  let alice := [ ("entityUrn", JStr "urn:li:fsd_profile:A");
                 ("publicIdentifier", JStr "alice");
                 ("headline", JStr "engineer") ] in
  let fields := [ ("entityUrn", JStr "urn:li:fsd_follower:1");
                  ("followerV2", JDict [("*profile", JStr "urn:li:fsd_profile:A")]) ] in
  let profiles : profile_map := {[ KStr "urn:li:fsd_profile:A" := JDict alice ]} in
  column "entityUrn" (fst (Complete.build_follower_row (JDict fields) profiles))
  = Some (JStr "urn:li:fsd_profile:A") /\
  fst (ProcessOnly.build_follower_row (JDict fields) profiles)
  = fst (Complete.build_follower_row (JDict fields) profiles).
Proof.
  intros alice fields profiles.
  apply (proj2 (found_profile_row fields [("*profile", JStr "urn:li:fsd_profile:A")]
                  (JStr "urn:li:fsd_profile:A") (KStr "urn:li:fsd_profile:A") alice profiles
                  eq_refl eq_refl eq_refl eq_refl (lookup_singleton_eq _ _))).
  reflexivity.
Defined.

(** *** Row builder: where the two scripts differ *)

(** X7.  The two scripts build different rows for an element exactly when
    the element is an object with an [entityUrn] of its own other than the
    empty string and its profile, as the builder resolves it, has no
    [entityUrn]. *)
Theorem builders_differ_iff (element : json) (profiles : profile_map) :
  fst (Complete.build_follower_row element profiles)
    <> fst (ProcessOnly.build_follower_row element profiles)
  <->
  exists fields own p,
    element = JDict fields /\
    dict_lookup "entityUrn" fields = Some own /\ own <> JStr "" /\
    resolve_profile element profiles = Ok (JDict p) /\
    dict_lookup "entityUrn" p = None.
Proof.
  unfold Complete.build_follower_row, ProcessOnly.build_follower_row.
  rewrite Complete_row_blocks, ProcessOnly_row_blocks.
  destruct (resolve_profile element profiles) as [profile|e] eqn:Hr; cbn [bind].
  2: { split; [intros H; contradiction H; reflexivity|].
       intros (? & ? & ? & _ & _ & _ & H & _). discriminate. }
  destruct (followed_at_columns element) as [fo|e] eqn:Hf; cbn [bind].
  2: { split; [intros H; contradiction H; reflexivity|].
       intros (fields & ? & ? & -> & _). rewrite followed_at_columns_dict in Hf. discriminate. }
  destruct (is_dict_inv _ (followed_at_columns_ok_is_dict _ _ Hf)) as [fields ->].
  destruct profile as [| | | | |p];
    try (split; [intros H; contradiction H; reflexivity|];
         intros (? & ? & ? & _ & _ & _ & H & _); discriminate).
  rewrite !py_get_dict. cbn [bind]. rewrite !py_get_dict. cbn [bind fst].
  destruct (dict_lookup "entityUrn" p) as [u|] eqn:Hu; cbn [from_option id].
  - split; [intros H; contradiction H; reflexivity|].
    intros (? & ? & p' & _ & _ & _ & H & Hn). injection H as <-. congruence.
  - destruct (dict_lookup "entityUrn" fields) as [own|] eqn:Ho; cbn [from_option id].
    + split.
      * intros H. exists fields, own, p.
        split; [reflexivity|]. split; [exact Ho|]. split; [|split; [reflexivity|exact Hu]].
        intros ->. apply H. reflexivity.
      * intros (f' & own' & p' & Hf' & Ho' & Hne & _). injection Hf' as <-.
        rewrite Ho in Ho'. injection Ho' as <-.
        intros H. apply Hne. congruence.
    + split; [intros H; contradiction H; reflexivity|].
      intros (f' & own' & p' & Hf' & Ho' & _). injection Hf' as <-. congruence.
Qed.

(** *** Profiles: the entries of the mapping of a snapshot *)

Lemma add_profile_ok profiles item profiles' :
  Complete.add_profile profiles item = Ok profiles' ->
  profiles' = match profile_key item with
              | Some key => <[key := item]> profiles
              | None => profiles
              end.
Proof.
  unfold Complete.add_profile, profile_key, py_and.
  destruct item as [| | | s | items | p]; cbn [py_in bind]; try discriminate.
  - destruct (str_contains "entityUrn" s); cbn [bind].
    + destruct (str_contains "publicIdentifier" s); cbn [bind py_getitem]; congruence.
    + congruence.
  - destruct (existsb _ items); cbn [bind].
    + destruct (existsb _ items); cbn [bind py_getitem]; congruence.
    + congruence.
  - unfold dict_has. cbn [py_getitem].
    destruct (dict_lookup "entityUrn" p) as [urn|]; cbn [bind]; [|congruence].
    destruct (dict_lookup "publicIdentifier" p) as [pid|]; cbn [bind]; [|congruence].
    destruct (py_key urn); cbn [bind]; congruence.
Qed.

Lemma add_profile_raise profiles item e :
  Complete.add_profile profiles item = Raise e -> e = TypeError.
Proof.
  unfold Complete.add_profile, py_and.
  destruct item as [| | | s | items | p]; cbn [py_in bind]; try congruence.
  - destruct (str_contains "entityUrn" s); cbn [bind].
    + destruct (str_contains "publicIdentifier" s); cbn [bind py_getitem]; congruence.
    + congruence.
  - destruct (existsb _ items); cbn [bind].
    + destruct (existsb _ items); cbn [bind py_getitem]; congruence.
    + congruence.
  - unfold dict_has. cbn [py_getitem].
    destruct (dict_lookup "entityUrn" p) as [urn|]; cbn [bind]; [|congruence].
    destruct (dict_lookup "publicIdentifier" p) as [pid|]; cbn [bind]; [|congruence].
    destruct urn; cbn [py_key bind]; congruence.
Qed.

Lemma for_each_raise {S A : Type} (body : S -> A -> result S) (P : exn -> Prop) items :
  (forall st x e, body st x = Raise e -> P e) ->
  forall st e, for_each body st items = Raise e -> P e.
Proof.
  intros Hb. induction items as [|x items IH]; intros st e H; cbn [for_each] in H.
  - discriminate.
  - destruct (body st x) as [st1|e1] eqn:E; cbn [bind] in H.
    + eapply IH, H.
    + injection H as <-. eapply Hb, E.
Qed.

Lemma py_in_raise k v e : py_in k v = Raise e -> e = TypeError.
Proof. destruct v; simpl; congruence. Qed.

Lemma py_iter_raise v e : py_iter v = Raise e -> e = TypeError.
Proof. destruct v; simpl; congruence. Qed.

Lemma py_len_raise v e : py_len v = Raise e -> e = TypeError.
Proof. destruct v; simpl; congruence. Qed.

Lemma py_len_iter v : succeeds (py_iter v) = succeeds (py_len v).
Proof. destruct v; reflexivity. Qed.

Lemma extract_profiles_raise page_data e :
  Complete.extract_profiles_from_page page_data = Raise e -> e = TypeError.
Proof.
  unfold Complete.extract_profiles_from_page.
  destruct (py_in "included" page_data) as [has|e1] eqn:E1; cbn [bind].
  2: { intros H. injection H as <-. eapply py_in_raise, E1. }
  destruct has; [|discriminate].
  destruct page_data as [| | | s | items | fields]; cbn [py_getitem bind]; try congruence.
  cbn [py_in] in E1. injection E1 as E1. unfold dict_has in E1.
  destruct (dict_lookup "included" fields) as [inc|]; [|discriminate]. cbn [bind].
  destruct (py_iter inc) as [its|e2] eqn:E2; cbn [bind].
  - intros H. eapply (for_each_raise _ (fun e => e = TypeError)); [|exact H].
    intros st x e0. apply add_profile_raise.
  - intros H. injection H as <-. eapply py_iter_raise, E2.
Qed.

Lemma for_each_add_profile_lookup items : forall profiles profiles' key v,
  for_each Complete.add_profile profiles items = Ok profiles' ->
  (profiles' !! key = Some v <->
   (exists i, items !! i = Some v /\ profile_key v = Some key /\
      forall j v', (i < j)%nat -> items !! j = Some v' -> profile_key v' <> Some key) \/
   (profiles !! key = Some v /\
      forall j v', items !! j = Some v' -> profile_key v' <> Some key)).
Proof.
  induction items as [|x items IH] using rev_ind; intros profiles profiles' key v H.
  - injection H as <-. split.
    + intros Hk. right. split; [exact Hk|]. intros j v' Hj. rewrite lookup_nil in Hj. discriminate.
    + intros [(i & Hi & _)|[Hk _]]; [rewrite lookup_nil in Hi; discriminate | exact Hk].
  - rewrite for_each_snoc in H. apply bind_ok_inv in H as (p1 & H1 & H2).
    apply add_profile_ok in H2. specialize (IH _ _ key v H1).
    assert (forall j v', (items ++ [x]) !! j = Some v' ->
              (j < length items)%nat /\ items !! j = Some v' \/ j = length items /\ v' = x)
      as Hsplit.
    { intros j v' Hj. destruct (decide (j < length items)%nat) as [Hlt|Hge].
      - left. rewrite lookup_app_l in Hj by exact Hlt. auto.
      - right. pose proof (lookup_lt_Some _ _ _ Hj) as Hb. rewrite length_app in Hb.
        simpl in Hb. assert (j = length items) as -> by lia.
        rewrite list_lookup_middle in Hj by reflexivity. injection Hj as <-. auto. }
    destruct (decide (profile_key x = Some key)) as [Hx|Hx].
    + rewrite Hx in H2. subst profiles'. rewrite lookup_insert_eq. split.
      * intros Hv. injection Hv as <-. left. exists (length items).
        split; [apply list_lookup_middle; reflexivity|]. split; [exact Hx|].
        intros j v' Hj Hj'. apply lookup_lt_Some in Hj'. rewrite length_app in Hj'.
        simpl in Hj'. lia.
      * intros [(i & Hi & Hk & Hlater)|[_ Hnone]].
        -- destruct (Hsplit _ _ Hi) as [[Hlt Hi']|[-> ->]]; [|reflexivity].
           exfalso. apply (Hlater (length items) x Hlt); [|exact Hx].
           apply list_lookup_middle. reflexivity.
        -- exfalso. apply (Hnone (length items) x); [|exact Hx].
           apply list_lookup_middle. reflexivity.
    + assert (profiles' !! key = p1 !! key) as ->.
      { subst profiles'. destruct (profile_key x) as [k|]; [|reflexivity].
        apply lookup_insert_ne. congruence. }
      rewrite IH. clear IH. split.
      * intros [(i & Hi & Hk & Hlater)|[Hk Hnone]].
        -- left. exists i. split; [apply lookup_app_l_Some; exact Hi|]. split; [exact Hk|].
           intros j v' Hj Hj'. destruct (Hsplit _ _ Hj') as [[_ Hj'']|[_ ->]]; [|exact Hx].
           eapply Hlater; eassumption.
        -- right. split; [exact Hk|]. intros j v' Hj.
           destruct (Hsplit _ _ Hj) as [[_ Hj']|[_ ->]]; [|exact Hx]. eapply Hnone, Hj'.
      * intros [(i & Hi & Hk & Hlater)|[Hk Hnone]].
        -- destruct (Hsplit _ _ Hi) as [[Hlt Hi']|[-> ->]]; [|contradiction].
           left. exists i. split; [exact Hi'|]. split; [exact Hk|].
           intros j v' Hj Hj'. apply (Hlater j v' Hj). apply lookup_app_l_Some. exact Hj'.
        -- right. split; [exact Hk|]. intros j v' Hj. apply (Hnone j v').
           apply lookup_app_l_Some. exact Hj.
Qed.

(** X8.  The mapping [extract_profiles_from_page] returns holds, under a
    key, the last item of [included] that is an object with an [entityUrn]
    of that key and a [publicIdentifier]; it holds nothing else. *)
Theorem extract_profiles_entries (page_data : json) (profiles : profile_map) :
  Complete.extract_profiles_from_page page_data = Ok profiles ->
  forall key v,
    profiles !! key = Some v <->
    exists included items i,
      field "included" page_data = Some included /\
      py_iter included = Ok items /\
      items !! i = Some v /\
      profile_key v = Some key /\
      forall j v', (i < j)%nat -> items !! j = Some v' -> profile_key v' <> Some key.
Proof.
  unfold Complete.extract_profiles_from_page. intros H key v.
  apply bind_ok_inv in H as (has & Hin & H). destruct has.
  - apply bind_ok_inv in H as (inc & Hinc & H). apply bind_ok_inv in H as (items & Hit & H).
    assert (field "included" page_data = Some inc) as Hfield.
    { destruct page_data; try discriminate Hinc. simpl in Hinc |- *.
      destruct (dict_lookup "included" fields); congruence. }
    rewrite (for_each_add_profile_lookup _ _ _ key v H). split.
    + intros [(i & Hi & Hk & Hl)|[He _]]; [|rewrite lookup_empty in He; discriminate].
      exists inc, items, i. auto.
    + intros (inc' & items' & i & Hf' & Hit' & Hi & Hk & Hl).
      rewrite Hfield in Hf'. injection Hf' as <-. rewrite Hit in Hit'. injection Hit' as <-.
      left. exists i. auto.
  - injection H as <-. rewrite lookup_empty. split; [discriminate|].
    intros (inc & items & i & Hf & _). exfalso.
    destruct page_data; try discriminate Hf. simpl in Hf, Hin. injection Hin as Hin.
    unfold dict_has in Hin. rewrite Hf in Hin. discriminate.
Qed.

Lemma extract_profiles_entries_witness :
  let old := JDict [ ("entityUrn", JStr "urn:1"); ("publicIdentifier", JStr "alice");
                     ("headline", JStr "old") ] in
  let other := JDict [("entityUrn", JStr "urn:2")] in
  let new := JDict [ ("entityUrn", JStr "urn:1"); ("publicIdentifier", JStr "alice");
                     ("headline", JStr "new") ] in
  let page := JDict [("included", JList [old; other; new])] in
  exists profiles,
    Complete.extract_profiles_from_page page = Ok profiles /\
    profiles !! KStr "urn:1" = Some new /\
    profiles !! KStr "urn:2" = None.
Proof.
  intros old other new page.
  destruct (Complete.extract_profiles_from_page page) as [profiles|e] eqn:Hrun;
    [|vm_compute in Hrun; discriminate].
  exists profiles. split; [reflexivity|]. split.
  - apply (extract_profiles_entries page profiles Hrun).
    exists (JList [old; other; new]), [old; other; new], 2%nat.
    split; [reflexivity|]. split; [reflexivity|]. split; [reflexivity|].
    split; [reflexivity|].
    intros j v' Hj Hl. apply lookup_lt_Some in Hl. simpl in Hl. lia.
  - vm_compute in Hrun. injection Hrun as <-. vm_compute. reflexivity.
Defined.

(** *** Reducers: when they complete *)

Lemma file_step_succeeds build acc f :
  succeeds (file_step build acc f) = file_completes f.
Proof.
  unfold file_step, file_completes, page_completes. destruct f as [page|]; [|reflexivity].
  destruct (Complete.extract_profiles_from_page page); [|reflexivity]. cbn [bind succeeds andb].
  destruct (Complete.extract_elements_from_page page).1; reflexivity.
Qed.

Lemma file_step_raise build acc f e :
  file_step build acc f = Raise e -> e = TypeError.
Proof.
  unfold file_step. destruct f as [page|]; [|discriminate].
  destruct (Complete.extract_profiles_from_page page) eqn:E; cbn [bind].
  - destruct (py_len _) eqn:E1; cbn [bind].
    + destruct (py_iter _) eqn:E2; cbn [bind]; [discriminate|].
      intros H. injection H as <-. eapply py_iter_raise, E2.
    + intros H. injection H as <-. eapply py_len_raise, E1.
  - intros H. injection H as <-. eapply extract_profiles_raise, E.
Qed.

Lemma for_each_file_step_succeeds build files : forall acc,
  succeeds (for_each (file_step build) acc files) = forallb file_completes files.
Proof.
  induction files as [|f files IH]; intros acc; [reflexivity|].
  cbn [for_each forallb]. rewrite <- (file_step_succeeds build acc f).
  destruct (file_step build acc f); cbn [bind succeeds andb]; [apply IH | reflexivity].
Qed.

Lemma returned_rows_raise r e :
  returned_rows r = Raise e <-> r = Raise e.
Proof. unfold returned_rows. destruct r; simpl; split; congruence. Qed.

Lemma returned_rows_succeeds r : succeeds (returned_rows r) = succeeds r.
Proof. destruct r; reflexivity. Qed.

Lemma reducer_succeeds dir :
  succeeds (Complete.process_downloaded_pages dir)
    = forallb file_completes (map (read_file dir) (sorted (glob_pages dir))) /\
  succeeds (ProcessOnly.process_existing_pages dir)
    = forallb file_completes (map (read_file dir) (sorted (glob_pages dir))).
Proof.
  split.
  - rewrite <- returned_rows_succeeds, Complete_returned_rows.
    rewrite <- (for_each_file_step_succeeds Complete.build_follower_row _ ([], ∅)).
    destruct (for_each _ _ _); reflexivity.
  - rewrite <- returned_rows_succeeds, ProcessOnly_returned_rows.
    rewrite <- (for_each_file_step_succeeds ProcessOnly.build_follower_row _ ([], ∅)).
    destruct (for_each _ _ _); reflexivity.
Qed.

Lemma reducer_raise dir e :
  Complete.process_downloaded_pages dir = Raise e \/
  ProcessOnly.process_existing_pages dir = Raise e ->
  e = TypeError.
Proof.
  intros [H|H]; apply returned_rows_raise in H.
  - rewrite Complete_returned_rows in H.
    destruct (for_each _ _ _) as [|e'] eqn:E; [discriminate|]. injection H as <-.
    eapply (for_each_raise _ (fun e => e = TypeError)); [|exact E].
    intros st x e0. apply file_step_raise.
  - rewrite ProcessOnly_returned_rows in H.
    destruct (for_each _ _ _) as [|e'] eqn:E; [discriminate|]. injection H as <-.
    eapply (for_each_raise _ (fun e => e = TypeError)); [|exact E].
    intros st x e0. apply file_step_raise.
Qed.

(** X9.  A reducer returns its rows exactly when, on every matching file
    that can be read, the extraction of the profiles completes and the
    elements have a length: a file that cannot be read, the extraction of
    the elements and the building of a row never end a reducer.  The two
    reducers complete on the same directories, and the exception that ends
    one is a [TypeError]. *)
Theorem reducer_completes_iff (dir : directory) :
  let files := map (read_file dir) (sorted (glob_pages dir)) in
  succeeds (Complete.process_downloaded_pages dir) = forallb file_completes files /\
  succeeds (ProcessOnly.process_existing_pages dir) = forallb file_completes files /\
  (forall e,
     Complete.process_downloaded_pages dir = Raise e \/
     ProcessOnly.process_existing_pages dir = Raise e ->
     e = TypeError).
Proof.
  intros files. subst files. destruct (reducer_succeeds dir) as [Hc Hp].
  split; [exact Hc|]. split; [exact Hp|]. intros e. apply reducer_raise.
Qed.

Lemma add_profile_succeeds profiles item :
  profile_entry_ok item = true -> succeeds (Complete.add_profile profiles item) = true.
Proof.
  unfold profile_entry_ok, Complete.add_profile, py_and.
  destruct item as [| | | | |p]; try discriminate. cbn [py_in bind py_getitem]. unfold dict_has.
  destruct (dict_lookup "entityUrn" p) as [urn|]; cbn [bind]; [|reflexivity].
  destruct (dict_lookup "publicIdentifier" p); cbn [bind]; [|reflexivity].
  destruct urn; try discriminate; reflexivity.
Qed.

Lemma for_each_add_profile_succeeds items : forall profiles,
  forallb profile_entry_ok items = true ->
  succeeds (for_each Complete.add_profile profiles items) = true.
Proof.
  induction items as [|x items IH]; intros profiles H; [reflexivity|].
  cbn [forallb] in H. apply andb_prop in H as [Hx H]. cbn [for_each].
  pose proof (add_profile_succeeds profiles x Hx) as Hs.
  destruct (Complete.add_profile profiles x); [|discriminate]. cbn [bind]. apply IH, H.
Qed.

Lemma extract_elements_value page_data :
  fst (Complete.extract_elements_from_page page_data) = elements_at (selected_depth page_data).
Proof.
  unfold Complete.extract_elements_from_page. rewrite <- extract_elements_try_selected.
  destruct (Complete.extract_elements_try page_data); reflexivity.
Qed.

Lemma well_shaped_completes page_data :
  snapshot_well_shaped page_data = true -> page_completes page_data = true.
Proof.
  unfold snapshot_well_shaped, page_completes. intros H.
  apply andb_prop in H as [H He]. apply andb_prop in H as [Hd Hi].
  apply andb_true_intro. split.
  - destruct (is_dict_inv _ Hd) as [fields ->]. cbn [field] in Hi.
    unfold Complete.extract_profiles_from_page. cbn [py_in bind py_getitem]. unfold dict_has.
    destruct (dict_lookup "included" fields) as [inc|]; cbn [bind]; [|reflexivity].
    destruct inc as [| | | |items|]; try discriminate. cbn [py_iter bind].
    apply for_each_add_profile_succeeds, Hi.
  - rewrite extract_elements_value.
    destruct (elements_at (selected_depth page_data)); try discriminate. reflexivity.
Qed.

Lemma in_sorted name l : In name (sorted l) <-> In name l.
Proof.
  split; intros H; apply list_elem_of_In; apply list_elem_of_In in H.
  - rewrite <- (sorted_perm l). exact H.
  - rewrite (sorted_perm l). exact H.
Qed.

Lemma well_shaped_files_complete (dir : directory) :
  (forall name page_data,
     In name (glob_pages dir) -> read_file dir name = Ok page_data ->
     snapshot_well_shaped page_data = true) ->
  forallb file_completes (map (read_file dir) (sorted (glob_pages dir))) = true.
Proof.
  intros Hw. apply forallb_forall. intros f Hf. apply in_map_iff in Hf as (name & <- & Hn).
  apply (proj1 (in_sorted _ _)) in Hn. unfold file_completes.
  destruct (read_file dir name) as [page|] eqn:E; [|reflexivity].
  apply well_shaped_completes. eapply Hw; eassumption.
Qed.

(** X10.  On a directory whose readable matching files are snapshots of
    the expected shape, both reducers return their rows. *)
Theorem reducer_completes_on_well_shaped (dir : directory) :
  (forall name page_data,
     In name (glob_pages dir) -> read_file dir name = Ok page_data ->
     snapshot_well_shaped page_data = true) ->
  (exists rows out, Complete.process_downloaded_pages dir = Ok (rows, out)) /\
  (exists rows out, ProcessOnly.process_existing_pages dir = Ok (rows, out)).
Proof.
  intros Hw. pose proof (well_shaped_files_complete dir Hw) as Hall.
  destruct (reducer_succeeds dir) as [Hc Hp]. rewrite Hall in Hc, Hp. split.
  - destruct (Complete.process_downloaded_pages dir) as [[rows out]|]; [eauto | discriminate].
  - destruct (ProcessOnly.process_existing_pages dir) as [[rows out]|]; [eauto | discriminate].
Qed.

Lemma reducer_completes_on_well_shaped_witness :
  let page :=
    JDict [ ("included", JList [JDict [("entityUrn", JStr "urn:1")]]);
            ("data", JDict [ ("organizationDashFollowersByOrganizationalPage",
                              JDict [("elements", JList [JInt 7])]) ]) ] in
  let dir : directory :=
    [ ("followers_page_0.json", Ok page); ("followers_page_1.json", Raise JSONDecodeError) ] in
  exists rows out, Complete.process_downloaded_pages dir = Ok (rows, out).
Proof.
  intros page dir. apply (reducer_completes_on_well_shaped dir).
  intros name page_data Hin Hread. vm_compute in Hin.
  destruct Hin as [<-|[<-|[]]]; vm_compute in Hread; [|discriminate].
  injection Hread as <-. reflexivity.
Defined.

(** *** Reducers: the files they visit and the rows they return *)

Lemma built_rows_columns build profiles items :
  (build = Complete.build_follower_row \/ build = ProcessOnly.build_follower_row) ->
  Forall (fun r => map fst r = ProcessOnly.fieldnames) (built_rows build profiles items).
Proof.
  intros Hb. unfold built_rows. apply Forall_forall. intros r Hr.
  apply list_elem_of_In in Hr. apply filter_In in Hr as [Hr Hne].
  apply in_map_iff in Hr as (e & <- & _).
  destruct (built_row_shape e profiles (fst (build e profiles))) as (p & fo & urn & ->).
  - destruct Hb as [->| ->]; [left|right]; reflexivity.
  - intros E. rewrite E in Hne. discriminate.
  - apply row_of_columns.
Qed.

Lemma file_step_rows build acc f acc' :
  file_step build acc f = Ok acc' ->
  fst acc' = fst acc ++ built_rows build (snd acc') (elements_of_file f).
Proof.
  unfold file_step, elements_of_file. destruct f as [page|e].
  - intros H. apply bind_ok_inv in H as (pp & _ & H). apply bind_ok_inv in H as (n & _ & H).
    apply bind_ok_inv in H as (items & Hi & H). injection H as <-. rewrite Hi. reflexivity.
  - intros H. injection H as <-. cbn. rewrite app_nil_r. reflexivity.
Qed.

Lemma for_each_file_step_rows build files :
  (build = Complete.build_follower_row \/ build = ProcessOnly.build_follower_row) ->
  forall acc acc',
  for_each (file_step build) acc files = Ok acc' ->
  exists extra,
    fst acc' = fst acc ++ extra /\
    Forall (fun r => map fst r = ProcessOnly.fieldnames) extra.
Proof.
  intros Hb. induction files as [|f files IH]; intros acc acc' H; cbn [for_each] in H.
  - injection H as <-. exists []. rewrite app_nil_r. split; [reflexivity | constructor].
  - apply bind_ok_inv in H as (acc1 & H1 & H2).
    destruct (IH _ _ H2) as (extra & E & Hx).
    exists (built_rows build (snd acc1) (elements_of_file f) ++ extra).
    rewrite E, (file_step_rows _ _ _ _ H1), app_assoc. split; [reflexivity|].
    apply Forall_app. split; [apply built_rows_columns, Hb | exact Hx].
Qed.

Lemma processed_names_app a b :
  processed_names (a ++ b) = processed_names a ++ processed_names b.
Proof. apply flat_map_app. Qed.

Lemma fold_add_row_names build profiles items :
  (forall e pm, processed_names (snd (build e pm)) = []) ->
  forall rows out,
  processed_names (snd (fold_left (add_row_with build profiles) items (rows, out)))
  = processed_names out.
Proof.
  intros Hb. induction items as [|e items IH]; intros rows out; [reflexivity|].
  cbn [fold_left]. unfold add_row_with at 2. cbn [fst snd].
  pose proof (Hb e profiles) as He.
  destruct (build e profiles) as [r o]. cbn [snd] in He.
  rewrite IH, processed_names_app, He, app_nil_r. reflexivity.
Qed.

Lemma process_page_names build dir st name st' :
  (forall e pm, processed_names (snd (build e pm)) = []) ->
  process_page_with build dir st name = Ok st' ->
  processed_names (printed st') = processed_names (printed st) ++ [name].
Proof.
  intros Hb. unfold process_page_with.
  destruct (read_file dir name) as [page|e].
  - intros H. apply bind_ok_inv in H as (pp & _ & H).
    destruct (Complete.extract_elements_from_page page) as [elements err] eqn:Ee.
    apply bind_ok_inv in H as (n & _ & H). apply bind_ok_inv in H as (items & _ & H).
    match type of H with context [fold_left ?f ?l (?r, ?o)] =>
      pose proof (fold_add_row_names build (pp ∪ all_profiles st) items Hb r o) as Hx;
      destruct (fold_left f l (r, o)) as [rows out] end.
    cbn [snd] in Hx. injection H as <-. cbn [printed]. rewrite Hx.
    rewrite !processed_names_app. cbn [processed_names flat_map app].
    assert (processed_names err = []) as ->.
    { unfold Complete.extract_elements_from_page in Ee.
      destruct (Complete.extract_elements_try page); injection Ee as _ <-; reflexivity. }
    rewrite !app_nil_r. reflexivity.
  - intros H. injection H as <-. cbn [printed].
    rewrite !processed_names_app. cbn [processed_names flat_map app].
    rewrite app_nil_r. reflexivity.
Qed.

Lemma for_each_names build dir names :
  (forall e pm, processed_names (snd (build e pm)) = []) ->
  forall st st',
  for_each (process_page_with build dir) st names = Ok st' ->
  processed_names (printed st') = processed_names (printed st) ++ names.
Proof.
  intros Hb. induction names as [|name names IH]; intros st st' H; cbn [for_each] in H.
  - injection H as <-. rewrite app_nil_r. reflexivity.
  - apply bind_ok_inv in H as (st1 & H1 & H2).
    rewrite (IH _ _ H2), (process_page_names _ _ _ _ _ Hb H1), <- app_assoc. reflexivity.
Qed.

Lemma Complete_build_names e pm :
  processed_names (snd (Complete.build_follower_row e pm)) = [].
Proof.
  unfold Complete.build_follower_row.
  destruct (Complete.build_follower_row_try e pm); reflexivity.
Qed.

Lemma ProcessOnly_build_names e pm :
  processed_names (snd (ProcessOnly.build_follower_row e pm)) = [].
Proof.
  unfold ProcessOnly.build_follower_row.
  destruct (ProcessOnly.build_follower_row_try e pm); reflexivity.
Qed.

Lemma reducer_processed_names dir rows out :
  Complete.process_downloaded_pages dir = Ok (rows, out) \/
  ProcessOnly.process_existing_pages dir = Ok (rows, out) ->
  processed_names out = sorted (glob_pages dir).
Proof.
  intros [H|H];
    [unfold Complete.process_downloaded_pages in H
    |unfold ProcessOnly.process_existing_pages in H];
    destruct (sorted (glob_pages dir)) as [|name names] eqn:En;
    try (injection H as _ <-; reflexivity);
    apply bind_ok_inv in H as (st & Hrun & H); injection H as _ <-.
  - rewrite Complete_process_page in Hrun.
    apply (for_each_names _ _ _ Complete_build_names) in Hrun.
    rewrite processed_names_app, Hrun. cbn [printed processed_names flat_map app].
    rewrite app_nil_r. reflexivity.
  - rewrite ProcessOnly_process_page in Hrun.
    apply (for_each_names _ _ _ ProcessOnly_build_names) in Hrun.
    rewrite processed_names_app, Hrun. cbn [printed processed_names flat_map app].
    rewrite app_nil_r. reflexivity.
Qed.

Lemma reducer_rows_columns dir rows out :
  Complete.process_downloaded_pages dir = Ok (rows, out) \/
  ProcessOnly.process_existing_pages dir = Ok (rows, out) ->
  Forall (fun r => map fst r = ProcessOnly.fieldnames) rows.
Proof.
  intros [H|H].
  - pose proof (Complete_returned_rows dir) as E. rewrite H in E.
    unfold returned_rows in E. cbn [bind fst] in E. symmetry in E.
    apply bind_ok_inv in E as (acc & Hrun & E). injection E as <-.
    apply for_each_file_step_rows in Hrun as (extra & -> & Hx); [exact Hx | left; reflexivity].
  - pose proof (ProcessOnly_returned_rows dir) as E. rewrite H in E.
    unfold returned_rows in E. cbn [bind fst] in E. symmetry in E.
    apply bind_ok_inv in E as (acc & Hrun & E). injection E as <-.
    apply for_each_file_step_rows in Hrun as (extra & -> & Hx); [exact Hx | right; reflexivity].
Qed.

(** X11.  When a reducer returns its rows, the files it announced are, in
    order, the matching files of the directory in the order of [sorted],
    and each of its rows has the eight columns of the CSV header. *)
Theorem reducer_visits_sorted_files (dir : directory) (rows : list row) (out : list line) :
  Complete.process_downloaded_pages dir = Ok (rows, out) \/
  ProcessOnly.process_existing_pages dir = Ok (rows, out) ->
  processed_names out = sorted (glob_pages dir) /\
  Forall (fun r => map fst r = ProcessOnly.fieldnames) rows.
Proof.
  intros H. split; [apply (reducer_processed_names dir rows out H)
                   | apply (reducer_rows_columns dir rows out H)].
Qed.

Lemma reducer_visits_sorted_files_witness :
  let dir : directory :=
    [ ("followers_page_9.json", Raise JSONDecodeError);
      ("notes.txt", Ok JNull);
      ("followers_page_10.json", Ok (JDict [])) ] in
  exists rows out,
    ProcessOnly.process_existing_pages dir = Ok (rows, out) /\
    processed_names out = ["followers_page_10.json"; "followers_page_9.json"].
Proof.
  intros dir.
  destruct (ProcessOnly.process_existing_pages dir) as [[rows out]|e] eqn:Hrun;
    [|vm_compute in Hrun; discriminate].
  exists rows, out. split; [reflexivity|].
  rewrite (proj1 (reducer_visits_sorted_files dir rows out (or_intror Hrun))).
  vm_compute. reflexivity.
Defined.

(** *** The CSV file and the entry point of process_existing_followers.py *)

(** The rows of the reducers are rows [DictWriter] accepts, and their
    records hold the texts of their values. *)
Lemma dict_to_list_columns r :
  map fst r = ProcessOnly.fieldnames ->
  dict_to_list ProcessOnly.fieldnames r = Ok (map (fun kv => csv_cell (snd kv)) r).
Proof.
  unfold ProcessOnly.fieldnames. intros H.
  do 8 (destruct r as [|[? ?] r]; [discriminate H|]).
  destruct r; [|discriminate H].
  cbn [map fst] in H. injection H as -> -> -> -> -> -> -> ->.
  reflexivity.
Qed.

Lemma writerows_columns rows :
  Forall (fun r => map fst r = ProcessOnly.fieldnames) rows ->
  writerows ProcessOnly.fieldnames rows
  = (map (fun r => map (fun kv => csv_cell (snd kv)) r) rows, None).
Proof.
  induction rows as [|r rows IH]; intros H; [reflexivity|].
  apply Forall_cons in H as [Hr H]. cbn [writerows map].
  rewrite (dict_to_list_columns r Hr), (IH H). reflexivity.
Qed.

Lemma record_of_row_columns r :
  map fst r = ProcessOnly.fieldnames ->
  record_of_row ProcessOnly.fieldnames r (map (fun kv => csv_cell (snd kv)) r).
Proof.
  unfold ProcessOnly.fieldnames. intros H.
  do 8 (destruct r as [|[? ?] r]; [discriminate H|]).
  destruct r; [|discriminate H].
  cbn [map fst] in H. injection H as -> -> -> -> -> -> -> ->.
  split; [reflexivity|].
  intros k name v Hk Hc _.
  do 8 (destruct k as [|k]; [injection Hk as <-; injection Hc as <-; reflexivity|]).
  discriminate Hk.
Qed.

Lemma records_of_rows rows :
  Forall (fun r => map fst r = ProcessOnly.fieldnames) rows ->
  Forall2 (record_of_row ProcessOnly.fieldnames) rows
    (map (fun r => map (fun kv => csv_cell (snd kv)) r) rows).
Proof.
  induction 1 as [|r rows Hr H IH]; cbn [map]; constructor;
    [apply record_of_row_columns, Hr | exact IH].
Qed.

(** Membership in the lines a run printed. *)
Ltac find_in := first [ reflexivity | left; find_in | right; find_in ].

Ltac not_among Hnot :=
  let H := fresh "H" in
  intros H; rewrite !in_app_iff in H; cbn [In] in H;
  decompose [or] H; try congruence; try contradiction;
  eapply Hnot; [|eassumption]; reflexivity.

(** X12.  [main] of [process_existing_followers.py] on rows of the
    reducer, at least one.  When opening and writing the file goes well,
    the file is [OUTPUT_FILE] with the eight columns as its header and one
    record for each row, in order, each with eight cells that hold the
    texts of the primitive values of the row, and [main] prints the
    success line with the number of rows and no failure line.  When
    [open] raises, the file is as it was; when writing breaks off, the
    file is left created or emptied with a part of the text; in both cases
    [main] prints the error and the failure line and no success line.
    [main] touches the file only with rows of the reducer, at least one,
    and only when [open] did not raise. *)
Theorem ProcessOnly_main_csv (dir : directory) (disk : disk_outcome) :
  (forall rows out1,
     ProcessOnly.process_existing_pages dir = Ok (rows, out1) -> rows <> [] ->
     exists out effect,
       ProcessOnly.main dir disk = Ok (out, effect) /\
       match disk with
       | DiskDone =>
           exists f,
             effect = CsvFile f /\
             csv_name f = ProcessOnly.OUTPUT_FILE /\
             csv_header f = ProcessOnly.fieldnames /\
             Forall2 (record_of_row (csv_header f)) rows (csv_records f) /\
             In (LSuccess ProcessOnly.OUTPUT_FILE (length rows)) out /\
             ~ In LFailedCsv out
       | DiskRefused e =>
           effect = CsvUntouched /\
           In (LErrorWritingCsv e) out /\ In LFailedCsv out /\
           (forall name n, ~ In (LSuccess name n) out)
       | DiskBroken e =>
           effect = CsvBrokenOff /\
           In (LErrorWritingCsv e) out /\ In LFailedCsv out /\
           (forall name n, ~ In (LSuccess name n) out)
       end) /\
  (forall out effect,
     ProcessOnly.main dir disk = Ok (out, effect) -> effect <> CsvUntouched ->
     (forall e, disk <> DiskRefused e) /\
     exists rows out1,
       ProcessOnly.process_existing_pages dir = Ok (rows, out1) /\ rows <> []).
Proof.
  split.
  - intros rows out1 Hp Hne.
    assert (glob_pages dir <> []) as Hg.
    { intros Hg. unfold ProcessOnly.process_existing_pages in Hp. rewrite Hg in Hp.
      injection Hp as <- _. contradiction. }
    pose proof (process_existing_pages_lines _ _ _ Hg Hp) as Hlines.
    pose proof (reducer_rows_columns dir rows out1 (or_intror Hp)) as Hc.
    assert (forall l, is_reducer_line l = false -> ~ In l out1) as Hnot.
    { intros l Hl Hin. apply Hlines in Hin. congruence. }
    unfold ProcessOnly.main. rewrite Hp. cbn [bind].
    destruct rows as [|r rows]; [contradiction|].
    unfold ProcessOnly.write_csv. destruct disk as [|e|e].
    + rewrite (writerows_columns _ Hc). eexists _, _. split; [reflexivity|].
      eexists. split; [reflexivity|]. cbn [csv_name csv_header csv_records].
      split; [reflexivity|]. split; [reflexivity|].
      split; [apply records_of_rows, Hc|]. split.
      * rewrite !in_app_iff. cbn [In]. find_in.
      * not_among Hnot.
    + eexists _, _. split; [reflexivity|]. split; [reflexivity|].
      split; [rewrite !in_app_iff; cbn [In]; find_in|].
      split; [rewrite !in_app_iff; cbn [In]; find_in|].
      intros name n. not_among Hnot.
    + eexists _, _. split; [reflexivity|]. split; [reflexivity|].
      split; [rewrite !in_app_iff; cbn [In]; find_in|].
      split; [rewrite !in_app_iff; cbn [In]; find_in|].
      intros name n. not_among Hnot.
  - intros out effect. unfold ProcessOnly.main. intros H Heff.
    apply bind_ok_inv in H as ([rows out1] & Hp & H).
    destruct rows as [|r rows].
    { injection H as _ <-. contradiction. }
    split.
    + intros e ->. cbn in H. injection H as _ <-. contradiction.
    + exists (r :: rows), out1. split; [exact Hp | discriminate].
Qed.


Lemma ProcessOnly_main_csv_witness :
  let page :=
    JDict [ ("data", JDict [ ("organizationDashFollowersByOrganizationalPage",
                              JDict [("elements", JList [JDict [("followedAt", JStr "3d")]])]) ]) ] in
  let dir : directory := [("followers_page_0.json", Ok page)] in
  exists out f,
    ProcessOnly.main dir DiskDone = Ok (out, CsvFile f) /\
    csv_header f = ProcessOnly.fieldnames /\
    csv_records f = [[""; ""; ""; ""; ""; "3d"; ""; ""]] /\
    In (LSuccess "followers.csv" 1) out.
Proof.
  intros page dir.
  destruct (ProcessOnly.process_existing_pages dir) as [[rows out1]|e] eqn:Hp;
    [|vm_compute in Hp; discriminate].
  assert (length rows = 1%nat) as Hlen.
  { pose proof Hp as Hc. vm_compute in Hc. injection Hc as <- _. reflexivity. }
  assert (rows <> []) as Hne by (intros ->; discriminate Hlen).
  destruct (proj1 (ProcessOnly_main_csv dir DiskDone) rows out1 Hp Hne)
    as (out & effect & Hm & f & -> & _ & Hh & _ & Hs & _).
  exists out, f. split; [exact Hm|]. split; [exact Hh|]. rewrite Hlen in Hs.
  split; [|exact Hs].
  vm_compute in Hm. injection Hm as _ <-. reflexivity.
Defined.




(** *** Downloader: the names of the snapshot files *)

Import Downloader.

Lemma page_filename_nonempty page : String.eqb (Complete.page_filename page) "" = false.
Proof.
  apply String.eqb_neq. intros E. apply (f_equal String.length) in E.
  unfold Complete.page_filename in E. rewrite !length_append in E. simpl in E. lia.
Qed.

(** X13.  [save_page_data] gives different pages different names, every
    name it gives matches the pattern of the reducers, and none is the
    name of the CSV file. *)
Theorem saved_names_distinct_and_matched (i j : N) :
  (Complete.page_filename i = Complete.page_filename j <-> i = j) /\
  matches_page_pattern (Complete.page_filename i) = true /\
  Complete.page_filename i <> Complete.OUTPUT_FILE.
Proof.
  split; [split; [apply page_filename_inj | intros ->; reflexivity]|].
  split; [apply matches_page_filename|].
  intros E. pose proof (matches_page_filename i) as H. rewrite E in H. discriminate H.
Qed.

(** *** Downloader: the directory *)

Lemma read_write_same dir name content : read_file (write_file dir name content) name = content.
Proof.
  induction dir as [|[n c] dir IH]; cbn [write_file read_file].
  - rewrite String.eqb_refl. reflexivity.
  - destruct (String.eqb name n) eqn:E; cbn [read_file].
    + rewrite String.eqb_refl. reflexivity.
    + rewrite E. exact IH.
Qed.

Lemma read_write_other dir name content other :
  other <> name -> read_file (write_file dir name content) other = read_file dir other.
Proof.
  intros Hne. induction dir as [|[n c] dir IH]; cbn [write_file read_file].
  - apply String.eqb_neq in Hne. rewrite Hne. reflexivity.
  - destruct (String.eqb name n) eqn:E; cbn [read_file].
    + apply String.eqb_eq in E. subst n.
      apply String.eqb_neq in Hne. rewrite Hne. reflexivity.
    + destruct (String.eqb other n); [reflexivity | exact IH].
Qed.

Lemma write_file_names dir name content other :
  In other (map fst (write_file dir name content)) <-> other = name \/ In other (map fst dir).
Proof.
  induction dir as [|[n c] dir IH]; cbn [write_file map fst In].
  - split; intros H; intuition (subst; auto).
  - destruct (String.eqb name n) eqn:E; cbn [map fst In].
    + apply String.eqb_eq in E. subst n. split; intros H; intuition (subst; auto).
    + rewrite IH. split; intros H; intuition (subst; auto).
Qed.

Lemma write_file_NoDup dir name content :
  List.NoDup (map fst dir) -> List.NoDup (map fst (write_file dir name content)).
Proof.
  induction dir as [|[n c] dir IH]; cbn [write_file map fst]; intros H.
  - constructor; [intros [] | constructor].
  - inversion H as [|? ? Hn Hd]; subst.
    destruct (String.eqb name n) eqn:E; cbn [map fst].
    + apply String.eqb_eq in E. subst n. constructor; assumption.
    + constructor; [|apply IH, Hd].
      intros Hin. apply write_file_names in Hin as [->|Hin]; [|contradiction].
      rewrite String.eqb_refl in E. discriminate.
Qed.

Lemma In_glob_pages dir name :
  In name (glob_pages dir) <-> In name (map fst dir) /\ matches_page_pattern name = true.
Proof.
  unfold glob_pages. rewrite <- !list_elem_of_In, list_elem_of_filter. tauto.
Qed.

Lemma In_range n page : In page (range n) <-> Z.of_N page < n.
Proof.
  unfold range. rewrite in_map_iff. split.
  - intros (k & <- & Hk). apply in_seq in Hk. lia.
  - intros H. exists (N.to_nat page). split; [apply N2Nat.id|]. apply in_seq. lia.
Qed.

Lemma NoDup_range n : List.NoDup (range n).
Proof.
  unfold range. apply Finite.Injective_map_NoDup; [|apply seq_NoDup].
  intros a b H. apply Nat2N.inj, H.
Qed.

(** *** Downloader: the loop of [download_all_followers] *)

Lemma download_page_values cfg http disk n st page :
  let st' := download_page cfg http disk n st page in
  downloaded_files st'
    = downloaded_files st
      ++ (if page_saved cfg http disk page then [Complete.page_filename page] else []) /\
  requested st' = requested st ++ [page_url cfg page] /\
  files st' = apply_effect cfg http disk (files st) page.
Proof.
  unfold download_page, download_followers_page, save_page_data, apply_effect,
    page_effect, page_saved, page_url, page_start.
  destruct (http _) as [data|e]; cbn [py_truthy].
  - destruct (py_truthy data); cbn [andb].
    + destruct (disk _) as [|e|e remains].
      * rewrite page_filename_nonempty. cbn [negb downloaded_files requested files].
        repeat split.
      * cbn [String.eqb negb downloaded_files requested files]. rewrite app_nil_r. repeat split.
      * cbn [String.eqb negb downloaded_files requested files]. rewrite app_nil_r. repeat split.
    + cbn [downloaded_files requested files]. rewrite app_nil_r. repeat split.
  - cbn [downloaded_files requested files]. rewrite app_nil_r. repeat split.
Qed.

Lemma download_loop_values cfg http disk n l : forall st,
  let st' := fold_left (download_page cfg http disk n) l st in
  downloaded_files st'
    = downloaded_files st
      ++ map Complete.page_filename (List.filter (page_saved cfg http disk) l) /\
  requested st' = requested st ++ map (page_url cfg) l /\
  files st' = fold_left (apply_effect cfg http disk) l (files st).
Proof.
  induction l as [|page l IH]; intros st; cbn [fold_left map List.filter].
  - rewrite !app_nil_r. repeat split.
  - destruct (IH (download_page cfg http disk n st page)) as (Hd & Hr & Hf).
    destruct (download_page_values cfg http disk n st page) as (Hd1 & Hr1 & Hf1).
    cbn zeta in *. rewrite Hd, Hr, Hf, Hd1, Hr1, Hf1, <- !app_assoc.
    repeat split. f_equal.
    destruct (page_saved cfg http disk page); reflexivity.
Qed.

Lemma download_all_followers_values cfg http disk dir d :
  download_all_followers cfg http disk dir = Some d ->
  downloaded_files d
    = map Complete.page_filename (List.filter (page_saved cfg http disk) (pages_of cfg)) /\
  requested d = map (page_url cfg) (pages_of cfg) /\
  files d = fold_left (apply_effect cfg http disk) (pages_of cfg) dir.
Proof.
  unfold download_all_followers. destruct (COUNT_PER_PAGE cfg =? 0); [discriminate|].
  intros H. injection H as <-. cbn [downloaded_files requested files].
  match goal with |- context [fold_left _ _ ?st0] =>
    destruct (download_loop_values cfg http disk
                ((TOTAL_FOLLOWERS cfg + COUNT_PER_PAGE cfg - 1) / COUNT_PER_PAGE cfg)
                (pages_of cfg) st0) as (Hd & Hr & Hf) end.
  cbn zeta in *. cbn [downloaded_files requested files app] in *.
  unfold pages_of in *. auto.
Qed.

Lemma download_all_followers_runs cfg http disk dir :
  COUNT_PER_PAGE cfg <> 0 -> exists d, download_all_followers cfg http disk dir = Some d.
Proof.
  intros H. unfold download_all_followers.
  apply Z.eqb_neq in H. rewrite H. eauto.
Qed.

Lemma pages_of_range cfg page :
  In page (pages_of cfg)
  <-> Z.of_N page < (TOTAL_FOLLOWERS cfg + COUNT_PER_PAGE cfg - 1) / COUNT_PER_PAGE cfg.
Proof. apply In_range. Qed.

(** The URL of a request holds the decimal of the first follower it asks
    for, between two strings that are the same for every page. *)
Lemma request_url_start cfg count :
  exists before after, forall start,
    request_url cfg start count = before +:+ str_of_Z start +:+ after.
Proof.
  exists ("https://www.linkedin.com/voyager/api/graphql?variables=" +:+ "(start:").
  exists (if negb (String.eqb (MAX_FOLLOW_TIMESTAMP cfg) "")
          then ",count:" +:+ str_of_Z count
               +:+ ",organizationalPage:urn%3Ali%3Afsd_organizationalPage%3A" +:+ COMPANY_ID cfg
               +:+ ",followerType:MEMBER" +:+ ",maxFollowTimestamp:" +:+ MAX_FOLLOW_TIMESTAMP cfg
               +:+ ")"
               +:+ "&queryId=voyagerOrganizationDashFollowers.36569e7e40afe58d8bc91299def4c53b"
          else ",count:" +:+ str_of_Z count
               +:+ ",organizationalPage:urn%3Ali%3Afsd_organizationalPage%3A" +:+ COMPANY_ID cfg
               +:+ ",followerType:MEMBER" +:+ ")"
               +:+ "&queryId=voyagerOrganizationDashFollowers.36569e7e40afe58d8bc91299def4c53b").
  intros start. unfold request_url, request_variables.
  destruct (negb (String.eqb (MAX_FOLLOW_TIMESTAMP cfg) "")); cbv zeta;
    rewrite !append_assoc; reflexivity.
Qed.

Lemma str_of_Z_nonneg_inj a b : 0 <= a -> 0 <= b -> str_of_Z a = str_of_Z b -> a = b.
Proof.
  intros Ha Hb. unfold str_of_Z.
  assert ((a <? 0) = false) as -> by (apply Z.ltb_ge; exact Ha).
  assert ((b <? 0) = false) as -> by (apply Z.ltb_ge; exact Hb).
  intros H. apply str_of_N_inj in H. lia.
Qed.

Lemma page_url_inj cfg p q :
  0 < COUNT_PER_PAGE cfg -> page_url cfg p = page_url cfg q -> p = q.
Proof.
  intros Hc. unfold page_url.
  destruct (request_url_start cfg (COUNT_PER_PAGE cfg)) as (before & after & E).
  rewrite !E. intros H. apply append_cancel_l, append_cancel_r in H.
  apply str_of_Z_nonneg_inj in H; unfold page_start in *; [nia | nia | nia].
Qed.

Lemma NoDup_map_inj {A B} (f : A -> B) l :
  (forall x y, In x l -> In y l -> f x = f y -> x = y) ->
  List.NoDup l -> List.NoDup (map f l).
Proof.
  intros Hf Hl. induction Hl as [|x l Hx Hl IH]; cbn [map]; constructor.
  - intros Hin. apply in_map_iff in Hin as (y & E & Hy).
    assert (y = x) as -> by (apply Hf; [right; exact Hy | left; reflexivity | exact E]).
    contradiction.
  - apply IH. intros a b Ha Hb. apply Hf; right; assumption.
Qed.

(** X14.  With a positive number of followers and a positive page size,
    [download_all_followers] requests the pages in order, at least one and
    no URL twice;
    every request starts at a follower that exists, and every follower is
    in the window of exactly one request. *)
Theorem download_requests_cover (cfg : config) (http : string -> result json)
  (disk : string -> write_outcome) (dir : directory) :
  0 < TOTAL_FOLLOWERS cfg -> 0 < COUNT_PER_PAGE cfg ->
  exists d,
    download_all_followers cfg http disk dir = Some d /\
    requested d = map (page_url cfg) (pages_of cfg) /\
    List.NoDup (requested d) /\
    pages_of cfg <> [] /\
    (forall page, In page (pages_of cfg) ->
       0 <= page_start cfg page < TOTAL_FOLLOWERS cfg) /\
    (forall k, 0 <= k < TOTAL_FOLLOWERS cfg ->
       exists page, In page (pages_of cfg) /\
         page_start cfg page <= k < page_start cfg page + COUNT_PER_PAGE cfg /\
         forall page', In page' (pages_of cfg) ->
           page_start cfg page' <= k < page_start cfg page' + COUNT_PER_PAGE cfg ->
           page' = page).
Proof.
  intros Ht Hc.
  destruct (download_all_followers_runs cfg http disk dir) as [d Hd]; [lia|].
  exists d. split; [exact Hd|].
  destruct (download_all_followers_values _ _ _ _ _ Hd) as (_ & Hr & _).
  split; [exact Hr|].
  split.
  { rewrite Hr. apply NoDup_map_inj; [|apply NoDup_range].
    intros p q _ _. apply page_url_inj, Hc. }
  set (t := TOTAL_FOLLOWERS cfg) in *. set (c := COUNT_PER_PAGE cfg) in *.
  assert ((t + c - 1) / c = (t - 1) / c + 1) as Hn.
  { replace (t + c - 1) with (t - 1 + 1 * c) by lia. apply Z.div_add. lia. }
  pose proof (Z.div_pos (t - 1) c ltac:(lia) Hc) as Hq.
  pose proof (Z.mul_div_le (t - 1) c Hc) as Hlo.
  split.
  { intros E. assert (In 0%N (pages_of cfg)) as H0.
    { apply pages_of_range. fold t c. rewrite Hn. simpl. lia. }
    rewrite E in H0. destruct H0. }
  split.
  - intros page Hp. apply pages_of_range in Hp. fold t c in Hp. rewrite Hn in Hp.
    unfold page_start. fold c. nia.
  - intros k Hk.
    pose proof (Z.div_pos k c ltac:(lia) Hc) as Hkq.
    pose proof (Z.mul_div_le k c Hc) as Hklo.
    pose proof (Z.mul_succ_div_gt k c Hc) as Hkhi.
    exists (Z.to_N (k / c)). split; [|split].
    + apply pages_of_range. fold t c. rewrite Hn, Z2N.id by assumption.
      assert (k / c <= (t - 1) / c) by (apply Z.div_le_mono; lia). lia.
    + unfold page_start. fold c. rewrite Z2N.id by assumption. lia.
    + intros page' _ Hw. unfold page_start in Hw. fold c in Hw.
      assert (Z.of_N page' = k / c) as E.
      { apply (Z.div_unique_pos k c (Z.of_N page') (k - Z.of_N page' * c)); lia. }
      rewrite <- E. symmetry. apply N2Z.id.
Qed.

Lemma download_requests_cover_witness :
  exists d,
    download_all_followers distributed (fun _ => Raise OSError) (fun _ => WriteDone) [] = Some d /\
    length (requested d) = 49%nat /\
    nth 48 (map (page_start distributed) (pages_of distributed)) 0 = 2400.
Proof.
  destruct (download_requests_cover distributed (fun _ => Raise OSError) (fun _ => WriteDone) [])
    as (d & Hd & Hr & _); [reflexivity | reflexivity |].
  exists d. split; [exact Hd|]. split; [rewrite Hr; vm_compute; reflexivity | vm_compute; reflexivity].
Defined.

(** *** Downloader: the files it leaves *)

Lemma effects_read_other cfg http disk l name : forall dir,
  (forall page, In page l -> name <> Complete.page_filename page) ->
  read_file (fold_left (apply_effect cfg http disk) l dir) name = read_file dir name.
Proof.
  induction l as [|page l IH]; intros dir H; cbn [fold_left]; [reflexivity|].
  rewrite IH by (intros; apply H; right; assumption).
  unfold apply_effect. destruct (page_effect cfg http disk page); [|reflexivity].
  apply read_write_other, H. left. reflexivity.
Qed.

Lemma effects_read_page cfg http disk l page : forall dir,
  List.NoDup l -> In page l ->
  read_file (fold_left (apply_effect cfg http disk) l dir) (Complete.page_filename page)
  = default (read_file dir (Complete.page_filename page)) (page_effect cfg http disk page).
Proof.
  induction l as [|q l IH]; intros dir Hnd Hin; [destruct Hin|].
  inversion Hnd as [|? ? Hq Hnd']; subst. cbn [fold_left].
  destruct Hin as [->|Hin].
  - rewrite effects_read_other.
    + unfold apply_effect. destruct (page_effect cfg http disk page); cbn [from_option id];
        [apply read_write_same | reflexivity].
    + intros p Hp E. apply page_filename_inj in E. subst p. contradiction.
  - rewrite IH by assumption. f_equal.
    unfold apply_effect. destruct (page_effect cfg http disk q); [|reflexivity].
    apply read_write_other. intros E. apply page_filename_inj in E. subst q. contradiction.
Qed.

Lemma effects_names cfg http disk l name : forall dir,
  In name (map fst dir) -> In name (map fst (fold_left (apply_effect cfg http disk) l dir)).
Proof.
  induction l as [|q l IH]; intros dir H; cbn [fold_left]; [exact H|].
  apply IH. unfold apply_effect. destruct (page_effect cfg http disk q); [|exact H].
  apply write_file_names. right. exact H.
Qed.

Lemma effects_NoDup cfg http disk l : forall dir,
  List.NoDup (map fst dir) -> List.NoDup (map fst (fold_left (apply_effect cfg http disk) l dir)).
Proof.
  induction l as [|q l IH]; intros dir H; cbn [fold_left]; [exact H|].
  apply IH. unfold apply_effect. destruct (page_effect cfg http disk q); [|exact H].
  apply write_file_NoDup, H.
Qed.

Lemma effects_wrote cfg http disk l page content : forall dir,
  In page l -> page_effect cfg http disk page = Some content ->
  In (Complete.page_filename page) (map fst (fold_left (apply_effect cfg http disk) l dir)).
Proof.
  induction l as [|q l IH]; intros dir Hin He; [destruct Hin|]. cbn [fold_left].
  destruct Hin as [->|Hin]; [|apply IH; assumption].
  apply effects_names. unfold apply_effect. rewrite He.
  apply write_file_names. left. reflexivity.
Qed.

Lemma page_saved_effect cfg http disk page :
  page_saved cfg http disk page = true ->
  exists data, http (page_url cfg page) = Ok data /\ py_truthy data = true /\
    page_effect cfg http disk page = Some (Ok data).
Proof.
  unfold page_saved, page_effect. destruct (http (page_url cfg page)) as [data|e]; [|discriminate].
  destruct (py_truthy data) eqn:Ht; [|discriminate]. cbn [andb].
  destruct (disk _); try discriminate. intros _. exists data. repeat split. exact Ht.
Qed.

(** X15.  The names [download_all_followers] returns are the names of
    the pages whose response is not empty and whose file was written, in
    the order of the pages.  After the loop each of them is a file the
    pattern of the reducers matches, and reading it gives the response of
    its page. *)
Theorem downloaded_files_hold_responses (cfg : config) (http : string -> result json)
  (disk : string -> write_outcome) (dir : directory) (d : download) :
  download_all_followers cfg http disk dir = Some d ->
  downloaded_files d
    = map Complete.page_filename (List.filter (page_saved cfg http disk) (pages_of cfg)) /\
  (forall name, In name (downloaded_files d) ->
     In name (glob_pages (files d)) /\
     exists page data,
       name = Complete.page_filename page /\ In page (pages_of cfg) /\
       http (page_url cfg page) = Ok data /\ py_truthy data = true /\
       disk name = WriteDone /\
       read_file (files d) name = Ok data).
Proof.
  intros Hd. destruct (download_all_followers_values _ _ _ _ _ Hd) as (Hn & _ & Hf).
  split; [exact Hn|]. intros name Hin. rewrite Hn in Hin.
  apply in_map_iff in Hin as (page & <- & Hp). apply filter_In in Hp as [Hp Hs].
  destruct (page_saved_effect _ _ _ _ Hs) as (data & Hh & Ht & He).
  split.
  - apply In_glob_pages. split; [|apply matches_page_filename].
    rewrite Hf. eapply effects_wrote; eassumption.
  - exists page, data. repeat (split; [assumption || reflexivity|]).
    split.
    + unfold page_saved in Hs. rewrite Hh, Ht in Hs. cbn [andb] in Hs.
      destruct (disk (Complete.page_filename page)); [reflexivity | discriminate..].
    + rewrite Hf, effects_read_page, He by (assumption || apply NoDup_range). reflexivity.
Qed.

Lemma downloaded_files_hold_responses_witness :
  let cfg := {| TOTAL_FOLLOWERS := 120; COUNT_PER_PAGE := 50; COOKIE := "c";
                CSRF_TOKEN := "t"; MAX_FOLLOW_TIMESTAMP := ""; COMPANY_ID := "1" |} in
  let http := fun url : string =>
    if String.eqb url (page_url cfg 1) then Ok (JDict [])
    else Ok (JDict [("url", JStr url)]) in
  let disk := fun name : string =>
    if String.eqb name "followers_page_2.json" then WriteRefused OSError else WriteDone in
  exists d,
    download_all_followers cfg http disk [] = Some d /\
    downloaded_files d = ["followers_page_0.json"].
Proof.
  intros cfg http disk.
  destruct (download_all_followers cfg http disk []) as [d|] eqn:Hd;
    [|vm_compute in Hd; discriminate].
  exists d. split; [reflexivity|].
  rewrite (proj1 (downloaded_files_hold_responses cfg http disk [] d Hd)).
  vm_compute. reflexivity.
Defined.

Lemma download_keeps_snapshots cfg http disk dir d :
  download_all_followers cfg http disk dir = Some d ->
  forall name, In name (glob_pages dir) -> In name (glob_pages (files d)).
Proof.
  intros Hd. destruct (download_all_followers_values _ _ _ _ _ Hd) as (_ & _ & Hf).
  rewrite Hf. intros name Hn. apply In_glob_pages in Hn as [Hn Hm]. apply In_glob_pages.
  split; [apply effects_names, Hn | exact Hm].
Qed.

(** X16.  The directory [download_all_followers] leaves: the file of a
    page holds what the download of the page left there, or what it held
    before when the download did not touch it; every other file is as it
    was; every snapshot file of the directory is still one; and the
    directory still has one entry for a name. *)
Theorem download_directory (cfg : config) (http : string -> result json)
  (disk : string -> write_outcome) (dir : directory) (d : download) :
  download_all_followers cfg http disk dir = Some d ->
  (forall page, In page (pages_of cfg) ->
     read_file (files d) (Complete.page_filename page)
     = default (read_file dir (Complete.page_filename page)) (page_effect cfg http disk page)) /\
  (forall name, (forall page, In page (pages_of cfg) -> name <> Complete.page_filename page) ->
     read_file (files d) name = read_file dir name) /\
  (forall name, In name (glob_pages dir) -> In name (glob_pages (files d))) /\
  (List.NoDup (map fst dir) -> List.NoDup (map fst (files d))).
Proof.
  intros Hd. destruct (download_all_followers_values _ _ _ _ _ Hd) as (_ & _ & Hf).
  rewrite Hf. split; [|split; [|split]].
  - intros page Hp. apply effects_read_page; [apply NoDup_range | exact Hp].
  - intros name Hn. apply effects_read_other, Hn.
  - rewrite <- Hf. apply (download_keeps_snapshots _ _ _ _ _ Hd).
  - apply effects_NoDup.
Qed.

Lemma download_directory_witness :
  let cfg := {| TOTAL_FOLLOWERS := 120; COUNT_PER_PAGE := 50; COOKIE := "c";
                CSRF_TOKEN := "t"; MAX_FOLLOW_TIMESTAMP := ""; COMPANY_ID := "1" |} in
  let http := fun url : string => Ok (JDict [("url", JStr url)]) in
  let disk := fun _ : string => WriteDone in
  let dir : directory := [("followers_page_7.json", Ok (JInt 7)); ("notes.txt", Ok JNull)] in
  exists d,
    download_all_followers cfg http disk dir = Some d /\
    read_file (files d) "followers_page_7.json" = Ok (JInt 7).
Proof.
  intros cfg http disk dir.
  destruct (download_all_followers cfg http disk dir) as [d|] eqn:Hd;
    [|vm_compute in Hd; discriminate].
  exists d. split; [reflexivity|].
  rewrite (proj1 (proj2 (download_directory cfg http disk dir d Hd))); [reflexivity|].
  intros page Hp E. vm_compute in Hp.
  destruct Hp as [<-|[<-|[<-|[]]]]; vm_compute in E; discriminate.
Defined.

(** *** [main] of linkedin_followers_complete.py *)

Lemma In_processed_names name out :
  In name (processed_names out) <-> In (LProcessing name) out.
Proof.
  unfold processed_names. rewrite in_flat_map. split.
  - intros (l & Hl & Hn). destruct l; cbn [In] in Hn; try contradiction.
    destruct Hn as [<-|[]]. exact Hl.
  - intros H. exists (LProcessing name). split; [exact H | left; reflexivity].
Qed.

Lemma configured_inv cfg :
  configured cfg = true ->
  String.eqb (COOKIE cfg) "YOUR_LINKEDIN_COOKIE_VALUE_HERE" = false /\
  String.eqb (CSRF_TOKEN cfg) "YOUR_CSRF_TOKEN_HERE" = false /\
  String.eqb (COMPANY_ID cfg) "YOUR_COMPANY_ID_HERE" = false /\
  (TOTAL_FOLLOWERS cfg <=? 0) = false.
Proof.
  unfold configured. intros H.
  apply andb_prop in H as [H Ht]. apply andb_prop in H as [H Hi].
  apply andb_prop in H as [Hc Hs].
  apply negb_true_iff in Hc, Hs, Hi. apply Z.ltb_lt in Ht.
  repeat split; try assumption. apply Z.leb_gt, Ht.
Qed.

Lemma main_configured cfg http disk csv_disk dir :
  configured cfg = true ->
  main cfg http disk csv_disk dir =
    let out := [MTitle; MRule] ++ [MConfigValidated; MStep1] in
    match download_all_followers cfg http disk dir with
    | None =>
        {| run_shown := out; run_files := dir; run_requested := [];
           run_csv := CsvUntouched; run_crash := Some ZeroDivisionError |}
    | Some d =>
        let out := out ++ shown d in
        let ends out written stop :=
          {| run_shown := out; run_files := files d; run_requested := requested d;
             run_csv := written; run_crash := stop |} in
        match downloaded_files d with
        | [] => ends (out ++ [MNoDataDownloaded]) CsvUntouched None
        | _ =>
            let out := out ++ [MStep2] in
            match Complete.process_downloaded_pages (files d) with
            | Raise e => ends out CsvUntouched (Some (Escaped e))
            | Ok (rows, out1) =>
                let out := out ++ map MPrinted out1 in
                match rows with
                | [] => ends (out ++ [MNoDataFound]) CsvUntouched None
                | _ =>
                    let out := out ++ [MStep3] in
                    let '(ok, out2, written) := write_csv csv_disk Complete.OUTPUT_FILE rows in
                    let out := out ++ map MPrinted out2 in
                    if ok then
                      ends (out ++ [MSuccess Complete.OUTPUT_FILE (length rows);
                                    MCsvIncludes;
                                    MDownloadedFiles (length (downloaded_files d))])
                           written None
                    else ends (out ++ [MFailedCsv]) written None
                end
            end
        end
    end.
Proof.
  intros H. destruct (configured_inv cfg H) as (Hc & Hs & Hi & Ht).
  unfold main. rewrite Hc, Hs, Hi, Ht. reflexivity.
Qed.

Lemma main_unconfigured cfg http disk csv_disk dir :
  configured cfg = false ->
  exists out,
    main cfg http disk csv_disk dir
    = {| run_shown := out; run_files := dir; run_requested := [];
         run_csv := CsvUntouched; run_crash := None |} /\
    ~ In MConfigValidated out.
Proof.
  unfold main, configured. intros Hcfg.
  destruct (String.eqb (COOKIE cfg) _); cbn [negb andb] in Hcfg.
  { eexists. split; [reflexivity|]. intros [H|[H|[H|[H|[]]]]]; discriminate H. }
  destruct (String.eqb (CSRF_TOKEN cfg) _); cbn [negb andb] in Hcfg.
  { eexists. split; [reflexivity|]. intros [H|[H|[H|[H|[]]]]]; discriminate H. }
  destruct (String.eqb (COMPANY_ID cfg) _); cbn [negb andb] in Hcfg.
  { eexists. split; [reflexivity|]. intros [H|[H|[H|[H|[]]]]]; discriminate H. }
  assert ((TOTAL_FOLLOWERS cfg <=? 0) = true) as ->
    by (apply Z.leb_le; apply Z.ltb_ge; exact Hcfg).
  eexists. split; [reflexivity|]. intros [H|[H|[H|[H|[]]]]]; discriminate H.
Qed.

(** X17.  [main] prints that the configuration is valid exactly when no
    placeholder is left in the cookie, the token and the company and the
    number of followers is positive; otherwise it requests nothing, leaves
    the directory as it was, writes no CSV file and returns. *)
Theorem main_needs_configuration (cfg : config) (http : string -> result json)
  (disk : string -> write_outcome) (csv_disk : disk_outcome) (dir : directory) :
  let r := main cfg http disk csv_disk dir in
  (In MConfigValidated (run_shown r) <-> configured cfg = true) /\
  (configured cfg = false ->
   run_requested r = [] /\ run_files r = dir /\ run_csv r = CsvUntouched /\ run_crash r = None).
Proof.
  intros r. subst r. destruct (configured cfg) eqn:Hcfg.
  - split; [|discriminate]. split; [reflexivity|]. intros _.
    rewrite main_configured by exact Hcfg. cbv zeta.
    destruct (download_all_followers cfg http disk dir) as [d|]; cbn [run_shown].
    2:{ right. right. left. reflexivity. }
    assert (forall rest, In MConfigValidated
              ((([MTitle; MRule] ++ [MConfigValidated; MStep1]) ++ shown d) ++ rest)) as Hin.
    { intros rest. right. right. left. reflexivity. }
    destruct (downloaded_files d); cbn [run_shown]; [apply Hin|].
    destruct (Complete.process_downloaded_pages (files d)) as [[rows out1]|e]; cbn [run_shown];
      [|apply Hin].
    destruct rows as [|r rows]; cbn [run_shown].
    { rewrite <- !app_assoc. apply Hin. }
    destruct (write_csv csv_disk Complete.OUTPUT_FILE (r :: rows)) as [[ok out2] written].
    destruct ok; cbn [run_shown]; rewrite <- !app_assoc; apply Hin.
  - destruct (main_unconfigured cfg http disk csv_disk dir Hcfg) as (out & -> & Hout).
    cbn [run_shown run_requested run_files run_csv run_crash].
    split; [split; [intros H; contradiction | discriminate]|].
    intros _. repeat split.
Qed.

Lemma pages_of_negative cfg :
  COUNT_PER_PAGE cfg < 0 -> 2 <= TOTAL_FOLLOWERS cfg -> pages_of cfg = [].
Proof.
  intros Hc Ht. unfold pages_of, range.
  set (a := TOTAL_FOLLOWERS cfg + COUNT_PER_PAGE cfg - 1).
  set (c := COUNT_PER_PAGE cfg) in *.
  assert (a / c <= 0) as Hq.
  { pose proof (Z.div_mod a c ltac:(lia)) as E.
    pose proof (Z.mod_neg_bound a c Hc) as Hr.
    generalize dependent (a / c). generalize dependent (a mod c). intros r Hr q E.
    subst a. nia. }
  replace (Z.to_nat (a / c)) with 0%nat by lia. reflexivity.
Qed.

(** X18.  [main] does not test [COUNT_PER_PAGE].  With a valid
    configuration and a page size of zero the run ends with
    [ZeroDivisionError] before any request; with a negative page size and
    at least two followers it requests no page, says that no data was
    downloaded and returns.  In both cases the directory is as it was and
    no CSV file is written. *)
Theorem main_page_size_unchecked (cfg : config) (http : string -> result json)
  (disk : string -> write_outcome) (csv_disk : disk_outcome) (dir : directory) :
  configured cfg = true ->
  let r := main cfg http disk csv_disk dir in
  (COUNT_PER_PAGE cfg = 0 ->
   run_crash r = Some ZeroDivisionError /\
   run_requested r = [] /\ run_files r = dir /\ run_csv r = CsvUntouched) /\
  (COUNT_PER_PAGE cfg < 0 -> 2 <= TOTAL_FOLLOWERS cfg ->
   run_crash r = None /\
   run_requested r = [] /\ run_files r = dir /\ run_csv r = CsvUntouched /\
   In MNoDataDownloaded (run_shown r)).
Proof.
  intros Hcfg r. subst r. rewrite main_configured by exact Hcfg. cbv zeta. split.
  - intros H0. unfold download_all_followers. rewrite H0. cbn [Z.eqb].
    repeat split.
  - intros Hc Ht.
    destruct (download_all_followers_runs cfg http disk dir) as [d Hd]; [lia|].
    destruct (download_all_followers_values _ _ _ _ _ Hd) as (Hn & Hr & Hf).
    rewrite (pages_of_negative cfg Hc Ht) in Hn, Hr, Hf.
    cbn [map List.filter fold_left] in Hn, Hr, Hf.
    rewrite Hd, Hn. cbn [run_shown run_requested run_files run_csv run_crash].
    repeat split; try assumption.
    apply in_or_app. right. left. reflexivity.
Qed.

Lemma main_page_size_unchecked_witness :
  let cfg := {| TOTAL_FOLLOWERS := 2417; COUNT_PER_PAGE := 0; COOKIE := "c";
                CSRF_TOKEN := "t"; MAX_FOLLOW_TIMESTAMP := ""; COMPANY_ID := "1" |} in
  run_crash (main cfg (fun _ => Raise OSError) (fun _ => WriteDone) DiskDone [])
  = Some ZeroDivisionError.
Proof.
  intros cfg.
  apply (proj1 (main_page_size_unchecked cfg (fun _ => Raise OSError) (fun _ => WriteDone)
                  DiskDone [] eq_refl)).
  reflexivity.
Defined.

(** X19.  [main] of [linkedin_followers_complete.py] with a valid
    configuration, at least one page saved in this run and rows of the
    reducer on the directory the download left, at least one: the run
    ends normally, and the reducer has processed every snapshot file that
    was in the directory before the run, whether or not the run
    downloaded it again.  When opening and writing the CSV file goes well,
    the file is [OUTPUT_FILE] with the eight columns as its header and one
    record for each row, in order, each with eight cells that hold the
    texts of the primitive values of the row, and [main] prints the
    success line.  When [open] raises, the file is as it was; when writing
    breaks off, the file is left created or emptied with a part of the
    text; in both cases [main] prints the error and the failure line.
    [main] touches the CSV file only in such a run, and only when [open]
    did not raise. *)
Theorem main_csv (cfg : config) (http : string -> result json)
  (disk : string -> write_outcome) (csv_disk : disk_outcome) (dir : directory) :
  let r := main cfg http disk csv_disk dir in
  (forall d rows out1,
     configured cfg = true ->
     download_all_followers cfg http disk dir = Some d ->
     downloaded_files d <> [] ->
     Complete.process_downloaded_pages (files d) = Ok (rows, out1) ->
     rows <> [] ->
     run_crash r = None /\
     run_files r = files d /\
     (forall name, In name (glob_pages dir) ->
        In (MPrinted (LProcessing name)) (run_shown r)) /\
     match csv_disk with
     | DiskDone =>
         exists f,
           run_csv r = CsvFile f /\
           csv_name f = Complete.OUTPUT_FILE /\
           csv_header f = fieldnames /\
           Forall2 (record_of_row (csv_header f)) rows (csv_records f) /\
           In (MSuccess Complete.OUTPUT_FILE (length rows)) (run_shown r)
     | DiskRefused e =>
         run_csv r = CsvUntouched /\
         In (MPrinted (LErrorWritingCsv e)) (run_shown r) /\ In MFailedCsv (run_shown r)
     | DiskBroken e =>
         run_csv r = CsvBrokenOff /\
         In (MPrinted (LErrorWritingCsv e)) (run_shown r) /\ In MFailedCsv (run_shown r)
     end) /\
  (run_csv r <> CsvUntouched ->
   configured cfg = true /\
   (forall e, csv_disk <> DiskRefused e) /\
   run_crash r = None /\
   exists d rows out1,
     download_all_followers cfg http disk dir = Some d /\
     downloaded_files d <> [] /\
     Complete.process_downloaded_pages (files d) = Ok (rows, out1) /\
     rows <> []).
Proof.
  intros r. subst r. split.
  - intros d rows out1 Hcfg Hd Hdl Hp Hne.
    pose proof (reducer_rows_columns _ _ _ (or_introl Hp)) as Hcols.
    pose proof (reducer_processed_names _ _ _ (or_introl Hp)) as Hnames.
    rewrite main_configured by exact Hcfg. cbv zeta. rewrite Hd.
    destruct (downloaded_files d) as [|n0 ns] eqn:E; [contradiction|].
    rewrite Hp. destruct rows as [|row0 rows]; [contradiction|].
    assert (forall rest1 rest2 name, In name (glob_pages dir) ->
              In (MPrinted (LProcessing name))
                 ((((([MTitle; MRule] ++ [MConfigValidated; MStep1]) ++ shown d)
                     ++ [MStep2]) ++ map MPrinted out1) ++ rest1 ++ rest2)) as Hstale.
    { intros rest1 rest2 name Hn.
      apply (download_keeps_snapshots cfg http disk dir d Hd), in_sorted in Hn.
      rewrite <- Hnames in Hn. apply In_processed_names in Hn.
      apply (in_map MPrinted) in Hn. rewrite !in_app_iff. tauto. }
    unfold write_csv. destruct csv_disk as [|e|e].
    + change (writerows fieldnames) with (writerows ProcessOnly.fieldnames).
      rewrite (writerows_columns _ Hcols).
      cbn [run_crash run_files run_csv run_shown].
      split; [reflexivity|]. split; [reflexivity|]. split.
      { intros name Hn. rewrite <- !app_assoc. rewrite !app_assoc.
        rewrite <- (app_assoc _ [MStep3]), <- app_assoc. apply Hstale, Hn. }
      eexists. split; [reflexivity|]. cbn [csv_name csv_header csv_records].
      split; [reflexivity|]. split; [reflexivity|].
      split; [apply records_of_rows, Hcols|].
      rewrite !in_app_iff. cbn [In]. find_in.
    + cbn [run_crash run_files run_csv run_shown].
      split; [reflexivity|]. split; [reflexivity|]. split.
      { intros name Hn. rewrite <- (app_assoc _ [MStep3]), <- app_assoc. apply Hstale, Hn. }
      split; [reflexivity|]. split; rewrite !in_app_iff; cbn [In map]; find_in.
    + cbn [run_crash run_files run_csv run_shown].
      split; [reflexivity|]. split; [reflexivity|]. split.
      { intros name Hn. rewrite <- (app_assoc _ [MStep3]), <- app_assoc. apply Hstale, Hn. }
      split; [reflexivity|]. split; rewrite !in_app_iff; cbn [In map]; find_in.
  - intros H. destruct (configured cfg) eqn:Hcfg.
    2:{ destruct (main_unconfigured cfg http disk csv_disk dir Hcfg) as (out & E & _).
        rewrite E in H. contradiction H. reflexivity. }
    split; [reflexivity|].
    rewrite main_configured in * by exact Hcfg. cbv zeta in *.
    destruct (download_all_followers cfg http disk dir) as [d|] eqn:Hd;
      cbn [run_csv] in H; [|contradiction H; reflexivity].
    destruct (downloaded_files d) as [|n0 ns] eqn:Hdl; cbn [run_csv] in H;
      [contradiction H; reflexivity|].
    destruct (Complete.process_downloaded_pages (files d)) as [[rows out1]|e] eqn:Er;
      cbn [run_csv] in H; [|contradiction H; reflexivity].
    destruct rows as [|row0 rows]; cbn [run_csv] in H; [contradiction H; reflexivity|].
    unfold write_csv in *. destruct csv_disk as [|e|e].
    + destruct (writerows fieldnames (row0 :: rows)) as [records [stop|]];
        cbn [run_crash]; (split; [discriminate|]); (split; [reflexivity|]);
        exists d, (row0 :: rows), out1; rewrite Hdl, Er;
        repeat split; discriminate.
    + cbn [run_csv] in H. contradiction H. reflexivity.
    + cbn [run_crash]. split; [discriminate|]. split; [reflexivity|].
      exists d, (row0 :: rows), out1. rewrite Hdl, Er. repeat split; discriminate.
Qed.

Lemma main_csv_witness :
  let cfg := {| TOTAL_FOLLOWERS := 1; COUNT_PER_PAGE := 50; COOKIE := "c";
                CSRF_TOKEN := "t"; MAX_FOLLOW_TIMESTAMP := ""; COMPANY_ID := "1" |} in
  let snapshot := fun text : string =>
    JDict [ ("data", JDict [ ("organizationDashFollowersByOrganizationalPage",
                              JDict [("elements", JList [JDict [("followedAt", JStr text)]])]) ]) ] in
  let http := fun _ : string => Ok (snapshot "3d") in
  let disk := fun _ : string => WriteDone in
  let dir : directory := [("followers_page_5.json", Ok (snapshot "1y"))] in
  exists f,
    run_csv (main cfg http disk DiskDone dir) = CsvFile f /\
    In (MPrinted (LProcessing "followers_page_5.json"))
       (run_shown (main cfg http disk DiskDone dir)) /\
    length (csv_records f) = 2%nat.
Proof.
  intros cfg snapshot http disk dir.
  destruct (download_all_followers cfg http disk dir) as [d|] eqn:Hd;
    [|vm_compute in Hd; discriminate].
  assert (downloaded_files d = ["followers_page_0.json"]) as Hdl.
  { pose proof Hd as Hc. vm_compute in Hc. injection Hc as <-. reflexivity. }
  destruct (Complete.process_downloaded_pages (files d)) as [[rows out1]|e] eqn:Hp.
  2:{ pose proof Hd as Hc. vm_compute in Hc. injection Hc as <-.
      vm_compute in Hp. discriminate Hp. }
  assert (length rows = 2%nat) as Hlen.
  { pose proof Hd as Hc. vm_compute in Hc. injection Hc as <-.
    vm_compute in Hp. injection Hp as <- _. reflexivity. }
  assert (rows <> []) as Hne by (intros ->; discriminate Hlen).
  assert (downloaded_files d <> []) as Hdn by (rewrite Hdl; discriminate).
  destruct (proj1 (main_csv cfg http disk DiskDone dir) d rows out1 eq_refl Hd Hdn Hp Hne)
    as (_ & _ & Hstale & f & Hf & _ & _ & Hrec & _).
  exists f. split; [exact Hf|]. split; [apply Hstale; left; reflexivity|].
  apply Forall2_length in Hrec. rewrite <- Hrec. exact Hlen.
Defined.
